(** * DPST state and hardware-access controller (i915_dpst.c)

    A shallow embedding of the Display Power Savings Technology ioctl
    code of the i915 driver and the properties of its enable/disable
    state machine, its save/restore discipline and its histogram read
    loop.

    The driver functions are state transformers over [drm_device]; every
    register access, vblank wait, backlight write and signal they perform
    is appended to the device's [trace]. *)

From stdpp Require Import base option list gmap strings.
From Stdlib Require Import ZArith Lia.

Local Open Scope Z_scope.

(** ** Constants of the register headers

    The macros below come from i915_reg.h, i915_drv.h and i915_drm.h,
    which the functions of i915_dpst.c use by name only. They are taken
    as parameters of the development. *)

Class dpst_config := {
  DPST_MAX_FACTOR : Z;
  HIST_BIN_COUNT : Z;
  DPST_DIET_ENTRY_COUNT : Z;
  DEFAULT_GUARDBAND_VAL : Z;
  (* bits of the histogram control register *)
  IE_HISTOGRAM_ENABLE : Z;
  IE_MOD_TABLE_ENABLE : Z;
  HSV_INTENSITY_MODE : Z;
  ENHANCEMENT_MODE_MULT : Z;
  BIN_REG_FUNCTION_SELECT_IE : Z;
  BIN_REGISTER_INDEX_MASK : Z;
  (* bits of the histogram guard register *)
  HISTOGRAM_INTERRUPT_ENABLE : Z;
  HISTOGRAM_EVENT_STATUS : Z;
  (* fields of the histogram bin register *)
  BUSY_BIT : Z;
  BIN_COUNT_MASK : Z;
  (* register offsets per platform *)
  BLM_HIST_CTL : Z;
  BLM_HIST_GUARD : Z;
  BLM_HIST_BIN : Z;
  VLV_BLC_HIST_CTL_A : Z;
  VLV_BLC_HIST_GUARD_A : Z;
  VLV_BLC_HIST_BIN_A : Z;
}.

(** errno value of <errno-base.h>. *)
Definition EINVAL : Z := 22.

(** u32 arithmetic wraps modulo 2^32. *)
Definition u32 (z : Z) : Z := z mod 2 ^ 32.

(** ** The register backend

    [I915_READ] and [I915_WRITE] reach the hardware; what a read returns
    and what a write or the passing of a vertical blank does to the
    hardware is the backend's business. *)

Class Hardware (HW : Type) := {
  mmio_read : Z -> HW -> Z * HW;
  mmio_write : Z -> Z -> HW -> HW;
  vblank : HW -> HW;
}.

(** ** Data model *)

Record dpst_regs := {
  blm_hist_ctl : Z;
  blm_hist_guard : Z;
  blm_hist_bin : Z;
}.

Record dpst_saved := {
  is_valid : bool;
  saved_blc_adjustment : Z;
}.

(** [dev_priv->dpst] *)
Record i915_dpst := {
  user_enable : bool;
  kernel_disable : bool;
  enabled : bool;
  blc_adjustment : Z;
  reg : dpst_regs;
  task : option Z;
  signal : Z;
  saved : dpst_saved;
}.

Inductive intel_output_type := INTEL_OUTPUT_EDP | INTEL_OUTPUT_OTHER (n : Z).

(** A connector, its attached encoder (if any) and [panel.backlight.level]. *)
Record intel_connector := {
  encoder : option intel_output_type;
  backlight_level : Z;
}.

Inductive intel_platform := HASWELL | VALLEYVIEW | OTHER_PLATFORM.

Record drm_display_mode := {
  hdisplay : Z;
  vdisplay : Z;
}.

(** What the driver does to the outside world, in order. *)
Inductive event :=
| EvRead (addr val : Z)
| EvWrite (addr val : Z)
| EvVblank
| EvBacklight (level : Z)
| EvSignal (sig tsk : Z).

Record drm_device {HW : Type} := {
  dpst : i915_dpst;
  mmio : HW;
  connector_list : list intel_connector;
  platform : intel_platform;
  has_dpst : bool;                                   (* I915_HAS_DPST(dev) *)
  pipe_a_crtc : option (option drm_display_mode);    (* crtc of PIPE_A and its mode *)
  trace : list event;
}.
Arguments drm_device : clear implicits.

Inductive dpst_ioctl :=
| DPST_ENABLE
| DPST_DISABLE
| DPST_INIT_DATA
| DPST_GET_BIN_DATA
| DPST_APPLY_LUMA
| DPST_RESET_HISTOGRAM_STATUS
| DPST_IOCTL_OTHER (n : Z).

(** [struct dpst_initialize_context]: the ioctl type and the payloads the
    functions below read and write. *)
Record dpst_initialize_context := {
  dpst_ioctl_type : dpst_ioctl;
  (* init_data *)
  threshold_gb : Z;
  gb_delay : Z;
  sig_num : Z;
  image_res : Z;
  (* ie_container *)
  factor_present : list Z;
  dpst_blc_factor : Z;
  (* hist_status.histogram_bins *)
  status : list Z;
}.

(** *** Field updates *)

Definition upd_user_enable (b : bool) (s : i915_dpst) : i915_dpst :=
  {| user_enable := b; kernel_disable := kernel_disable s; enabled := enabled s;
     blc_adjustment := blc_adjustment s; reg := reg s; task := task s;
     signal := signal s; saved := saved s |}.

Definition upd_kernel_disable (b : bool) (s : i915_dpst) : i915_dpst :=
  {| user_enable := user_enable s; kernel_disable := b; enabled := enabled s;
     blc_adjustment := blc_adjustment s; reg := reg s; task := task s;
     signal := signal s; saved := saved s |}.

Definition upd_enabled (b : bool) (s : i915_dpst) : i915_dpst :=
  {| user_enable := user_enable s; kernel_disable := kernel_disable s; enabled := b;
     blc_adjustment := blc_adjustment s; reg := reg s; task := task s;
     signal := signal s; saved := saved s |}.

Definition upd_blc_adjustment (v : Z) (s : i915_dpst) : i915_dpst :=
  {| user_enable := user_enable s; kernel_disable := kernel_disable s; enabled := enabled s;
     blc_adjustment := v; reg := reg s; task := task s;
     signal := signal s; saved := saved s |}.

Definition upd_reg (r : dpst_regs) (s : i915_dpst) : i915_dpst :=
  {| user_enable := user_enable s; kernel_disable := kernel_disable s; enabled := enabled s;
     blc_adjustment := blc_adjustment s; reg := r; task := task s;
     signal := signal s; saved := saved s |}.

Definition upd_task (t : option Z) (s : i915_dpst) : i915_dpst :=
  {| user_enable := user_enable s; kernel_disable := kernel_disable s; enabled := enabled s;
     blc_adjustment := blc_adjustment s; reg := reg s; task := t;
     signal := signal s; saved := saved s |}.

Definition upd_signal (n : Z) (s : i915_dpst) : i915_dpst :=
  {| user_enable := user_enable s; kernel_disable := kernel_disable s; enabled := enabled s;
     blc_adjustment := blc_adjustment s; reg := reg s; task := task s;
     signal := n; saved := saved s |}.

Definition upd_saved (v : dpst_saved) (s : i915_dpst) : i915_dpst :=
  {| user_enable := user_enable s; kernel_disable := kernel_disable s; enabled := enabled s;
     blc_adjustment := blc_adjustment s; reg := reg s; task := task s;
     signal := signal s; saved := v |}.

Definition upd_saved_is_valid (b : bool) (s : i915_dpst) : i915_dpst :=
  upd_saved {| is_valid := b; saved_blc_adjustment := saved_blc_adjustment (saved s) |} s.

Definition upd_saved_blc_adjustment (v : Z) (s : i915_dpst) : i915_dpst :=
  upd_saved {| is_valid := is_valid (saved s); saved_blc_adjustment := v |} s.

Definition upd_threshold_gb (v : Z) (c : dpst_initialize_context) :=
  {| dpst_ioctl_type := dpst_ioctl_type c; threshold_gb := v; gb_delay := gb_delay c;
     sig_num := sig_num c; image_res := image_res c; factor_present := factor_present c;
     dpst_blc_factor := dpst_blc_factor c; status := status c |}.

Definition upd_image_res (v : Z) (c : dpst_initialize_context) :=
  {| dpst_ioctl_type := dpst_ioctl_type c; threshold_gb := threshold_gb c;
     gb_delay := gb_delay c; sig_num := sig_num c; image_res := v;
     factor_present := factor_present c; dpst_blc_factor := dpst_blc_factor c;
     status := status c |}.

Definition upd_status (l : list Z) (c : dpst_initialize_context) :=
  {| dpst_ioctl_type := dpst_ioctl_type c; threshold_gb := threshold_gb c;
     gb_delay := gb_delay c; sig_num := sig_num c; image_res := image_res c;
     factor_present := factor_present c; dpst_blc_factor := dpst_blc_factor c;
     status := l |}.

(** ** State-passing computations *)

Definition state_m (S A : Type) : Type := S -> A * S.

Definition ret {S A} (a : A) : state_m S A := fun d => (a, d).

Definition bind {S A B} (m : state_m S A) (k : A -> state_m S B) : state_m S B :=
  fun d => let '(a, d') := m d in k a d'.

Notation "x <- m ;; k" := (bind m (fun x => k))
  (at level 100, m at next level, right associativity).
Notation "m ;;; k" := (bind m (fun _ => k))
  (at level 100, right associativity).

(** ** The driver *)

Section Driver.

Context {HW : Type} `{!Hardware HW} `{!dpst_config}.

Abbreviation device := (drm_device HW).

(** State-passing computations of the driver. *)
Definition drv (A : Type) : Type := state_m device A.

Definition with_dpst (s : i915_dpst) (d : device) : device :=
  {| dpst := s; mmio := mmio d; connector_list := connector_list d;
     platform := platform d; has_dpst := has_dpst d;
     pipe_a_crtc := pipe_a_crtc d; trace := trace d |}.

Definition with_io (h : HW) (e : event) (d : device) : device :=
  {| dpst := dpst d; mmio := h; connector_list := connector_list d;
     platform := platform d; has_dpst := has_dpst d;
     pipe_a_crtc := pipe_a_crtc d; trace := trace d ++ [e] |}.

(** [dev_priv->dpst.f = v] and reading [dev_priv->dpst.f]. *)
Definition assign (f : i915_dpst -> i915_dpst) : drv unit :=
  fun d => (tt, with_dpst (f (dpst d)) d).

Definition load {A} (f : i915_dpst -> A) : drv A :=
  fun d => (f (dpst d), d).

(** [I915_READ(dev_priv->dpst.reg.r)] *)
Definition I915_READ (r : dpst_regs -> Z) : drv Z := fun d =>
  let a := r (reg (dpst d)) in
  let '(v, h) := mmio_read a (mmio d) in
  (v, with_io h (EvRead a v) d).

(** [I915_WRITE(dev_priv->dpst.reg.r, v)] *)
Definition I915_WRITE (r : dpst_regs -> Z) (v : Z) : drv unit := fun d =>
  let a := r (reg (dpst d)) in
  (tt, with_io (mmio_write a v (mmio d)) (EvWrite a v) d).

Definition intel_wait_for_vblank : drv unit := fun d =>
  (tt, with_io (vblank (mmio d)) EvVblank d).

(** The panel's brightness setter, an external collaborator: the level
    it is handed is recorded. *)
Definition intel_panel_actually_set_backlight (level : Z) : drv unit := fun d =>
  (tt, with_io (mmio d) (EvBacklight level) d).

Definition send_sig_info (sig tsk : Z) : drv unit := fun d =>
  (tt, with_io (mmio d) (EvSignal sig tsk) d).

Definition is_edp (c : intel_connector) : bool :=
  match encoder c with
  | Some INTEL_OUTPUT_EDP => true
  | _ => false
  end.

Definition get_intel_connector_on_edp : drv (option intel_connector) :=
  fun d => (find is_edp (connector_list d), d).

Definition i915_dpst_clear_hist_interrupt : drv Z :=
  g <- I915_READ blm_hist_guard ;;
  I915_WRITE blm_hist_guard (Z.lor g HISTOGRAM_EVENT_STATUS) ;;;
  ret 0.

Definition i915_dpst_enable_hist_interrupt : drv Z :=
  assign (upd_enabled true) ;;;
  assign (upd_blc_adjustment DPST_MAX_FACTOR) ;;;
  (* Enable histogram logic to collect data *)
  ctl <- I915_READ blm_hist_ctl ;;
  let ctl := Z.lor ctl (Z.lor IE_HISTOGRAM_ENABLE HSV_INTENSITY_MODE) in
  I915_WRITE blm_hist_ctl ctl ;;;
  intel_wait_for_vblank ;;;
  (* Clear pending interrupt bit *)
  g <- I915_READ blm_hist_guard ;;
  I915_WRITE blm_hist_guard (Z.lor g HISTOGRAM_EVENT_STATUS) ;;;
  (* Enable histogram interrupts *)
  g <- I915_READ blm_hist_guard ;;
  I915_WRITE blm_hist_guard (Z.lor g HISTOGRAM_INTERRUPT_ENABLE) ;;;
  ret 0.

Definition i915_dpst_disable_hist_interrupt : drv Z :=
  i_connector <- get_intel_connector_on_edp ;;
  match i_connector with
  | None => ret (- EINVAL)
  | Some i_connector =>
    assign (upd_enabled false) ;;;
    assign (upd_blc_adjustment DPST_MAX_FACTOR) ;;;
    (* Disable histogram interrupts and clear pending ones in one write *)
    g <- I915_READ blm_hist_guard ;;
    let g := Z.lor g HISTOGRAM_EVENT_STATUS in
    let g := Z.land g (Z.lnot HISTOGRAM_INTERRUPT_ENABLE) in
    I915_WRITE blm_hist_guard g ;;;
    (* Disable histogram logic *)
    ctl <- I915_READ blm_hist_ctl ;;
    let ctl := Z.land ctl (Z.lnot IE_HISTOGRAM_ENABLE) in
    let ctl := Z.land ctl (Z.lnot IE_MOD_TABLE_ENABLE) in
    I915_WRITE blm_hist_ctl ctl ;;;
    (* Setting blc level to what it would be without dpst adjustment *)
    intel_panel_actually_set_backlight (backlight_level i_connector) ;;;
    ret 0
  end.

Definition i915_dpst_set_user_enable (enable : bool) : drv Z :=
  assign (upd_user_enable enable) ;;;
  if enable then
    kd <- load kernel_disable ;;
    en <- load enabled ;;
    if negb kd && negb en then i915_dpst_enable_hist_interrupt
    else ret 0
  else
    (* User disabling invalidates any saved settings *)
    assign (upd_saved_is_valid false) ;;;
    en <- load enabled ;;
    if en then i915_dpst_disable_hist_interrupt
    else ret 0.

(** called by multi-process, be cautious to avoid race condition *)
Definition i915_dpst_set_brightness (brightness_val : Z) : drv unit :=
  i_connector <- get_intel_connector_on_edp ;;
  match i_connector with
  | None => ret tt
  | Some _ =>
    en <- load enabled ;;
    if negb en then ret tt
    else
      adj <- load blc_adjustment ;;
      let backlight_level := u32 (brightness_val * adj) / 100 / 100 in
      intel_panel_actually_set_backlight backlight_level
  end.

Fixpoint for_each {A} (l : list A) (body : A -> drv unit) : drv unit :=
  match l with
  | [] => ret tt
  | x :: l => body x ;;; for_each l body
  end.

(** [factor_present[i] * 0x200 / 10000], in u32 arithmetic. An entry
    beyond the end of the list reads as 0 (the C array has
    DPST_DIET_ENTRY_COUNT entries by type). *)
Definition diet_factor (ioctl_data : dpst_initialize_context) (i : Z) : Z :=
  u32 (default 0 (factor_present ioctl_data !! Z.to_nat i) * 0x200) / 10000.

Definition i915_dpst_apply_luma (ioctl_data : dpst_initialize_context) : drv Z :=
  i_connector <- get_intel_connector_on_edp ;;
  match i_connector with
  | None => ret (- EINVAL)
  | Some i_connector =>
    (* This is an invalid call if we are disabled by the user *)
    ue <- load user_enable ;;
    if negb ue then ret (- EINVAL)
    else
      (* Setup register to access image enhancement value from index 0 *)
      ctl <- I915_READ blm_hist_ctl ;;
      let ctl := Z.lor ctl BIN_REG_FUNCTION_SELECT_IE in
      let ctl := Z.land ctl (Z.lnot BIN_REGISTER_INDEX_MASK) in
      I915_WRITE blm_hist_ctl ctl ;;;
      (* Program the image enhancement data passed from user mode *)
      for_each (seqZ 0 DPST_DIET_ENTRY_COUNT)
        (fun i => I915_WRITE blm_hist_bin (diet_factor ioctl_data i)) ;;;
      kd <- load kernel_disable ;;
      if kd then
        assign (upd_saved_is_valid true) ;;;
        assign (upd_saved_blc_adjustment (dpst_blc_factor ioctl_data)) ;;;
        ret 0
      else
        (* Backlight settings *)
        assign (upd_blc_adjustment (dpst_blc_factor ioctl_data)) ;;;
        i915_dpst_set_brightness (backlight_level i_connector) ;;;
        (* Enable Image Enhancement Table *)
        ctl <- I915_READ blm_hist_ctl ;;
        let ctl := Z.lor ctl (Z.lor IE_MOD_TABLE_ENABLE ENHANCEMENT_MODE_MULT) in
        I915_WRITE blm_hist_ctl ctl ;;;
        ret 0
  end.

Definition i915_dpst_save_luma : drv unit :=
  (* Only save if user mode has indeed applied valid settings which
     we determine by checking that the IE mod table was enabled *)
  ctl <- I915_READ blm_hist_ctl ;;
  if Z.land ctl IE_MOD_TABLE_ENABLE =? 0 then ret tt
  else
    assign (upd_saved_is_valid true) ;;;
    adj <- load blc_adjustment ;;
    assign (upd_saved_blc_adjustment adj).

Definition i915_dpst_restore_luma : drv unit :=
  i_connector <- get_intel_connector_on_edp ;;
  match i_connector with
  | None => ret tt
  | Some i_connector =>
    (* Only restore if valid settings were previously saved *)
    sv <- load saved ;;
    if negb (is_valid sv) then ret tt
    else
      assign (upd_blc_adjustment (saved_blc_adjustment sv)) ;;;
      i915_dpst_set_brightness (backlight_level i_connector) ;;;
      (* only need to re-enable the table *)
      ctl <- I915_READ blm_hist_ctl ;;
      let ctl := Z.lor ctl (Z.lor IE_MOD_TABLE_ENABLE ENHANCEMENT_MODE_MULT) in
      I915_WRITE blm_hist_ctl ctl
  end.

(** The bin-read loop of [i915_dpst_get_bin_data]. One unit of [fuel]
    pays for one evaluation of the loop condition; [None] means the
    fuel ran out before the loop was left. *)
Fixpoint read_bins (fuel : nat) (index : Z) (ioctl_data : dpst_initialize_context)
    (d : device) : option (dpst_initialize_context * device) :=
  match fuel with
  | O => None
  | S fuel =>
    if index <? HIST_BIN_COUNT then
      let '(bin, d) := I915_READ blm_hist_bin d in
      if Z.land bin BUSY_BIT =? 0 then
        let ioctl_data :=
          upd_status (<[Z.to_nat index := Z.land bin BIN_COUNT_MASK]> (status ioctl_data))
                     ioctl_data in
        read_bins fuel (index + 1) ioctl_data d
      else
        (* Engine is busy. Reset index to 0 to grab fresh histogram data *)
        let index := -1 in
        let '(_, d) :=
          (ctl <- I915_READ blm_hist_ctl ;;
           I915_WRITE blm_hist_ctl (Z.land ctl (Z.lnot BIN_REGISTER_INDEX_MASK))) d in
        read_bins fuel (index + 1) ioctl_data d
    else Some (ioctl_data, d)
  end.

Definition i915_dpst_get_bin_data (fuel : nat) (ioctl_data : dpst_initialize_context)
    (d : device) : option (Z * dpst_initialize_context * device) :=
  if negb (enabled (dpst d)) && negb (user_enable (dpst d)) then
    Some (- EINVAL, ioctl_data, d)
  else
    (* Setup register to access bin data from index 0 *)
    let '(_, d) :=
      (ctl <- I915_READ blm_hist_ctl ;;
       let ctl :=
         Z.land ctl (Z.lnot (Z.lor BIN_REGISTER_INDEX_MASK BIN_REG_FUNCTION_SELECT_IE)) in
       I915_WRITE blm_hist_ctl ctl) d in
    (* Read all bin data *)
    match read_bins fuel 0 ioctl_data d with
    | Some (ioctl_data, d) => Some (0, ioctl_data, d)
    | None => None
    end.

Definition i915_dpst_update_registers : drv Z := fun d =>
  match platform d with
  | HASWELL =>
    (assign (upd_reg {| blm_hist_ctl := BLM_HIST_CTL;
                        blm_hist_guard := BLM_HIST_GUARD;
                        blm_hist_bin := BLM_HIST_BIN |}) ;;; ret 0) d
  | VALLEYVIEW =>
    (assign (upd_reg {| blm_hist_ctl := VLV_BLC_HIST_CTL_A;
                        blm_hist_guard := VLV_BLC_HIST_GUARD_A;
                        blm_hist_bin := VLV_BLC_HIST_BIN_A |}) ;;; ret 0) d
  | OTHER_PLATFORM => (- EINVAL, d)
  end.

Definition i915_dpst_init (current : Z) (ioctl_data : dpst_initialize_context)
    : drv (Z * dpst_initialize_context) := fun d =>
  (* Get information about current display mode *)
  let ioctl_data :=
    match pipe_a_crtc d with
    | Some (Some mode) =>
      let gb_val := u32 (Z.quot (DEFAULT_GUARDBAND_VAL * hdisplay mode * vdisplay mode) 1000) in
      upd_image_res (u32 (hdisplay mode * vdisplay mode))
        (upd_threshold_gb gb_val ioctl_data)
    | _ => ioctl_data
    end in
  (r <- i915_dpst_update_registers ;;
   if negb (r =? 0) then ret (- EINVAL, ioctl_data)
   else
     (* Store info needed to talk to user mode *)
     assign (upd_task (Some current)) ;;;
     assign (upd_signal (sig_num ioctl_data)) ;;;
     (* Setup guardband delays and threshold *)
     g <- I915_READ blm_hist_guard ;;
     let g := Z.lor g (Z.lor (u32 (Z.shiftl (gb_delay ioctl_data) 22))
                             (threshold_gb ioctl_data)) in
     I915_WRITE blm_hist_guard g ;;;
     (* Init is complete so request enablement *)
     r <- i915_dpst_set_user_enable true ;;
     ret (r, ioctl_data)) d.

Definition i915_dpst_get_brightness : drv Z :=
  i_connector <- get_intel_connector_on_edp ;;
  match i_connector with
  | None => ret (u32 (- EINVAL))
  | Some i_connector =>
    en <- load enabled ;;
    if negb en then ret 0
    else ret (backlight_level i_connector)
  end.

Definition i915_dpst_irq_handler : drv unit :=
  t <- load task ;;
  match t with
  | Some t => sg <- load signal ;; send_sig_info sg t
  | None => ret tt
  end.

(** The ioctl entry point. [data] is the argument pointer ([None] for
    NULL), [current] the calling task. The ioctl lock makes the calls
    sequential, which is how they are modelled. *)
Definition i915_dpst_context (fuel : nat) (current : Z)
    (data : option dpst_initialize_context) (d : device)
    : option (Z * option dpst_initialize_context * device) :=
  match data with
  | None => Some (- EINVAL, None, d)
  | Some ioctl_data =>
    if negb (has_dpst d) then Some (- EINVAL, data, d)
    else
      match dpst_ioctl_type ioctl_data with
      | DPST_ENABLE =>
        let '(r, d) := i915_dpst_set_user_enable true d in Some (r, data, d)
      | DPST_DISABLE =>
        let '(r, d) := i915_dpst_set_user_enable false d in Some (r, data, d)
      | DPST_INIT_DATA =>
        let '(r, ioctl_data, d) := i915_dpst_init current ioctl_data d in
        Some (r, Some ioctl_data, d)
      | DPST_GET_BIN_DATA =>
        match i915_dpst_get_bin_data fuel ioctl_data d with
        | Some (r, ioctl_data, d) => Some (r, Some ioctl_data, d)
        | None => None
        end
      | DPST_APPLY_LUMA =>
        let '(r, d) := i915_dpst_apply_luma ioctl_data d in Some (r, data, d)
      | DPST_RESET_HISTOGRAM_STATUS =>
        let '(r, d) := i915_dpst_clear_hist_interrupt d in Some (r, data, d)
      | DPST_IOCTL_OTHER _ => Some (- EINVAL, data, d)
      end
  end.

Definition i915_dpst_set_kernel_disable (disable : bool) : drv Z := fun d =>
  if negb (has_dpst d) then (- EINVAL, d)
  else
    (assign (upd_kernel_disable disable) ;;;
     en <- load enabled ;;
     if disable && en then
       i915_dpst_save_luma ;;;
       i915_dpst_disable_hist_interrupt
     else
       ue <- load user_enable ;;
       if negb disable && ue then
         r <- i915_dpst_enable_hist_interrupt ;;
         (if r =? 0 then i915_dpst_restore_luma else ret tt) ;;;
         ret r
       else ret 0) d.

End Driver.

(** ** Two simulated backends and values for the constants

    [regfile_hw] is a plain register file: every offset latches the last
    value written to it and reads back 0 before the first write.
    [constant_hw v] answers every read with [v]. *)

#[export] Instance regfile_hw : Hardware (gmap Z Z) := {|
  mmio_read a h := (default 0 (h !! a), h);
  mmio_write a v h := <[a := v]> h;
  vblank h := h;
|}.

(** A backend without state: every read returns [v]. *)
Definition constant_hw (v : Z) : Hardware unit := {|
  mmio_read a h := (v, h);
  mmio_write a v h := h;
  vblank h := h;
|}.

(** Values for the constants, on which the scenarios below run the
    driver: DPST_MAX_FACTOR is 10000 (100%, no backlight reduction); the
    bit positions and register offsets are those of the i915 register
    header of this kernel line. The general theorems do not depend on
    them: they take the constants as parameters. *)
Definition i915_config : dpst_config := {|
  DPST_MAX_FACTOR := 10000;
  HIST_BIN_COUNT := 32;
  DPST_DIET_ENTRY_COUNT := 33;
  DEFAULT_GUARDBAND_VAL := 30;
  IE_HISTOGRAM_ENABLE := Z.shiftl 1 31;
  IE_MOD_TABLE_ENABLE := Z.shiftl 1 27;
  HSV_INTENSITY_MODE := Z.shiftl 1 24;
  ENHANCEMENT_MODE_MULT := Z.shiftl 2 13;
  BIN_REG_FUNCTION_SELECT_IE := Z.shiftl 1 11;
  BIN_REGISTER_INDEX_MASK := 0x7F;
  HISTOGRAM_INTERRUPT_ENABLE := Z.shiftl 1 31;
  HISTOGRAM_EVENT_STATUS := Z.shiftl 1 30;
  BUSY_BIT := Z.shiftl 1 31;
  BIN_COUNT_MASK := 0x3FFFFF;
  BLM_HIST_CTL := 0x48260;
  BLM_HIST_GUARD := 0x48268;
  BLM_HIST_BIN := 0x48264;
  VLV_BLC_HIST_CTL_A := 0x1E1260;
  VLV_BLC_HIST_GUARD_A := 0x1E1268;
  VLV_BLC_HIST_BIN_A := 0x1E1264;
|}.

(** The zero-initialised [dev_priv->dpst] of a freshly attached device. *)
Definition dpst0 : i915_dpst := {|
  user_enable := false; kernel_disable := false; enabled := false;
  blc_adjustment := 0;
  reg := {| blm_hist_ctl := 0; blm_hist_guard := 0; blm_hist_bin := 0 |};
  task := None; signal := 0;
  saved := {| is_valid := false; saved_blc_adjustment := 0 |};
|}.

Definition edp_panel (level : Z) : intel_connector :=
  {| encoder := Some INTEL_OUTPUT_EDP; backlight_level := level |}.

(** A Valleyview device with DPST support at attach time. *)
Definition boot {HW : Type} (h : HW) (cs : list intel_connector) : drm_device HW := {|
  dpst := dpst0; mmio := h; connector_list := cs; platform := VALLEYVIEW;
  has_dpst := true;
  pipe_a_crtc := Some (Some {| hdisplay := 1920; vdisplay := 1080 |});
  trace := [];
|}.

Definition ioctl_cmd (t : dpst_ioctl) : dpst_initialize_context := {|
  dpst_ioctl_type := t; threshold_gb := 0; gb_delay := 0; sig_num := 10;
  image_res := 0; factor_present := replicate 33 10000; dpst_blc_factor := 5000;
  status := replicate 32 0;
|}.

(** ** Summaries of the driver's effects *)

Section Summary.

Context {HW : Type} `{!Hardware HW} `{!dpst_config}.

Abbreviation device := (drm_device HW).

(** The device after the driver has moved the DPST record to [s], the
    hardware to [h] and has added the events [es]; everything else is
    as in [d]. *)
Definition evolve (s : i915_dpst) (h : HW) (es : list event) (d : device) : device :=
  {| dpst := s; mmio := h; connector_list := connector_list d;
     platform := platform d; has_dpst := has_dpst d;
     pipe_a_crtc := pipe_a_crtc d; trace := trace d ++ es |}.

Definition edp (d : device) : option intel_connector := find is_edp (connector_list d).

(** *** The flag-level effect of the two gates

    What [i915_dpst_set_user_enable] and [i915_dpst_set_kernel_disable]
    return and do to the DPST record, as a function of the record,
    of whether an eDP connector exists and (for the kernel gate) of
    whether the control register read by [i915_dpst_save_luma] shows
    the enhancement table enabled. *)

Definition on_enable (s : i915_dpst) : i915_dpst :=
  upd_blc_adjustment DPST_MAX_FACTOR (upd_enabled true s).

Definition on_disable (s : i915_dpst) : i915_dpst :=
  upd_blc_adjustment DPST_MAX_FACTOR (upd_enabled false s).

Definition user_gate (has_edp : bool) (enable : bool) (s : i915_dpst) : Z * i915_dpst :=
  let s := upd_user_enable enable s in
  if enable then
    if negb (kernel_disable s) && negb (enabled s) then (0, on_enable s) else (0, s)
  else
    let s := upd_saved_is_valid false s in
    if enabled s then
      if has_edp then (0, on_disable s) else (- EINVAL, s)
    else (0, s).

Definition kernel_gate (has_edp ie_on : bool) (disable : bool) (s : i915_dpst)
    : Z * i915_dpst :=
  let s := upd_kernel_disable disable s in
  if disable && enabled s then
    let s := if ie_on
             then upd_saved {| is_valid := true;
                               saved_blc_adjustment := blc_adjustment s |} s
             else s in
    if has_edp then (0, on_disable s) else (- EINVAL, s)
  else if negb disable && user_enable s then
    let s := on_enable s in
    (0, if has_edp && is_valid (saved s)
        then upd_blc_adjustment (saved_blc_adjustment (saved s)) s
        else s)
  else (0, s).

Definition has_edp (d : device) : bool := bool_decide (is_Some (edp d)).

(** Does a read of the control register show IE_MOD_TABLE_ENABLE? *)
Definition ie_on (d : device) : bool :=
  negb (Z.land (fst (mmio_read (blm_hist_ctl (reg (dpst d))) (mmio d)))
               IE_MOD_TABLE_ENABLE =? 0).

(** *** The gate invariant *)

Inductive gate_call := SetUserEnable (b : bool) | SetKernelDisable (b : bool).

Definition run_gate_call (c : gate_call) : drv Z :=
  match c with
  | SetUserEnable b => i915_dpst_set_user_enable b
  | SetKernelDisable b => i915_dpst_set_kernel_disable b
  end.

(** The states in which the device is found after each call of [cs]. *)
Fixpoint states_after (cs : list gate_call) (d : device) : list device :=
  match cs with
  | [] => []
  | c :: cs => let d' := snd (run_gate_call c d) in d' :: states_after cs d'
  end.

Definition gate_inv (d : device) : Prop :=
  enabled (dpst d) = user_enable (dpst d) && negb (kernel_disable (dpst d)).

(** The register traffic of the table-programming part of
    [i915_dpst_apply_luma], given the value [v] read from the control
    register. *)
Definition select_ie (v : Z) : Z :=
  Z.land (Z.lor v BIN_REG_FUNCTION_SELECT_IE) (Z.lnot BIN_REGISTER_INDEX_MASK).

Definition program_table_events (ioctl_data : dpst_initialize_context) (s : i915_dpst)
    (v : Z) : list event :=
  [EvRead (blm_hist_ctl (reg s)) v; EvWrite (blm_hist_ctl (reg s)) (select_ie v)] ++
  map (λ i, EvWrite (blm_hist_bin (reg s)) (diet_factor ioctl_data i))
      (seqZ 0 DPST_DIET_ENTRY_COUNT).

Definition program_table_hw (ioctl_data : dpst_initialize_context) (s : i915_dpst)
    (v : Z) (h : HW) : HW :=
  foldl (λ h i, mmio_write (blm_hist_bin (reg s)) (diet_factor ioctl_data i) h)
        (mmio_write (blm_hist_ctl (reg s)) (select_ie v) h)
        (seqZ 0 DPST_DIET_ENTRY_COUNT).

(** *** The histogram read loop *)

(** Every read of offset [a] shows the busy bit clear / set, whatever
    state the hardware is in. *)
Definition never_busy (a : Z) : Prop :=
  ∀ h : HW, Z.land (fst (mmio_read a h)) BUSY_BIT = 0.

Definition always_busy (a : Z) : Prop :=
  ∀ h : HW, Z.land (fst (mmio_read a h)) BUSY_BIT ≠ 0.

Definition reset_index (c : Z) : Z := Z.land c (Z.lnot BIN_REGISTER_INDEX_MASK).

Definition select_histogram (c : Z) : Z :=
  Z.land c (Z.lnot (Z.lor BIN_REGISTER_INDEX_MASK BIN_REG_FUNCTION_SELECT_IE)).

(** *** The entry points, summarised *)

Definition platform_regs (p : intel_platform) : option dpst_regs :=
  match p with
  | HASWELL => Some {| blm_hist_ctl := BLM_HIST_CTL;
                       blm_hist_guard := BLM_HIST_GUARD;
                       blm_hist_bin := BLM_HIST_BIN |}
  | VALLEYVIEW => Some {| blm_hist_ctl := VLV_BLC_HIST_CTL_A;
                          blm_hist_guard := VLV_BLC_HIST_GUARD_A;
                          blm_hist_bin := VLV_BLC_HIST_BIN_A |}
  | OTHER_PLATFORM => None
  end.

(** The ioctl data after [i915_dpst_init] has filled in the threshold
    and resolution of the current mode. *)
Definition with_mode (d : device) (ioctl_data : dpst_initialize_context)
    : dpst_initialize_context :=
  match pipe_a_crtc d with
  | Some (Some mode) =>
    upd_image_res (u32 (hdisplay mode * vdisplay mode))
      (upd_threshold_gb
         (u32 (Z.quot (DEFAULT_GUARDBAND_VAL * hdisplay mode * vdisplay mode) 1000))
         ioctl_data)
  | _ => ioctl_data
  end.

Definition init_dpst (current : Z) (ioctl_data : dpst_initialize_context)
    (regs : dpst_regs) (s : i915_dpst) : i915_dpst :=
  upd_signal (sig_num ioctl_data) (upd_task (Some current) (upd_reg regs s)).

(** The entry points of the controller: the ioctl, the kernel-side
    gate, the interrupt handler and the two brightness hooks of the
    panel code. *)
Inductive entry :=
| Ioctl (current : Z) (data : option dpst_initialize_context)
| KernelDisable (disable : bool)
| Irq
| SetBrightness (brightness_val : Z)
| GetBrightness.

Definition run_entry (fuel : nat) (e : entry) (d : device) : option (Z * device) :=
  match e with
  | Ioctl current data =>
    match i915_dpst_context fuel current data d with
    | Some (r, _, d') => Some (r, d')
    | None => None
    end
  | KernelDisable disable => Some (i915_dpst_set_kernel_disable disable d)
  | Irq => Some (0, snd (i915_dpst_irq_handler d))
  | SetBrightness brightness_val =>
    Some (0, snd (i915_dpst_set_brightness brightness_val d))
  | GetBrightness => Some (i915_dpst_get_brightness d)
  end.

(** What a returning entry point can have done. *)
Inductive outcome (d : device) : entry → Z → device → Prop :=
| o_unchanged e r :
    outcome d e r d
| o_io e h es :
    outcome d e 0 (evolve (dpst d) h es d)
| o_user_gate current ioctl_data (b : bool) h es :
    dpst_ioctl_type ioctl_data = (if b then DPST_ENABLE else DPST_DISABLE) →
    fst (user_gate (has_edp d) b (dpst d)) = 0 →
    outcome d (Ioctl current (Some ioctl_data)) 0
      (evolve (snd (user_gate (has_edp d) b (dpst d))) h es d)
| o_disable_failed current ioctl_data :
    dpst_ioctl_type ioctl_data = DPST_DISABLE →
    enabled (dpst d) = true → edp d = None →
    outcome d (Ioctl current (Some ioctl_data)) (- EINVAL)
      (with_dpst (upd_saved_is_valid false (upd_user_enable false (dpst d))) d)
| o_init current ioctl_data regs h es :
    dpst_ioctl_type ioctl_data = DPST_INIT_DATA →
    platform_regs (platform d) = Some regs →
    outcome d (Ioctl current (Some ioctl_data)) 0
      (evolve (snd (user_gate (has_edp d) true
                      (init_dpst current (with_mode d ioctl_data) regs (dpst d))))
              h es d)
| o_apply_deferred current ioctl_data c h es :
    dpst_ioctl_type ioctl_data = DPST_APPLY_LUMA →
    edp d = Some c → user_enable (dpst d) = true → kernel_disable (dpst d) = true →
    outcome d (Ioctl current (Some ioctl_data)) 0
      (evolve (upd_saved {| is_valid := true;
                            saved_blc_adjustment := dpst_blc_factor ioctl_data |}
                         (dpst d)) h es d)
| o_apply_live current ioctl_data c h es :
    dpst_ioctl_type ioctl_data = DPST_APPLY_LUMA →
    edp d = Some c → user_enable (dpst d) = true → kernel_disable (dpst d) = false →
    outcome d (Ioctl current (Some ioctl_data)) 0
      (evolve (upd_blc_adjustment (dpst_blc_factor ioctl_data) (dpst d)) h es d)
| o_kernel_gate (b : bool) h es :
    has_dpst d = true →
    fst (kernel_gate (has_edp d) (ie_on d) b (dpst d)) = 0 →
    outcome d (KernelDisable b) 0
      (evolve (snd (kernel_gate (has_edp d) (ie_on d) b (dpst d))) h es d)
| o_kernel_disable_failed v h :
    has_dpst d = true → enabled (dpst d) = true → edp d = None →
    mmio_read (blm_hist_ctl (reg (dpst d))) (mmio d) = (v, h) →
    outcome d (KernelDisable true) (- EINVAL)
      (evolve (snd (kernel_gate false (ie_on d) true (dpst d))) h
              [EvRead (blm_hist_ctl (reg (dpst d))) v] d).

(** The DPST record a failing set_kernel_disable(true) leaves behind:
    the flag is recorded and, if the table was enabled, the snapshot
    taken. *)
Definition kernel_disable_recorded (ie : bool) (s : i915_dpst) : i915_dpst :=
  let s := upd_kernel_disable true s in
  if ie
  then upd_saved {| is_valid := true; saved_blc_adjustment := blc_adjustment s |} s
  else s.

(** *** The register traffic of the enable, disable and restore sequences *)

Definition enable_events (s : i915_dpst) (c g1 g2 : Z) : list event :=
  [EvRead (blm_hist_ctl (reg s)) c;
   EvWrite (blm_hist_ctl (reg s)) (Z.lor c (Z.lor IE_HISTOGRAM_ENABLE HSV_INTENSITY_MODE));
   EvVblank;
   EvRead (blm_hist_guard (reg s)) g1;
   EvWrite (blm_hist_guard (reg s)) (Z.lor g1 HISTOGRAM_EVENT_STATUS);
   EvRead (blm_hist_guard (reg s)) g2;
   EvWrite (blm_hist_guard (reg s)) (Z.lor g2 HISTOGRAM_INTERRUPT_ENABLE)].

Definition disable_events (s : i915_dpst) (g c level : Z) : list event :=
  [EvRead (blm_hist_guard (reg s)) g;
   EvWrite (blm_hist_guard (reg s))
     (Z.land (Z.lor g HISTOGRAM_EVENT_STATUS) (Z.lnot HISTOGRAM_INTERRUPT_ENABLE));
   EvRead (blm_hist_ctl (reg s)) c;
   EvWrite (blm_hist_ctl (reg s))
     (Z.land (Z.land c (Z.lnot IE_HISTOGRAM_ENABLE)) (Z.lnot IE_MOD_TABLE_ENABLE));
   EvBacklight level].

Definition restore_events (s : i915_dpst) (level c : Z) : list event :=
  [EvBacklight (u32 (level * saved_blc_adjustment (saved s)) / 100 / 100);
   EvRead (blm_hist_ctl (reg s)) c;
   EvWrite (blm_hist_ctl (reg s))
     (Z.lor c (Z.lor IE_MOD_TABLE_ENABLE ENHANCEMENT_MODE_MULT))].

(** *** Reachable states *)

(** The states the device passes through from [d0] on, entry point
    after entry point. *)
Inductive reachable (d0 : device) : device → Prop :=
| reach_start : reachable d0 d0
| reach_step d fuel e r d' :
    reachable d0 d → run_entry fuel e d = Some (r, d') → reachable d0 d'.

(** With an eDP connector, enabled implies user_enable and not
    kernel_disable; without one, the only value blc_adjustment takes
    while enabled is DPST_MAX_FACTOR. *)
Definition coherent (d : device) : Prop :=
  match edp d with
  | Some _ =>
    enabled (dpst d) = true →
    user_enable (dpst d) = true ∧ kernel_disable (dpst d) = false
  | None =>
    enabled (dpst d) = true → blc_adjustment (dpst d) = DPST_MAX_FACTOR
  end.

(** The state after the entry points [es], each of which returns within
    [fuel] loop iterations; [None] if one of them does not. *)
Fixpoint run_entries (fuel : nat) (es : list entry) (d : drm_device HW)
    : option (drm_device HW) :=
  match es with
  | [] => Some d
  | e :: es =>
    match run_entry fuel e d with
    | Some (_, d') => run_entries fuel es d'
    | None => None
    end
  end.

End Summary.

(** ** The register file and the scenarios *)

Section RegisterFileModel.

Context `{!dpst_config}.

Abbreviation rdevice := (drm_device (gmap Z Z)).

(** The value latched at offset [a]. *)
Definition peek (a : Z) (d : rdevice) : Z := default 0 (mmio d !! a).

(** IE_MOD_TABLE_ENABLE is set in the control register. *)
Definition ie_table_enabled (d : rdevice) : Prop :=
  Z.land (peek (blm_hist_ctl (reg (dpst d))) d) IE_MOD_TABLE_ENABLE ≠ 0.

End RegisterFileModel.

Section ScenarioModel.

#[local] Existing Instance i915_config.

Abbreviation sim := (drm_device (gmap Z Z)).

(** A device without connectors and one with an eDP panel at raw
    backlight level 1000, both with all registers reading 0. *)
Definition no_panel : sim := boot ∅ [].
Definition with_panel : sim := boot ∅ [edp_panel 1000].

Definition after (es : list entry) (d : sim) : sim :=
  default d (run_entries 64 es d).

Definition ioctl (t : dpst_ioctl) : entry := Ioctl 1 (Some (ioctl_cmd t)).

(** Enable on the device without panel. *)
Definition enabled_no_panel : sim := after [ioctl DPST_ENABLE] no_panel.

(** ... then suppressed by the kernel. *)
Definition suspended_no_panel : sim := after [KernelDisable true] enabled_no_panel.

(** Init on the device with a panel, then suppressed by the kernel
    before any luma has been applied. *)
Definition suspended_panel : sim :=
  after [ioctl DPST_INIT_DATA; KernelDisable true] with_panel.

(** Init and ApplyLuma (factor 5000) on the device with a panel. *)
Definition active_panel : sim :=
  after [ioctl DPST_INIT_DATA; ioctl DPST_APPLY_LUMA] with_panel.

(** Every read returns 5 (busy bit clear) resp. BUSY_BIT. *)
Definition idle_hw : Hardware unit := constant_hw 5.
Definition busy_hw : Hardware unit := constant_hw BUSY_BIT.

Definition idle_device : drm_device unit :=
  snd (@i915_dpst_set_user_enable unit idle_hw i915_config true (boot tt [])).

Definition busy_device : drm_device unit :=
  snd (@i915_dpst_set_user_enable unit busy_hw i915_config true (boot tt [])).

End ScenarioModel.

(** ** Notions used by further properties of the controller *)

Section AuxiliaryNotions.

Context {HW : Type} `{!Hardware HW} `{!dpst_config}.

(** [vs] are the values of the last reads of the bin register at [a]
    recorded in [tr], none of them busy, and the first entries of [st]
    are their count fields, in order. *)
Definition pass_recorded (a : Z) (vs : list Z) (tr : list event) (st : list Z) : Prop :=
  (∃ pre, tr = pre ++ map (EvRead a) vs) ∧
  Forall (λ v, Z.land v BUSY_BIT = 0) vs ∧
  take (length vs) st = map (λ v, Z.land v BIN_COUNT_MASK) vs.

(** Every bit set in [old] is set in [new]. *)
Definition bits_kept (old new : Z) : Prop := Z.land old new = old.

End AuxiliaryNotions.

Section FurtherScenarioModel.

#[local] Existing Instance i915_config.

Abbreviation sim := (drm_device (gmap Z Z)).

(** A device whose hardware has no DPST block, and one of a platform
    the register table does not know. *)
Definition legacy : sim :=
  {| dpst := dpst0; mmio := ∅; connector_list := [edp_panel 1000];
     platform := HASWELL; has_dpst := false;
     pipe_a_crtc := Some (Some {| hdisplay := 1920; vdisplay := 1080 |});
     trace := [] |}.


(** Init on the device with a panel. *)
Definition initialised_panel : sim := after [ioctl DPST_INIT_DATA] with_panel.

(** What a histogram read returns on the idle backend. *)
Definition idle_read : Z * dpst_initialize_context * drm_device unit :=
  default (0, ioctl_cmd DPST_GET_BIN_DATA, idle_device)
    (@i915_dpst_get_bin_data unit idle_hw i915_config 64
       (ioctl_cmd DPST_GET_BIN_DATA) idle_device).

(** What a histogram read returns on the device with a panel, after
    Init and ApplyLuma. *)
Definition panel_read : Z * dpst_initialize_context * sim :=
  default (0, ioctl_cmd DPST_GET_BIN_DATA, active_panel)
    (i915_dpst_get_bin_data 64 (ioctl_cmd DPST_GET_BIN_DATA) active_panel).

End FurtherScenarioModel.

(** * EFI bootloader control (efibc.c) *)

(** Constants of <linux/efi.h>, <linux/reboot.h>, <linux/suspend.h> and
    <linux/notifier.h>, and the width of size_t. *)
Class efibc_config := {
  BITS_PER_LONG : Z;
  EFI_SUCCESS : Z;
  EFI_VARIABLE_NON_VOLATILE : Z;
  EFI_VARIABLE_BOOTSERVICE_ACCESS : Z;
  EFI_VARIABLE_RUNTIME_ACCESS : Z;
  PM_HIBERNATION_PREPARE : Z;
  SYS_RESTART : Z;
  NOTIFY_DONE : Z;
}.

(** What the rest of the kernel and the firmware do when called. *)
Class Kernel (K : Type) := {
  kzalloc_succeeds : Z -> K -> bool * K;
  efi_set_variable : list Z -> list Z -> Z -> Z -> list Z -> K -> Z * K;
  efi_enabled : K -> bool;
  register_reboot_notifier : K -> Z * K;
  register_pm_notifier : K -> Z * K;
  unregister_reboot_notifier : K -> K;
}.

Inductive efibc_error :=
| AllocFailed
| ConvertFailed (length : Z)
| SetVariableFailed (status : Z)
| RebootNotifierFailed
| PmNotifierFailed.

Inductive efibc_event :=
| EvKzalloc (size : Z) (ok : bool)
| EvKfree
| EvSetVariable (name guid : list Z) (attributes size : Z) (data : list Z) (status : Z)
| EvPrErr (e : efibc_error)
| EvRegisterReboot (ret : Z)
| EvRegisterPm (ret : Z)
| EvUnregisterReboot.

Record efibc_world {K : Type} := {
  kern : K;
  events : list efibc_event;
}.
Arguments efibc_world : clear implicits.

(** efi_char16_t *)
Definition u16 (z : Z) : Z := z mod 2 ^ 16.

(** The bytes of a string literal. *)
Definition c_string (s : string) : list Z :=
  map (fun a => Z.of_nat (Ascii.nat_of_ascii a)) (String.list_ascii_of_string s).

Definition LOADER_RESUME_HIBERNATE : list Z := c_string "LoaderResumeHibernate".
Definition LOADER_GUID : list Z :=
  [0x4a67b082; 0x0a4c; 0x41cf; 0xb6; 0xc7; 0x44; 0x0b; 0x29; 0xbb; 0x8c; 0x4f].

(** A C string is given by the bytes that follow its address; it ends
    at the first zero byte, or at the end of the list (the terminating
    nul is then implicit). *)
Fixpoint strlen (s : list Z) : Z :=
  match s with
  | [] => 0
  | c :: s => if c =? 0 then 0 else 1 + strlen s
  end.

(** The characters of the string, without the terminator. *)
Fixpoint c_chars (s : list Z) : list Z :=
  match s with
  | [] => []
  | c :: s => if c =? 0 then [] else c :: c_chars s
  end.

(** The string as efi_char16_t elements, with its terminator. *)
Definition efi_str (s : list Z) : list Z := map u16 (c_chars s) ++ [0].

(** [buf[i] = v]; [None] is a write outside the buffer. *)
Definition store (buf : list Z) (i v : Z) : option (list Z) :=
  if (0 <=? i) && (i <? Z.of_nat (length buf)) then Some (<[Z.to_nat i := v]> buf)
  else None.

(** Computations on the world that can fault. *)
Definition efi_m (S A : Type) : Type := S -> option (A * S).

Definition eret {S A} (a : A) : efi_m S A := fun w => Some (a, w).

Definition ebind {S A B} (m : efi_m S A) (k : A -> efi_m S B) : efi_m S B :=
  fun w => match m w with
           | Some (a, w') => k a w'
           | None => None
           end.

Definition elift {S A} (o : option A) : efi_m S A := fun w =>
  match o with
  | Some a => Some (a, w)
  | None => None
  end.

Notation "x <~ m ;; k" := (ebind m (fun x => k))
  (at level 100, m at next level, right associativity).
Notation "m ;;~ k" := (ebind m (fun _ => k))
  (at level 100, right associativity).

Section EfibcDriver.

Context {K : Type} `{!Kernel K} `{!efibc_config}.

Abbreviation world := (efibc_world K).

Definition size_t (z : Z) : Z := z mod 2 ^ BITS_PER_LONG.

(** The loop of [efichar_from_char]; [rest] is the string from [src + i]
    on. *)
Fixpoint efichar_copy (rest : list Z) (i bound : Z) (dest : list Z)
    : option (Z * list Z) :=
  match rest with
  | c :: rest =>
    if negb (c =? 0) && (i <? bound) then
      match store dest i (u16 c) with
      | Some dest => efichar_copy rest (i + 1) bound dest
      | None => None
      end
    else Some (i, dest)
  | [] => Some (i, dest)
  end.

(** Convert char string to efi_char16_t string. *)
Definition efichar_from_char (dest src : list Z) (dest_len : Z) : option (Z * list Z) :=
  match efichar_copy src 0 (size_t (dest_len / 2 - 1)) dest with
  | Some (i, dest) =>
    (* Gummiboot does need nul-terminated strings *)
    match store dest i 0 with
    | Some dest => Some (i, dest)
    | None => None
    end
  | None => None
  end.

(** Returns required size of utf16 buffer for given char string. *)
Definition efi_char16_bufsz (str : list Z) : Z := size_t ((1 + strlen str) * 2).

Definition emit (e : efibc_event) (k : K) (w : world) : world :=
  {| kern := k; events := events w ++ [e] |}.

(** [kzalloc(size, GFP_KERNEL)]: a zeroed buffer of [size] bytes, seen
    as efi_char16_t elements, or NULL. *)
Definition kzalloc (size : Z) : efi_m world (option (list Z)) := fun w =>
  let '(ok, k) := kzalloc_succeeds size (kern w) in
  Some (if ok then Some (replicate (Z.to_nat (size / 2)) 0) else None,
        emit (EvKzalloc size ok) k w).

Definition kfree (p : option (list Z)) : efi_m world unit := fun w =>
  match p with
  | Some _ => Some (tt, emit EvKfree (kern w) w)
  | None => Some (tt, w)
  end.

Definition pr_err (e : efibc_error) : efi_m world unit := fun w =>
  Some (tt, emit (EvPrErr e) (kern w) w).

Definition set_variable (name guid : list Z) (attributes size : Z) (data : list Z)
    : efi_m world Z := fun w =>
  let '(status, k) := efi_set_variable name guid attributes size data (kern w) in
  Some (status, emit (EvSetVariable name guid attributes size data status) k w).

(** The code after the label [out]. *)
Definition set_loader_command_out (cmd_efichar name_efichar : option (list Z))
    : efi_m world unit :=
  kfree cmd_efichar ;;~
  kfree name_efichar.

Definition set_loader_command (var cmd : list Z) : efi_m world unit :=
  let name_efichar_blen := efi_char16_bufsz var in
  let cmd_efichar_blen := efi_char16_bufsz cmd in
  name_efichar <~ kzalloc name_efichar_blen ;;
  match name_efichar with
  | None =>
    pr_err AllocFailed ;;~
    set_loader_command_out None None
  | Some name_buf =>
    cmd_efichar <~ kzalloc cmd_efichar_blen ;;
    match cmd_efichar with
    | None =>
      pr_err AllocFailed ;;~
      set_loader_command_out None (Some name_buf)
    | Some cmd_buf =>
      r <~ elift (efichar_from_char name_buf var name_efichar_blen) ;;
      let '(n, name_buf) := r in
      if negb (n =? strlen var) then
        pr_err (ConvertFailed name_efichar_blen) ;;~
        set_loader_command_out (Some cmd_buf) (Some name_buf)
      else
        r <~ elift (efichar_from_char cmd_buf cmd cmd_efichar_blen) ;;
        let '(n, cmd_buf) := r in
        if negb (n =? strlen cmd) then
          pr_err (ConvertFailed cmd_efichar_blen) ;;~
          set_loader_command_out (Some cmd_buf) (Some name_buf)
        else
          status <~ set_variable name_buf LOADER_GUID
                      (Z.lor EFI_VARIABLE_NON_VOLATILE
                         (Z.lor EFI_VARIABLE_BOOTSERVICE_ACCESS EFI_VARIABLE_RUNTIME_ACCESS))
                      cmd_efichar_blen cmd_buf ;;
          (if negb (status =? EFI_SUCCESS) then pr_err (SetVariableFailed status)
           else eret tt) ;;~
          set_loader_command_out (Some cmd_buf) (Some name_buf)
    end
  end.

(** If we're about to enter hibernation, tell the bootloader that we
    need to resume Linux from swap instead of doing a cold boot. *)
Definition efibc_pm_notifier_call (pm_event : Z) : efi_m world Z :=
  (if pm_event =? PM_HIBERNATION_PREPARE
   then set_loader_command LOADER_RESUME_HIBERNATE (c_string "true")
   else eret tt) ;;~
  eret NOTIFY_DONE.


Definition efibc_init : efi_m world Z := fun w =>
  if negb (efi_enabled (kern w)) then Some (0, w)
  else
    let '(ret, k) := register_reboot_notifier (kern w) in
    let w := emit (EvRegisterReboot ret) k w in
    if negb (ret =? 0) then
      (pr_err RebootNotifierFailed ;;~ eret ret) w
    else
      let '(ret, k) := register_pm_notifier (kern w) in
      let w := emit (EvRegisterPm ret) k w in
      if negb (ret =? 0) then
        (pr_err PmNotifierFailed ;;~ eret ret) w
      else Some (0, w).

Definition efibc_exit : efi_m world unit := fun w =>
  Some (tt, emit EvUnregisterReboot (unregister_reboot_notifier (kern w)) w).

End EfibcDriver.

(** ** A simulated kernel and values for the constants *)

(** A kernel in which memory is always available, the firmware accepts
    every variable and every registration succeeds. *)
Definition willing_kernel : Kernel unit := {|
  kzalloc_succeeds size k := (true, k);
  efi_set_variable name guid attributes size data k := (0, k);
  efi_enabled k := true;
  register_reboot_notifier k := (0, k);
  register_pm_notifier k := (0, k);
  unregister_reboot_notifier k := k;
|}.

(** The values of a 64-bit kernel of this line. *)
Definition efibc_x86_64 : efibc_config := {|
  BITS_PER_LONG := 64;
  EFI_SUCCESS := 0;
  EFI_VARIABLE_NON_VOLATILE := 0x1;
  EFI_VARIABLE_BOOTSERVICE_ACCESS := 0x2;
  EFI_VARIABLE_RUNTIME_ACCESS := 0x4;
  PM_HIBERNATION_PREPARE := 0x1;
  SYS_RESTART := 0x1;
  NOTIFY_DONE := 0x0;
|}.

Definition quiet_world : efibc_world unit := {| kern := tt; events := [] |}.

(** * Properties *)

(** ** Devices up to the driver's effects *)

Section EvolveFacts.

Context {HW : Type} `{!Hardware HW} `{!dpst_config}.

Abbreviation device := (drm_device HW).

Lemma evolve_id (d : device) : evolve (dpst d) (mmio d) [] d = d.
Proof. destruct d; unfold evolve; cbn. by rewrite app_nil_r. Qed.

Lemma evolve_evolve s h es s' h' es' (d : device) :
  evolve s' h' es' (evolve s h es d) = evolve s' h' (es ++ es') d.
Proof. unfold evolve; cbn. by rewrite app_assoc. Qed.

Lemma with_dpst_evolve s (d : device) : with_dpst s d = evolve s (mmio d) [] d.
Proof. unfold with_dpst, evolve. by rewrite app_nil_r. Qed.

Lemma with_io_evolve h e (d : device) : with_io h e d = evolve (dpst d) h [e] d.
Proof. done. Qed.

End EvolveFacts.

(** ** Proof automation: run a driver function symbolically *)

Ltac drv_unfold :=
  unfold i915_dpst_set_kernel_disable, i915_dpst_set_user_enable,
    i915_dpst_apply_luma, i915_dpst_restore_luma, i915_dpst_save_luma,
    i915_dpst_set_brightness, i915_dpst_disable_hist_interrupt,
    i915_dpst_enable_hist_interrupt, i915_dpst_clear_hist_interrupt,
    i915_dpst_update_registers, i915_dpst_init, i915_dpst_irq_handler,
    get_intel_connector_on_edp, intel_panel_actually_set_backlight,
    send_sig_info, intel_wait_for_vblank, I915_READ, I915_WRITE,
    assign, load, bind, ret, edp in *.

Ltac drv_reads :=
  repeat (cbn -[Z.mul Z.div Z.modulo Z.quot Z.shiftl u32 seqZ];
          match goal with
          | |- context [mmio_read ?a ?h] =>
            let v := fresh "v" in let h' := fresh "h" in let E := fresh "Erd" in
            destruct (mmio_read a h) as [v h'] eqn:E
          | |- context [if ?c then _ else _] => destruct c eqn:?
          end).

Ltac drv_norm :=
  rewrite ?with_io_evolve, ?with_dpst_evolve;
  rewrite ?evolve_evolve;
  cbn -[Z.mul Z.div Z.modulo Z.quot Z.shiftl u32 seqZ].

Ltac drv_run := drv_unfold; drv_reads; drv_norm.

(** Case analysis on the flags of the DPST record of [d]. *)
Ltac flags d :=
  destruct (dpst d) as [[] [] [] ? ? ? ? [[] ?]].

(** ** The driver functions, one by one *)

Section Properties.

Context {HW : Type} `{!Hardware HW} `{!dpst_config}.

Abbreviation device := (drm_device HW).

#[local] Arguments i915_dpst_set_kernel_disable : simpl never.
#[local] Arguments i915_dpst_set_user_enable : simpl never.
#[local] Arguments i915_dpst_apply_luma : simpl never.
#[local] Arguments i915_dpst_restore_luma : simpl never.
#[local] Arguments i915_dpst_save_luma : simpl never.
#[local] Arguments i915_dpst_set_brightness : simpl never.
#[local] Arguments i915_dpst_disable_hist_interrupt : simpl never.
#[local] Arguments i915_dpst_enable_hist_interrupt : simpl never.
#[local] Arguments i915_dpst_clear_hist_interrupt : simpl never.
#[local] Arguments i915_dpst_update_registers : simpl never.
#[local] Arguments i915_dpst_init : simpl never.
#[local] Arguments i915_dpst_get_bin_data : simpl never.
#[local] Arguments i915_dpst_context : simpl never.
#[local] Arguments u32 : simpl never.

#[local] Arguments user_gate : simpl never.
#[local] Arguments kernel_gate : simpl never.

Lemma enable_run (d : device) :
  ∃ h es, i915_dpst_enable_hist_interrupt d =
    (0, evolve (upd_blc_adjustment DPST_MAX_FACTOR (upd_enabled true (dpst d))) h es d).
Proof. drv_run. by eexists _, _. Qed.

Lemma disable_run (d : device) :
  match edp d with
  | None => i915_dpst_disable_hist_interrupt d = (- EINVAL, d)
  | Some _ =>
    ∃ h es, i915_dpst_disable_hist_interrupt d =
      (0, evolve (upd_blc_adjustment DPST_MAX_FACTOR (upd_enabled false (dpst d))) h es d)
  end.
Proof.
  drv_unfold. destruct (find is_edp (connector_list d)); [|done].
  drv_run. by eexists _, _.
Qed.

Lemma save_run (d : device) :
  ∃ v h, mmio_read (blm_hist_ctl (reg (dpst d))) (mmio d) = (v, h) ∧
    i915_dpst_save_luma d =
      (tt, evolve (if Z.land v IE_MOD_TABLE_ENABLE =? 0 then dpst d
                   else upd_saved {| is_valid := true;
                                     saved_blc_adjustment := blc_adjustment (dpst d) |}
                                  (dpst d))
                  h [EvRead (blm_hist_ctl (reg (dpst d))) v] d).
Proof.
  drv_unfold. destruct (mmio_read _ _) as [v h] eqn:E.
  exists v, h; split; [done|]. cbn. by destruct (Z.land v IE_MOD_TABLE_ENABLE =? 0).
Qed.

Lemma restore_run (d : device) :
  match edp d with
  | None => i915_dpst_restore_luma d = (tt, d)
  | Some _ =>
    if is_valid (saved (dpst d)) then
      ∃ h es, i915_dpst_restore_luma d =
        (tt, evolve (upd_blc_adjustment (saved_blc_adjustment (saved (dpst d))) (dpst d))
                    h es d)
    else i915_dpst_restore_luma d = (tt, d)
  end.
Proof.
  drv_unfold. destruct (find is_edp (connector_list d)) eqn:E; [|done].
  destruct (is_valid (saved (dpst d))); [|done].
  cbn. rewrite E. drv_run; by eexists _, _.
Qed.

Lemma user_gate_enable_ok e (s : i915_dpst) : fst (user_gate e true s) = 0.
Proof.
  unfold user_gate. cbn.
  by destruct (negb (kernel_disable s) && negb (enabled s)).
Qed.

Lemma has_edp_Some (d : device) c : edp d = Some c → has_edp d = true.
Proof. intros E. unfold has_edp. rewrite E. by apply bool_decide_eq_true_2. Qed.

Lemma has_edp_None (d : device) : edp d = None → has_edp d = false.
Proof.
  intros E. unfold has_edp. rewrite E. apply bool_decide_eq_false_2.
  by intros [? ?].
Qed.

Lemma set_user_enable_run (enable : bool) (d : device) :
  ∃ h es, i915_dpst_set_user_enable enable d =
    (fst (user_gate (has_edp d) enable (dpst d)),
     evolve (snd (user_gate (has_edp d) enable (dpst d))) h es d).
Proof.
  unfold i915_dpst_set_user_enable, user_gate, assign, load, bind, ret.
  destruct enable; cbn.
  - destruct (negb (kernel_disable (dpst d)) && negb (enabled (dpst d))).
    + destruct (enable_run (with_dpst (upd_user_enable true (dpst d)) d)) as (h & es & ->).
      by eexists _, _.
    + eexists _, _. cbn. by rewrite with_dpst_evolve.
  - destruct (enabled (dpst d)).
    + set (d1 := with_dpst _ (with_dpst _ d)).
      pose proof (disable_run d1) as Hd.
      change (edp d1) with (edp d) in Hd.
      destruct (edp d) eqn:E.
      * rewrite (has_edp_Some _ _ E). destruct Hd as (h & es & ->). by eexists _, _.
      * rewrite (has_edp_None _ E), Hd. eexists _, _. cbn. unfold d1.
        by rewrite with_dpst_evolve.
    + eexists _, _. cbn. by rewrite with_dpst_evolve.
Qed.

Lemma set_kernel_disable_off (disable : bool) (d : device) :
  has_dpst d = false → i915_dpst_set_kernel_disable disable d = (- EINVAL, d).
Proof. intros E. unfold i915_dpst_set_kernel_disable. by rewrite E. Qed.

Lemma set_kernel_disable_run (disable : bool) (d : device) :
  has_dpst d = true →
  ∃ h es, i915_dpst_set_kernel_disable disable d =
    (fst (kernel_gate (has_edp d) (ie_on d) disable (dpst d)),
     evolve (snd (kernel_gate (has_edp d) (ie_on d) disable (dpst d))) h es d).
Proof.
  intros Hcap.
  unfold i915_dpst_set_kernel_disable, kernel_gate, assign, load, bind, ret.
  rewrite Hcap. cbn.
  set (d1 := with_dpst (upd_kernel_disable disable (dpst d)) d).
  destruct (disable && enabled (dpst d)) eqn:Eb.
  - destruct (save_run d1) as (v & h & Erd & ->).
    unfold ie_on. change (mmio_read _ (mmio d)) with (mmio_read (blm_hist_ctl (reg (dpst d1))) (mmio d1)).
    rewrite Erd. cbn [fst].
    match goal with |- context [i915_dpst_disable_hist_interrupt ?x] => set (d2 := x) end.
    pose proof (disable_run d2) as Hd. change (edp d2) with (edp d) in Hd.
    destruct (edp d) eqn:E.
    + rewrite (has_edp_Some _ _ E). destruct Hd as (h' & es & ->).
      unfold d2, d1. destruct (Z.land v IE_MOD_TABLE_ENABLE =? 0);
        cbn; rewrite ?with_dpst_evolve, ?evolve_evolve; by eexists _, _.
    + rewrite (has_edp_None _ E), Hd.
      unfold d2, d1. destruct (Z.land v IE_MOD_TABLE_ENABLE =? 0);
        cbn; rewrite ?with_dpst_evolve, ?evolve_evolve; by eexists _, _.
  - change (user_enable (dpst d1)) with (user_enable (dpst d)).
    destruct (negb disable && user_enable (dpst d)) eqn:Eu.
    + destruct (enable_run d1) as (h & es & ->). cbn.
      match goal with |- context [i915_dpst_restore_luma ?x] => set (d2 := x) end.
      pose proof (restore_run d2) as Hr. change (edp d2) with (edp d) in Hr.
      destruct (edp d) eqn:E.
      * rewrite (has_edp_Some _ _ E). cbn in Hr |- *.
        destruct (is_valid (saved (dpst d))).
        -- destruct Hr as (h' & es' & ->). unfold d2, d1.
           cbn; rewrite ?with_dpst_evolve, ?evolve_evolve; by eexists _, _.
        -- rewrite Hr. unfold d2, d1.
           cbn; rewrite ?with_dpst_evolve, ?evolve_evolve; by eexists _, _.
      * rewrite (has_edp_None _ E), Hr. unfold d2, d1.
        cbn; rewrite ?with_dpst_evolve, ?evolve_evolve; by eexists _, _.
    + unfold d1. rewrite with_dpst_evolve. by eexists _, _.
Qed.

Lemma run_gate_call_env (c : gate_call) (d : device) :
  connector_list (snd (run_gate_call c d)) = connector_list d.
Proof.
  destruct c as [b|b]; cbn.
  - by destruct (set_user_enable_run b d) as (h & es & ->).
  - destruct (has_dpst d) eqn:E.
    + by destruct (set_kernel_disable_run b d E) as (h & es & ->).
    + by rewrite set_kernel_disable_off.
Qed.

Lemma run_gate_call_inv (c : gate_call) (d : device) :
  is_Some (edp d) → gate_inv d → gate_inv (snd (run_gate_call c d)).
Proof.
  unfold gate_inv. intros [i Hi] Hinv.
  destruct c as [b|b]; cbn.
  - destruct (set_user_enable_run b d) as (h & es & ->).
    rewrite (has_edp_Some _ _ Hi). cbn. unfold user_gate.
    flags d; destruct b; cbn in *; congruence.
  - destruct (has_dpst d) eqn:E.
    + destruct (set_kernel_disable_run b d E) as (h & es & ->).
      rewrite (has_edp_Some _ _ Hi). cbn. unfold kernel_gate.
      flags d; destruct b, (ie_on d); cbn in *; congruence.
    + by rewrite set_kernel_disable_off.
Qed.

(** C1 (as amended): on a device with an eDP connector, every sequence
    of set_user_enable and set_kernel_disable calls started in a state
    where enabled = (user_enable && !kernel_disable) leaves that
    equation true after each call. *)
Theorem gate_invariant_with_connector (cs : list gate_call) (d : device) :
  is_Some (edp d) → gate_inv d → Forall gate_inv (states_after cs d).
Proof.
  revert d. induction cs as [|c cs IH]; intros d Hedp Hinv; cbn.
  - constructor.
  - constructor.
    + by apply run_gate_call_inv.
    + apply IH.
      * unfold edp. by rewrite run_gate_call_env.
      * by apply run_gate_call_inv.
Qed.

(** C10: the hardware-enable sequence always succeeds and leaves
    blc_adjustment at DPST_MAX_FACTOR, whatever it was before;
    set_user_enable(true) that reaches it ends with that value; in
    set_kernel_disable(false) the restore runs on the state the enable
    sequence has left, so with no valid snapshot the call ends with
    blc_adjustment = DPST_MAX_FACTOR as well. *)
Theorem enable_resets_blc_adjustment (d : device) :
  (∃ d', i915_dpst_enable_hist_interrupt d = (0, d') ∧
         enabled (dpst d') = true ∧
         blc_adjustment (dpst d') = DPST_MAX_FACTOR) ∧
  (kernel_disable (dpst d) = false → enabled (dpst d) = false →
   ∃ d', i915_dpst_set_user_enable true d = (0, d') ∧
         blc_adjustment (dpst d') = DPST_MAX_FACTOR) ∧
  (has_dpst d = true → user_enable (dpst d) = true →
   ∃ d1, i915_dpst_enable_hist_interrupt
           (with_dpst (upd_kernel_disable false (dpst d)) d) = (0, d1) ∧
         blc_adjustment (dpst d1) = DPST_MAX_FACTOR ∧
         i915_dpst_set_kernel_disable false d = (0, snd (i915_dpst_restore_luma d1)) ∧
         (is_valid (saved (dpst d)) = false →
          blc_adjustment (dpst (snd (i915_dpst_set_kernel_disable false d)))
            = DPST_MAX_FACTOR)).
Proof.
  split; [|split].
  - destruct (enable_run d) as (h & es & ->). by eexists.
  - intros Hkd Hen. destruct (set_user_enable_run true d) as (h & es & ->).
    unfold user_gate. cbn. rewrite Hkd, Hen. cbn. by eexists.
  - intros Hcap Hue.
    destruct (enable_run (with_dpst (upd_kernel_disable false (dpst d)) d))
      as (h & es & He).
    eexists. split; [exact He|]. split; [done|].
    assert (Hkd : i915_dpst_set_kernel_disable false d =
                  (0, snd (i915_dpst_restore_luma
                    (evolve (upd_blc_adjustment DPST_MAX_FACTOR
                       (upd_enabled true
                          (dpst (with_dpst (upd_kernel_disable false (dpst d)) d))))
                       h es (with_dpst (upd_kernel_disable false (dpst d)) d))))).
    { unfold i915_dpst_set_kernel_disable, assign, load, bind, ret.
      rewrite Hcap. cbn. rewrite Hue, He. cbn.
      by destruct (i915_dpst_restore_luma _). }
    split; [exact Hkd|].
    intros Hinv. rewrite Hkd. cbn [snd].
    match goal with |- context [i915_dpst_restore_luma ?x] =>
      pose proof (restore_run x) as Hr end.
    cbn in Hr. rewrite Hinv in Hr. cbn.
    destruct (find is_edp (connector_list d)); by rewrite Hr.
Qed.

(** *** Programming the enhancement table *)

Lemma for_each_write (r : dpst_regs → Z) (f : Z → Z) (l : list Z) (d : device) :
  for_each l (λ i, I915_WRITE r (f i)) d =
    (tt, evolve (dpst d)
           (foldl (λ h i, mmio_write (r (reg (dpst d))) (f i) h) (mmio d) l)
           (map (λ i, EvWrite (r (reg (dpst d))) (f i)) l) d).
Proof.
  revert d. induction l as [|i l IH]; intros d.
  - cbn. unfold ret. by rewrite evolve_id.
  - cbn [for_each foldl map]. unfold bind at 1. unfold I915_WRITE at 1.
    rewrite IH. cbn. by rewrite with_io_evolve, evolve_evolve.
Qed.

Lemma apply_luma_refused (ioctl_data : dpst_initialize_context) (d : device) :
  edp d = None ∨ user_enable (dpst d) = false →
  i915_dpst_apply_luma ioctl_data d = (- EINVAL, d).
Proof.
  intros Hc. drv_unfold. destruct (find is_edp (connector_list d)); [|done].
  destruct Hc as [?|Hc]; [done|]. by rewrite Hc.
Qed.

Lemma apply_luma_deferred (ioctl_data : dpst_initialize_context) (d : device) c v h :
  edp d = Some c → user_enable (dpst d) = true → kernel_disable (dpst d) = true →
  mmio_read (blm_hist_ctl (reg (dpst d))) (mmio d) = (v, h) →
  i915_dpst_apply_luma ioctl_data d =
    (0, evolve (upd_saved {| is_valid := true;
                             saved_blc_adjustment := dpst_blc_factor ioctl_data |}
                          (dpst d))
               (program_table_hw ioctl_data (dpst d) v h)
               (program_table_events ioctl_data (dpst d) v) d).
Proof.
  intros Hc Hue Hkd Hrd.
  unfold i915_dpst_apply_luma, get_intel_connector_on_edp. unfold bind at 1.
  unfold edp in Hc. rewrite Hc.
  unfold load at 1, bind at 1. rewrite Hue. cbn [negb].
  unfold bind at 1, I915_READ at 1. rewrite Hrd.
  unfold bind at 1, I915_WRITE at 1.
  unfold bind at 1. rewrite for_each_write.
  unfold load, assign, bind, ret. cbn. rewrite Hkd.
  rewrite !with_io_evolve, !with_dpst_evolve, !evolve_evolve. cbn.
  rewrite app_nil_r. reflexivity.
Qed.

Lemma apply_luma_live (ioctl_data : dpst_initialize_context) (d : device) c :
  edp d = Some c → user_enable (dpst d) = true → kernel_disable (dpst d) = false →
  ∃ h es, i915_dpst_apply_luma ioctl_data d =
    (0, evolve (upd_blc_adjustment (dpst_blc_factor ioctl_data) (dpst d)) h es d).
Proof.
  intros Hc Hue Hkd.
  unfold i915_dpst_apply_luma, get_intel_connector_on_edp. unfold bind at 1.
  unfold edp in Hc. rewrite Hc.
  unfold load at 1, bind at 1. rewrite Hue. cbn [negb].
  unfold bind at 1, I915_READ at 1. destruct (mmio_read _ _) as [v h].
  unfold bind at 1, I915_WRITE at 1.
  unfold bind at 1. rewrite for_each_write.
  unfold load at 1, bind at 1. cbn [dpst with_io evolve]. rewrite Hkd.
  drv_unfold. cbn. rewrite Hc. drv_run. all: by eexists _, _.
Qed.

Lemma land_keeps_foreign_bits (v s m e : Z) :
  Z.land s e = 0 → Z.land m e = 0 →
  Z.land (Z.land (Z.lor v s) (Z.lnot m)) e = Z.land v e.
Proof.
  intros Hs Hm. apply Z.bits_inj'. intros n Hn.
  apply (f_equal (λ z, Z.testbit z n)) in Hs, Hm.
  rewrite Z.land_spec, Z.bits_0 in Hs, Hm.
  rewrite !Z.land_spec, Z.lor_spec, Z.lnot_spec by done.
  destruct (Z.testbit v n), (Z.testbit s n), (Z.testbit m n), (Z.testbit e n);
    cbn in *; congruence.
Qed.

(** C3 (as amended): with an eDP connector present, apply_luma returns
    -EINVAL exactly when user_enable is false, whatever kernel_disable,
    the table and the backlight factor are; without such a connector it
    returns -EINVAL in every state. *)
Theorem apply_luma_invalid_iff_user_disabled
    (ioctl_data : dpst_initialize_context) (d : device) :
  (is_Some (edp d) →
   (fst (i915_dpst_apply_luma ioctl_data d) = - EINVAL ↔ user_enable (dpst d) = false)) ∧
  (edp d = None → fst (i915_dpst_apply_luma ioctl_data d) = - EINVAL).
Proof.
  split.
  - intros [c Hc]. destruct (user_enable (dpst d)) eqn:Hue.
    + split; [|done]. destruct (kernel_disable (dpst d)) eqn:Hkd.
      * destruct (mmio_read (blm_hist_ctl (reg (dpst d))) (mmio d)) as [v h] eqn:Hrd.
        by rewrite (apply_luma_deferred _ _ _ _ _ Hc Hue Hkd Hrd).
      * by destruct (apply_luma_live ioctl_data _ _ Hc Hue Hkd) as (h & es & ->).
    + rewrite apply_luma_refused by by right. done.
  - intros Hc. rewrite apply_luma_refused by by left. done.
Qed.

(** C4 (as amended): with an eDP connector present, user_enable true
    and kernel_disable true, apply_luma returns 0 after selecting the
    enhancement-table window and writing the converted factors to the
    bin register, and records saved = {is_valid: true, blc_adjustment:
    blc_factor}; nothing else of the DPST record changes (in particular
    blc_adjustment), no backlight level is set, and the one value
    written to the control register carries the table-enable bit as it
    was read. *)
Theorem apply_luma_while_kernel_disabled
    (ioctl_data : dpst_initialize_context) (d : device) c v h :
  edp d = Some c → user_enable (dpst d) = true → kernel_disable (dpst d) = true →
  mmio_read (blm_hist_ctl (reg (dpst d))) (mmio d) = (v, h) →
  Z.land BIN_REG_FUNCTION_SELECT_IE IE_MOD_TABLE_ENABLE = 0 →
  Z.land BIN_REGISTER_INDEX_MASK IE_MOD_TABLE_ENABLE = 0 →
  ∃ d', i915_dpst_apply_luma ioctl_data d = (0, d') ∧
    dpst d' = upd_saved {| is_valid := true;
                           saved_blc_adjustment := dpst_blc_factor ioctl_data |} (dpst d) ∧
    blc_adjustment (dpst d') = blc_adjustment (dpst d) ∧
    trace d' = trace d ++
      [EvRead (blm_hist_ctl (reg (dpst d))) v;
       EvWrite (blm_hist_ctl (reg (dpst d))) (select_ie v)] ++
      map (λ i, EvWrite (blm_hist_bin (reg (dpst d))) (diet_factor ioctl_data i))
          (seqZ 0 DPST_DIET_ENTRY_COUNT) ∧
    mmio d' = program_table_hw ioctl_data (dpst d) v h ∧
    Forall (λ e, ∀ level, e ≠ EvBacklight level) (drop (length (trace d)) (trace d')) ∧
    Z.land (select_ie v) IE_MOD_TABLE_ENABLE = Z.land v IE_MOD_TABLE_ENABLE.
Proof.
  intros Hc Hue Hkd Hrd Hsel Hmask.
  eexists. split; [by apply (apply_luma_deferred _ _ _ _ _ Hc Hue Hkd Hrd)|].
  cbn. repeat split; try done.
  - rewrite drop_app_length. unfold program_table_events.
    do 2 (constructor; [done|]).
    apply Forall_forall. intros e He level. apply list_elem_of_In, in_map_iff in He.
    by destruct He as (i & <- & _).
  - by apply land_keeps_foreign_bits.
Qed.

Lemma read_bins_busy fuel index ioctl_data (d : device) v h c h' :
  index < HIST_BIN_COUNT →
  mmio_read (blm_hist_bin (reg (dpst d))) (mmio d) = (v, h) →
  Z.land v BUSY_BIT ≠ 0 →
  mmio_read (blm_hist_ctl (reg (dpst d))) h = (c, h') →
  read_bins (S fuel) index ioctl_data d =
    read_bins fuel 0 ioctl_data
      (evolve (dpst d) (mmio_write (blm_hist_ctl (reg (dpst d))) (reset_index c) h')
         [EvRead (blm_hist_bin (reg (dpst d))) v;
          EvRead (blm_hist_ctl (reg (dpst d))) c;
          EvWrite (blm_hist_ctl (reg (dpst d))) (reset_index c)] d).
Proof.
  intros Hlt Hrd Hbusy Hctl. cbn [read_bins].
  apply Z.ltb_lt in Hlt. rewrite Hlt.
  unfold I915_READ at 1. rewrite Hrd.
  apply Z.eqb_neq in Hbusy. rewrite Hbusy.
  unfold bind, I915_READ, I915_WRITE. cbn. rewrite Hctl. cbn.
  by rewrite !with_io_evolve, !evolve_evolve.
Qed.

Lemma read_bins_idle fuel index ioctl_data (d : device) v h :
  index < HIST_BIN_COUNT →
  mmio_read (blm_hist_bin (reg (dpst d))) (mmio d) = (v, h) →
  Z.land v BUSY_BIT = 0 →
  read_bins (S fuel) index ioctl_data d =
    read_bins fuel (index + 1)
      (upd_status (<[Z.to_nat index := Z.land v BIN_COUNT_MASK]> (status ioctl_data))
                  ioctl_data)
      (evolve (dpst d) h [EvRead (blm_hist_bin (reg (dpst d))) v] d).
Proof.
  intros Hlt Hrd Hidle. cbn [read_bins].
  apply Z.ltb_lt in Hlt. rewrite Hlt.
  unfold I915_READ at 1. rewrite Hrd.
  apply Z.eqb_eq in Hidle. by rewrite Hidle.
Qed.

Lemma read_bins_done fuel index ioctl_data (d : device) :
  HIST_BIN_COUNT ≤ index →
  read_bins (S fuel) index ioctl_data d = Some (ioctl_data, d).
Proof.
  intros Hge. cbn [read_bins].
  apply Z.ltb_ge in Hge. by rewrite Hge.
Qed.

Lemma read_bins_never_busy (n : nat) :
  ∀ fuel index ioctl_data (d : device),
    never_busy (blm_hist_bin (reg (dpst d))) →
    Z.to_nat (HIST_BIN_COUNT - index) = n → (n < fuel)%nat →
    ∃ data' h vs,
      read_bins fuel index ioctl_data d =
        Some (data', evolve (dpst d) h
                       (map (EvRead (blm_hist_bin (reg (dpst d)))) vs) d) ∧
      length vs = n.
Proof.
  induction n as [|n IH]; intros fuel index ioctl_data d Hidle Hn Hfuel.
  - destruct fuel as [|fuel]; [lia|].
    rewrite read_bins_done by lia.
    exists ioctl_data, (mmio d), []. by rewrite evolve_id.
  - destruct fuel as [|fuel]; [lia|].
    destruct (mmio_read (blm_hist_bin (reg (dpst d))) (mmio d)) as [v h] eqn:Hrd.
    pose proof (Hidle (mmio d)) as Hv. rewrite Hrd in Hv. cbn in Hv.
    assert (Hlt : index < HIST_BIN_COUNT) by lia.
    rewrite (read_bins_idle _ _ _ _ _ _ Hlt Hrd Hv).
    edestruct (IH fuel (index + 1)) as (data' & h' & vs & -> & Hlen);
      [exact Hidle|lia|lia|].
    exists data', h', (v :: vs). cbn. rewrite evolve_evolve. by rewrite Hlen.
Qed.

Lemma read_bins_always_busy (fuel : nat) :
  0 < HIST_BIN_COUNT →
  ∀ ioctl_data (d : device),
    always_busy (blm_hist_bin (reg (dpst d))) →
    read_bins fuel 0 ioctl_data d = None.
Proof.
  intros Hpos. induction fuel as [|fuel IH]; intros ioctl_data d Hbusy; [done|].
  destruct (mmio_read (blm_hist_bin (reg (dpst d))) (mmio d)) as [v h] eqn:Hrd.
  destruct (mmio_read (blm_hist_ctl (reg (dpst d))) h) as [c h'] eqn:Hctl.
  pose proof (Hbusy (mmio d)) as Hv. rewrite Hrd in Hv. cbn in Hv.
  rewrite (read_bins_busy _ _ _ _ _ _ _ _ Hpos Hrd Hv Hctl).
  by apply IH.
Qed.

Lemma get_bin_data_refused fuel ioctl_data (d : device) :
  enabled (dpst d) = false → user_enable (dpst d) = false →
  i915_dpst_get_bin_data fuel ioctl_data d = Some (- EINVAL, ioctl_data, d).
Proof. intros He Hu. unfold i915_dpst_get_bin_data. by rewrite He, Hu. Qed.

Lemma get_bin_data_accepted fuel ioctl_data (d : device) c h :
  enabled (dpst d) = true ∨ user_enable (dpst d) = true →
  mmio_read (blm_hist_ctl (reg (dpst d))) (mmio d) = (c, h) →
  i915_dpst_get_bin_data fuel ioctl_data d =
    match read_bins fuel 0 ioctl_data
            (evolve (dpst d)
               (mmio_write (blm_hist_ctl (reg (dpst d))) (select_histogram c) h)
               [EvRead (blm_hist_ctl (reg (dpst d))) c;
                EvWrite (blm_hist_ctl (reg (dpst d))) (select_histogram c)] d) with
    | Some (ioctl_data, d) => Some (0, ioctl_data, d)
    | None => None
    end.
Proof.
  intros Hon Hrd. unfold i915_dpst_get_bin_data.
  replace (negb (enabled (dpst d)) && negb (user_enable (dpst d))) with false
    by (destruct Hon as [-> | ->]; by destruct (enabled (dpst d))).
  unfold bind, I915_READ, I915_WRITE. rewrite Hrd. cbn.
  by rewrite !with_io_evolve, !evolve_evolve.
Qed.

Lemma get_bin_data_never_busy fuel ioctl_data (d : device) :
  enabled (dpst d) = true ∨ user_enable (dpst d) = true →
  never_busy (blm_hist_bin (reg (dpst d))) →
  (Z.to_nat HIST_BIN_COUNT < fuel)%nat →
  ∃ data' d' c vs,
    i915_dpst_get_bin_data fuel ioctl_data d = Some (0, data', d') ∧
    dpst d' = dpst d ∧
    trace d' = trace d ++
      [EvRead (blm_hist_ctl (reg (dpst d))) c;
       EvWrite (blm_hist_ctl (reg (dpst d))) (select_histogram c)] ++
      map (EvRead (blm_hist_bin (reg (dpst d)))) vs ∧
    length vs = Z.to_nat HIST_BIN_COUNT.
Proof.
  intros Hon Hidle Hfuel.
  destruct (mmio_read (blm_hist_ctl (reg (dpst d))) (mmio d)) as [c h] eqn:Hrd.
  rewrite (get_bin_data_accepted _ _ _ _ _ Hon Hrd).
  edestruct (read_bins_never_busy (Z.to_nat HIST_BIN_COUNT) fuel 0 ioctl_data)
    as (data' & h' & vs & -> & Hlen); [exact Hidle|f_equal; lia|done|].
  eexists _, _, c, vs. split; [done|]. cbn.
  split; [done|]. split; [|done]. by rewrite <- (app_assoc (trace d)).
Qed.

Lemma get_bin_data_always_busy fuel ioctl_data (d : device) :
  enabled (dpst d) = true ∨ user_enable (dpst d) = true →
  always_busy (blm_hist_bin (reg (dpst d))) →
  0 < HIST_BIN_COUNT →
  i915_dpst_get_bin_data fuel ioctl_data d = None.
Proof.
  intros Hon Hbusy Hpos.
  destruct (mmio_read (blm_hist_ctl (reg (dpst d))) (mmio d)) as [c h] eqn:Hrd.
  rewrite (get_bin_data_accepted _ _ _ _ _ Hon Hrd).
  by rewrite read_bins_always_busy.
Qed.

(** C8: with enabled and user_enable both false, get_bin_data returns
    -EINVAL and hands back the caller's buffer and the device as they
    were; with at least one of them true it never returns -EINVAL: it
    returns 0 or does not return, and it does return 0 when the bin
    register never reads busy. *)
Theorem get_bin_data_gate fuel (ioctl_data : dpst_initialize_context) (d : device) :
  (enabled (dpst d) = false → user_enable (dpst d) = false →
   i915_dpst_get_bin_data fuel ioctl_data d = Some (- EINVAL, ioctl_data, d)) ∧
  (enabled (dpst d) = true ∨ user_enable (dpst d) = true →
   i915_dpst_get_bin_data fuel ioctl_data d = None ∨
   ∃ data' d', i915_dpst_get_bin_data fuel ioctl_data d = Some (0, data', d')) ∧
  (enabled (dpst d) = true ∨ user_enable (dpst d) = true →
   never_busy (blm_hist_bin (reg (dpst d))) → (Z.to_nat HIST_BIN_COUNT < fuel)%nat →
   ∃ data' d', i915_dpst_get_bin_data fuel ioctl_data d = Some (0, data', d')).
Proof.
  split; [|split].
  - apply get_bin_data_refused.
  - intros Hon.
    destruct (mmio_read (blm_hist_ctl (reg (dpst d))) (mmio d)) as [c h] eqn:Hrd.
    rewrite (get_bin_data_accepted _ _ _ _ _ Hon Hrd).
    destruct (read_bins _ _ _ _) as [[data' d']|]; [right|left]; by eauto.
  - intros Hon Hidle Hfuel.
    destruct (get_bin_data_never_busy fuel ioctl_data d Hon Hidle Hfuel)
      as (data' & d' & c & vs & -> & _).
    by eauto.
Qed.

(** C9: in the bin-read loop a busy read at any index resets the index
    field of the control register and continues at index 0; when the
    bin register never reads busy the call returns 0 after exactly
    HIST_BIN_COUNT reads of it; when it always reads busy the call does
    not return, whatever the number of iterations allowed. *)
Theorem bin_read_loop_restart_and_termination :
  (∀ fuel index ioctl_data (d : device) v h c h',
     index < HIST_BIN_COUNT →
     mmio_read (blm_hist_bin (reg (dpst d))) (mmio d) = (v, h) →
     Z.land v BUSY_BIT ≠ 0 →
     mmio_read (blm_hist_ctl (reg (dpst d))) h = (c, h') →
     read_bins (S fuel) index ioctl_data d =
       read_bins fuel 0 ioctl_data
         (evolve (dpst d) (mmio_write (blm_hist_ctl (reg (dpst d))) (reset_index c) h')
            [EvRead (blm_hist_bin (reg (dpst d))) v;
             EvRead (blm_hist_ctl (reg (dpst d))) c;
             EvWrite (blm_hist_ctl (reg (dpst d))) (reset_index c)] d)) ∧
  (∀ fuel ioctl_data (d : device),
     enabled (dpst d) = true ∨ user_enable (dpst d) = true →
     never_busy (blm_hist_bin (reg (dpst d))) →
     (Z.to_nat HIST_BIN_COUNT < fuel)%nat →
     ∃ data' d' c vs,
       i915_dpst_get_bin_data fuel ioctl_data d = Some (0, data', d') ∧
       dpst d' = dpst d ∧
       trace d' = trace d ++
         [EvRead (blm_hist_ctl (reg (dpst d))) c;
          EvWrite (blm_hist_ctl (reg (dpst d))) (select_histogram c)] ++
         map (EvRead (blm_hist_bin (reg (dpst d)))) vs ∧
       length vs = Z.to_nat HIST_BIN_COUNT) ∧
  (∀ ioctl_data (d : device),
     enabled (dpst d) = true ∨ user_enable (dpst d) = true →
     always_busy (blm_hist_bin (reg (dpst d))) →
     0 < HIST_BIN_COUNT →
     ∀ fuel, i915_dpst_get_bin_data fuel ioctl_data d = None).
Proof.
  split; [|split].
  - intros. by eapply read_bins_busy.
  - intros. by apply get_bin_data_never_busy.
  - intros. by apply get_bin_data_always_busy.
Qed.

Lemma init_run current ioctl_data (d : device) :
  match platform_regs (platform d) with
  | None => i915_dpst_init current ioctl_data d = (- EINVAL, with_mode d ioctl_data, d)
  | Some regs =>
    ∃ h es, i915_dpst_init current ioctl_data d =
      (0, with_mode d ioctl_data,
       evolve (snd (user_gate (has_edp d) true
                      (init_dpst current (with_mode d ioctl_data) regs (dpst d))))
              h es d)
  end.
Proof.
  unfold i915_dpst_init, i915_dpst_update_registers, init_dpst.
  change (match pipe_a_crtc d with Some (Some mode) => _ | _ => ioctl_data end)
    with (with_mode d ioctl_data).
  generalize (with_mode d ioctl_data). intros data.
  destruct (platform d) eqn:Hp; cbn [platform_regs];
    unfold bind at 1; rewrite ?Hp; [| |done];
    unfold assign, bind, ret, I915_READ, I915_WRITE;
    cbn -[Z.mul Z.quot Z.shiftl];
    destruct (mmio_read _ _) as [g h];
    match goal with |- context [i915_dpst_set_user_enable true ?x] =>
      destruct (set_user_enable_run true x) as (h' & es & ->) end;
    rewrite user_gate_enable_ok;
    unfold evolve, with_io, with_dpst; cbn -[Z.mul Z.quot Z.shiftl];
    rewrite <- !(app_assoc (trace d)); by eexists _, _.
Qed.

Lemma clear_hist_interrupt_run (d : device) :
  ∃ h es, i915_dpst_clear_hist_interrupt d = (0, evolve (dpst d) h es d).
Proof. drv_run. by eexists _, _. Qed.

Lemma irq_handler_run (d : device) :
  ∃ es, i915_dpst_irq_handler d = (tt, evolve (dpst d) (mmio d) es d).
Proof.
  drv_unfold. cbn. destruct (task (dpst d)); cbn.
  - rewrite with_io_evolve. by eexists.
  - exists []. by rewrite evolve_id.
Qed.

Lemma set_user_enable_failed (d : device) :
  enabled (dpst d) = true → edp d = None →
  i915_dpst_set_user_enable false d =
    (- EINVAL, with_dpst (upd_saved_is_valid false (upd_user_enable false (dpst d))) d).
Proof.
  intros He Hc. unfold i915_dpst_set_user_enable, assign, load, bind, ret. cbn.
  rewrite He.
  match goal with |- i915_dpst_disable_hist_interrupt ?x = _ =>
    pose proof (disable_run x) as Hd; change (edp x) with (edp d) in Hd end.
  by rewrite Hc in Hd.
Qed.

Lemma set_kernel_disable_failed (d : device) v h :
  has_dpst d = true → enabled (dpst d) = true → edp d = None →
  mmio_read (blm_hist_ctl (reg (dpst d))) (mmio d) = (v, h) →
  i915_dpst_set_kernel_disable true d =
    (- EINVAL,
     evolve (snd (kernel_gate false (ie_on d) true (dpst d))) h
            [EvRead (blm_hist_ctl (reg (dpst d))) v] d).
Proof.
  intros Hcap He Hc Hrd.
  unfold i915_dpst_set_kernel_disable, kernel_gate, ie_on, assign, load, bind, ret.
  rewrite Hcap, Hrd. cbn. rewrite He.
  destruct (save_run (with_dpst (upd_kernel_disable true (dpst d)) d))
    as (v' & h' & Hrd' & ->).
  cbn in Hrd'. rewrite Hrd in Hrd'. injection Hrd' as <- <-.
  match goal with |- i915_dpst_disable_hist_interrupt ?x = _ =>
    pose proof (disable_run x) as Hd; change (edp x) with (edp d) in Hd end.
  rewrite Hc in Hd. rewrite Hd.
  destruct (Z.land v IE_MOD_TABLE_ENABLE =? 0); cbn;
    by rewrite with_dpst_evolve, evolve_evolve.
Qed.

Lemma user_gate_ret e b (s : i915_dpst) :
  fst (user_gate e b s) = 0 ∨
  (fst (user_gate e b s) = - EINVAL ∧ b = false ∧ enabled s = true ∧ e = false).
Proof.
  unfold user_gate. destruct b; cbn.
  - left. by destruct (negb (kernel_disable s) && negb (enabled s)).
  - destruct (enabled s), e; cbn; auto.
Qed.

Lemma kernel_gate_ret e ie b (s : i915_dpst) :
  fst (kernel_gate e ie b s) = 0 ∨
  (fst (kernel_gate e ie b s) = - EINVAL ∧ b = true ∧ enabled s = true ∧ e = false).
Proof.
  unfold kernel_gate. destruct b; cbn.
  - destruct (enabled s), e; cbn; auto.
  - left. by destruct (user_enable s).
Qed.

Lemma read_bins_frame fuel :
  ∀ index ioctl_data (d : device) data' d',
    read_bins fuel index ioctl_data d = Some (data', d') →
    ∃ h es, d' = evolve (dpst d) h es d.
Proof.
  induction fuel as [|fuel IH]; intros index ioctl_data d data' d' Hrun; [done|].
  destruct (Z.lt_ge_cases index HIST_BIN_COUNT) as [Hlt|Hge].
  - destruct (mmio_read (blm_hist_bin (reg (dpst d))) (mmio d)) as [v h] eqn:Hrd.
    destruct (Z.eq_dec (Z.land v BUSY_BIT) 0) as [Hidle|Hbusy].
    + rewrite (read_bins_idle _ _ _ _ _ _ Hlt Hrd Hidle) in Hrun.
      apply IH in Hrun as (h' & es & ->). rewrite evolve_evolve. by eexists _, _.
    + destruct (mmio_read (blm_hist_ctl (reg (dpst d))) h) as [c h1] eqn:Hctl.
      rewrite (read_bins_busy _ _ _ _ _ _ _ _ Hlt Hrd Hbusy Hctl) in Hrun.
      apply IH in Hrun as (h' & es & ->). rewrite evolve_evolve. by eexists _, _.
  - rewrite read_bins_done in Hrun by done. injection Hrun as <- <-.
    exists (mmio d), []. by rewrite evolve_id.
Qed.

Lemma get_bin_data_frame fuel ioctl_data (d : device) r data' d' :
  i915_dpst_get_bin_data fuel ioctl_data d = Some (r, data', d') →
  (r = - EINVAL ∧ d' = d ∧ data' = ioctl_data) ∨ (r = 0 ∧ ∃ h es, d' = evolve (dpst d) h es d).
Proof.
  intros Hrun.
  destruct (enabled (dpst d)) eqn:He; [|destruct (user_enable (dpst d)) eqn:Hu].
  1,2: right;
    destruct (mmio_read (blm_hist_ctl (reg (dpst d))) (mmio d)) as [c h] eqn:Hrd;
    rewrite (get_bin_data_accepted _ _ _ c h) in Hrun by auto;
    destruct (read_bins _ _ _ _) as [[data1 d1]|] eqn:Hloop; [|done];
    injection Hrun as <- <- <-; split; [done|];
    apply read_bins_frame in Hloop as (h' & es & ->);
    rewrite evolve_evolve; by eexists _, _.
  left. rewrite (get_bin_data_refused _ _ _ He Hu) in Hrun. by injection Hrun as <- <- <-.
Qed.

Lemma ioctl_outcome fuel current data (d : device) r data' d' :
  i915_dpst_context fuel current data d = Some (r, data', d') →
  outcome d (Ioctl current data) r d'.
Proof.
  unfold i915_dpst_context. intros Hrun.
  destruct data as [ioctl_data|]; [|injection Hrun as <- <- <-; constructor].
  destruct (has_dpst d) eqn:Hcap; cbn [negb] in Hrun;
    [|injection Hrun as <- <- <-; constructor].
  destruct (dpst_ioctl_type ioctl_data) eqn:Hty.
  - destruct (set_user_enable_run true d) as (h & es & Hu). rewrite Hu in Hrun.
    injection Hrun as <- <- <-. rewrite user_gate_enable_ok.
    apply (o_user_gate d current ioctl_data true); [done|apply user_gate_enable_ok].
  - destruct (user_gate_ret (has_edp d) false (dpst d)) as [H0|(Hf & _ & He & Hc)].
    + destruct (set_user_enable_run false d) as (h & es & Hu). rewrite Hu in Hrun.
      injection Hrun as <- <- <-. rewrite H0.
      by apply (o_user_gate d current ioctl_data false).
    + assert (edp d = None) as Hnone.
      { unfold has_edp in Hc. apply bool_decide_eq_false_1 in Hc.
        destruct (edp d); [|done]. exfalso. by apply Hc. }
      rewrite (set_user_enable_failed d He Hnone) in Hrun.
      injection Hrun as <- <- <-. by constructor.
  - pose proof (init_run current ioctl_data d) as Hi.
    destruct (platform_regs (platform d)) as [regs|] eqn:Hp.
    + destruct Hi as (h & es & Hi). rewrite Hi in Hrun.
      injection Hrun as <- <- <-. by apply o_init.
    + rewrite Hi in Hrun. injection Hrun as <- <- <-. constructor.
  - destruct (i915_dpst_get_bin_data fuel ioctl_data d) as [[[r1 data1] d1]|] eqn:Hg;
      [|done].
    injection Hrun as <- <- <-.
    apply get_bin_data_frame in Hg as [(-> & -> & _)|(-> & h & es & ->)]; constructor.
  - destruct (edp d) as [c|] eqn:Hc; [destruct (user_enable (dpst d)) eqn:Hu|].
    + destruct (kernel_disable (dpst d)) eqn:Hkd.
      * destruct (mmio_read (blm_hist_ctl (reg (dpst d))) (mmio d)) as [v h] eqn:Hrd.
        rewrite (apply_luma_deferred _ _ _ _ _ Hc Hu Hkd Hrd) in Hrun.
        injection Hrun as <- <- <-. by eapply o_apply_deferred.
      * destruct (apply_luma_live ioctl_data _ _ Hc Hu Hkd) as (h & es & Ha).
        rewrite Ha in Hrun. injection Hrun as <- <- <-. by eapply o_apply_live.
    + rewrite apply_luma_refused in Hrun by auto.
      injection Hrun as <- <- <-. constructor.
    + rewrite apply_luma_refused in Hrun by auto.
      injection Hrun as <- <- <-. constructor.
  - destruct (clear_hist_interrupt_run d) as (h & es & Hc). rewrite Hc in Hrun.
    injection Hrun as <- <- <-. constructor.
  - injection Hrun as <- <- <-. constructor.
Qed.

Lemma kernel_disable_outcome (b : bool) (d : device) :
  outcome d (KernelDisable b) (fst (i915_dpst_set_kernel_disable b d))
          (snd (i915_dpst_set_kernel_disable b d)).
Proof.
  destruct (has_dpst d) eqn:Hcap; [|rewrite set_kernel_disable_off by done; constructor].
  destruct (kernel_gate_ret (has_edp d) (ie_on d) b (dpst d)) as [H0|(Hf & -> & He & Hc)].
  - destruct (set_kernel_disable_run b d Hcap) as (h & es & ->). cbn [fst snd].
    rewrite H0. by constructor.
  - assert (edp d = None) as Hnone.
    { unfold has_edp in Hc. apply bool_decide_eq_false_1 in Hc.
      destruct (edp d); [|done]. exfalso. by apply Hc. }
    destruct (mmio_read (blm_hist_ctl (reg (dpst d))) (mmio d)) as [v h] eqn:Hrd.
    rewrite (set_kernel_disable_failed d v h Hcap He Hnone Hrd). cbn [fst snd].
    by constructor.
Qed.

Lemma set_brightness_run brightness_val (d : device) :
  ∃ es, i915_dpst_set_brightness brightness_val d = (tt, evolve (dpst d) (mmio d) es d).
Proof.
  drv_unfold. cbn.
  destruct (find is_edp (connector_list d)); [destruct (enabled (dpst d))|]; cbn.
  - rewrite with_io_evolve. by eexists.
  - exists []. by rewrite evolve_id.
  - exists []. by rewrite evolve_id.
Qed.

Lemma get_brightness_run (d : device) :
  snd (i915_dpst_get_brightness d) = d.
Proof.
  unfold i915_dpst_get_brightness, get_intel_connector_on_edp, load, bind, ret.
  destruct (find is_edp (connector_list d)); [destruct (enabled (dpst d))|]; done.
Qed.

Lemma run_entry_outcome fuel (e : entry) (d : device) r d' :
  run_entry fuel e d = Some (r, d') → outcome d e r d'.
Proof.
  destruct e as [current data|b| |v|]; unfold run_entry; intros Hrun.
  - destruct (i915_dpst_context _ _ _ _) as [[[r1 data1] d1]|] eqn:Hc; [|done].
    injection Hrun as <- <-. by eapply ioctl_outcome.
  - injection Hrun as Hrun. pose proof (kernel_disable_outcome b d) as Ho.
    by rewrite Hrun in Ho.
  - injection Hrun as <- <-. destruct (irq_handler_run d) as (es & ->). constructor.
  - injection Hrun as <- <-. destruct (set_brightness_run v d) as (es & ->). constructor.
  - injection Hrun as Hrun. pose proof (get_brightness_run d) as Hg.
    rewrite Hrun in Hg. cbn in Hg. subst d'. constructor.
Qed.

Lemma kernel_gate_failed ie (s : i915_dpst) :
  enabled s = true → snd (kernel_gate false ie true s) = kernel_disable_recorded ie s.
Proof. intros He. unfold kernel_gate, kernel_disable_recorded. cbn. by rewrite He. Qed.

(** C2 (as amended): a command that returns an error has left enabled
    and blc_adjustment as they were. With an eDP connector present it
    has changed nothing at all. Without one, the device is unchanged
    too unless the command is a Disable, which has by then cleared
    user_enable and saved.is_valid, or set_kernel_disable(true), which
    has by then recorded the flag and taken the snapshot. *)
Theorem failed_command_effect :
  (∀ fuel current data (d : device) r data' d',
     i915_dpst_context fuel current data d = Some (r, data', d') → r ≠ 0 →
     (is_Some (edp d) → d' = d) ∧
     enabled (dpst d') = enabled (dpst d) ∧
     blc_adjustment (dpst d') = blc_adjustment (dpst d) ∧
     (d' = d ∨
      ∃ ioctl_data, data = Some ioctl_data ∧
        dpst_ioctl_type ioctl_data = DPST_DISABLE ∧ edp d = None ∧
        d' = with_dpst (upd_saved_is_valid false (upd_user_enable false (dpst d))) d)) ∧
  (∀ disable (d : device) r d',
     i915_dpst_set_kernel_disable disable d = (r, d') → r ≠ 0 →
     (is_Some (edp d) → d' = d) ∧
     enabled (dpst d') = enabled (dpst d) ∧
     blc_adjustment (dpst d') = blc_adjustment (dpst d) ∧
     (d' = d ∨
      disable = true ∧ edp d = None ∧
      dpst d' = kernel_disable_recorded (ie_on d) (dpst d))).
Proof.
  split.
  - intros fuel current data d r data' d' Hrun Hr.
    apply ioctl_outcome in Hrun.
    inversion Hrun; subst; try done.
    + by auto.
    + match goal with H : edp d = None |- _ => rewrite H end.
      repeat split; [by intros [? ?]|right]. by eauto.
  - intros disable d r d' Hrun Hr.
    pose proof (kernel_disable_outcome disable d) as Ho. rewrite Hrun in Ho. cbn in Ho.
    inversion Ho; subst; try done.
    + by auto.
    + match goal with H : edp d = None |- _ => rewrite H end.
      cbn. rewrite kernel_gate_failed by done.
      repeat split; [by intros [? ?]| | |by right].
      all: unfold kernel_disable_recorded; by destruct (ie_on d).
Qed.

(** C5 (as amended): saved.is_valid turns true only in a save event
    (set_kernel_disable(true) while enabled with the enhancement table
    enabled in hardware, or an apply_luma deferred under
    kernel_disable) and turns false only in a user Disable;
    set_user_enable(false) clears it in every state, and restore_luma
    leaves the snapshot as it is, still valid. *)
Theorem saved_validity_changes :
  (∀ d : device, is_valid (saved (dpst (snd (i915_dpst_set_user_enable false d)))) = false) ∧
  (∀ d : device, saved (dpst (snd (i915_dpst_restore_luma d))) = saved (dpst d)) ∧
  (∀ fuel e (d : device) r d',
     run_entry fuel e d = Some (r, d') →
     is_valid (saved (dpst d)) = false → is_valid (saved (dpst d')) = true →
     (∃ current ioctl_data,
        e = Ioctl current (Some ioctl_data) ∧
        dpst_ioctl_type ioctl_data = DPST_APPLY_LUMA ∧
        user_enable (dpst d) = true ∧ kernel_disable (dpst d) = true ∧ r = 0 ∧
        saved_blc_adjustment (saved (dpst d')) = dpst_blc_factor ioctl_data) ∨
     (e = KernelDisable true ∧ enabled (dpst d) = true ∧ ie_on d = true ∧
      saved_blc_adjustment (saved (dpst d')) = blc_adjustment (dpst d))) ∧
  (∀ fuel e (d : device) r d',
     run_entry fuel e d = Some (r, d') →
     is_valid (saved (dpst d)) = true → is_valid (saved (dpst d')) = false →
     ∃ current ioctl_data,
       e = Ioctl current (Some ioctl_data) ∧
       dpst_ioctl_type ioctl_data = DPST_DISABLE).
Proof.
  split; [|split; [|split]].
  - intros d. destruct (set_user_enable_run false d) as (h & es & ->).
    unfold user_gate. cbn. by destruct (enabled (dpst d)), (has_edp d).
  - intros d. pose proof (restore_run d) as Hr.
    destruct (edp d); [destruct (is_valid (saved (dpst d)))|].
    + by destruct Hr as (h & es & ->).
    + by rewrite Hr.
    + by rewrite Hr.
  - intros fuel e d r d' Hrun Hold Hnew.
    apply run_entry_outcome in Hrun.
    inversion Hrun; subst; cbn in Hnew; try congruence.
    + exfalso. revert Hnew. unfold user_gate.
      destruct b; cbn; repeat case_match; cbn; congruence.
    + exfalso. revert Hnew. unfold user_gate, init_dpst.
      cbn; repeat case_match; cbn; congruence.
    + left. by eauto 10.
    + right. revert Hnew. unfold kernel_gate.
      destruct b, (enabled (dpst d)) eqn:?, (ie_on d) eqn:?; cbn;
        repeat case_match; cbn; try congruence; by auto.
    + right. revert Hnew. rewrite kernel_gate_failed by done.
      unfold kernel_disable_recorded.
      destruct (ie_on d); cbn; try congruence; by auto.
  - intros fuel e d r d' Hrun Hold Hnew.
    apply run_entry_outcome in Hrun.
    inversion Hrun; subst; cbn in Hnew; try congruence.
    + destruct b; [|by eauto].
      exfalso. revert Hnew. unfold user_gate. cbn; repeat case_match; cbn; congruence.
    + by eauto.
    + exfalso. revert Hnew. unfold user_gate, init_dpst.
      cbn; repeat case_match; cbn; congruence.
    + exfalso. revert Hnew. unfold kernel_gate.
      cbn; repeat case_match; cbn; congruence.
    + exfalso. revert Hnew. rewrite kernel_gate_failed by done.
      unfold kernel_disable_recorded. destruct (ie_on d); cbn; congruence.
Qed.

Lemma enable_trace (d : device) :
  ∃ h c g1 g2, i915_dpst_enable_hist_interrupt d =
    (0, evolve (on_enable (dpst d)) h (enable_events (dpst d) c g1 g2) d).
Proof. drv_run. by eexists _, _, _, _. Qed.

Lemma disable_trace (d : device) i :
  edp d = Some i →
  ∃ h g c, i915_dpst_disable_hist_interrupt d =
    (0, evolve (on_disable (dpst d)) h
               (disable_events (dpst d) g c (backlight_level i)) d).
Proof.
  intros Hi. drv_unfold. rewrite Hi. drv_run. by eexists _, _, _.
Qed.

Lemma restore_trace (d : device) i :
  edp d = Some i → is_valid (saved (dpst d)) = true → enabled (dpst d) = true →
  ∃ h c, i915_dpst_restore_luma d =
    (tt, evolve (upd_blc_adjustment (saved_blc_adjustment (saved (dpst d))) (dpst d))
                (mmio_write (blm_hist_ctl (reg (dpst d)))
                   (Z.lor c (Z.lor IE_MOD_TABLE_ENABLE ENHANCEMENT_MODE_MULT)) h)
                (restore_events (dpst d) (backlight_level i) c) d).
Proof.
  intros Hi Hv He. drv_unfold. rewrite Hi, Hv. cbn. rewrite Hi. cbn. rewrite He.
  drv_run. by eexists _, _.
Qed.

(** The two active branches of [i915_dpst_set_kernel_disable], as
    compositions of the sequences they run. *)
Lemma set_kernel_disable_true_eq (d : device) :
  has_dpst d = true → enabled (dpst d) = true →
  i915_dpst_set_kernel_disable true d =
    i915_dpst_disable_hist_interrupt
      (snd (i915_dpst_save_luma (with_dpst (upd_kernel_disable true (dpst d)) d))).
Proof.
  intros Hcap He. unfold i915_dpst_set_kernel_disable, assign, load, bind, ret.
  rewrite Hcap. cbn. rewrite He. by destruct (i915_dpst_save_luma _).
Qed.

Lemma set_kernel_disable_false_eq (d : device) :
  has_dpst d = true → user_enable (dpst d) = true →
  i915_dpst_set_kernel_disable false d =
    (0, snd (i915_dpst_restore_luma
               (snd (i915_dpst_enable_hist_interrupt
                       (with_dpst (upd_kernel_disable false (dpst d)) d))))).
Proof.
  intros Hcap Hu. unfold i915_dpst_set_kernel_disable, assign, load, bind, ret.
  rewrite Hcap. cbn. rewrite Hu.
  destruct (enable_run (with_dpst (upd_kernel_disable false (dpst d)) d))
    as (h & es & ->). cbn.
  by destruct (i915_dpst_restore_luma _).
Qed.

Lemma set_kernel_disable_idle (disable : bool) (d : device) :
  has_dpst d = true →
  disable = true ∧ enabled (dpst d) = false ∨
  disable = false ∧ user_enable (dpst d) = false →
  i915_dpst_set_kernel_disable disable d =
    (0, with_dpst (upd_kernel_disable disable (dpst d)) d).
Proof.
  intros Hcap Hcase.
  unfold i915_dpst_set_kernel_disable, assign, load, bind, ret.
  rewrite Hcap. cbn.
  destruct Hcase as [[-> He]|[-> Hu]]; cbn; by rewrite ?He, ?Hu.
Qed.

(** C7 (as amended): on a device with DPST support and an eDP
    connector, set_kernel_disable records the flag and then: on the
    transition false→true while enabled it takes the snapshot (if the
    enhancement table is enabled in hardware) and runs the disable
    sequence; on the transition true→false while user_enable it runs
    the enable sequence and then restores the snapshot if it is valid;
    called with true while not enabled, or with false while user_enable
    is false, it only records the flag. *)
Theorem set_kernel_disable_transitions (d : device) i :
  has_dpst d = true → edp d = Some i →
  (kernel_disable (dpst d) = false → enabled (dpst d) = true →
   ∃ v h g c,
     i915_dpst_set_kernel_disable true d =
       (0, evolve (on_disable (kernel_disable_recorded
                                 (negb (Z.land v IE_MOD_TABLE_ENABLE =? 0)) (dpst d)))
                  h
                  (EvRead (blm_hist_ctl (reg (dpst d))) v ::
                   disable_events (dpst d) g c (backlight_level i)) d)) ∧
  (kernel_disable (dpst d) = true → user_enable (dpst d) = true →
   ∃ h c g1 g2 c',
     i915_dpst_set_kernel_disable false d =
       (0, evolve (let s := on_enable (upd_kernel_disable false (dpst d)) in
                   if is_valid (saved s)
                   then upd_blc_adjustment (saved_blc_adjustment (saved s)) s
                   else s)
                  h
                  (enable_events (dpst d) c g1 g2 ++
                   if is_valid (saved (dpst d))
                   then restore_events (dpst d) (backlight_level i) c'
                   else []) d)) ∧
  (∀ disable,
     disable = true ∧ enabled (dpst d) = false ∨
     disable = false ∧ user_enable (dpst d) = false →
     i915_dpst_set_kernel_disable disable d =
       (0, with_dpst (upd_kernel_disable disable (dpst d)) d)).
Proof.
  intros Hcap Hi. split; [|split].
  - intros Hkd He.
    unfold i915_dpst_set_kernel_disable, assign, load, bind, ret.
    rewrite Hcap. cbn. rewrite He.
    set (d1 := with_dpst (upd_kernel_disable true (dpst d)) d).
    destruct (save_run d1) as (v & h & Erd & ->).
    match goal with |- context [i915_dpst_disable_hist_interrupt ?x] =>
      destruct (disable_trace x i Hi) as (h' & g & c & ->) end.
    exists v, h', g, c. unfold kernel_disable_recorded, d1.
    destruct (Z.land v IE_MOD_TABLE_ENABLE =? 0);
      cbn; by rewrite with_dpst_evolve, !evolve_evolve.
  - intros Hkd Hu.
    unfold i915_dpst_set_kernel_disable, assign, load, bind, ret.
    rewrite Hcap. cbn. rewrite Hu.
    set (d1 := with_dpst (upd_kernel_disable false (dpst d)) d).
    destruct (enable_trace d1) as (h & c & g1 & g2 & ->). cbn.
    destruct (is_valid (saved (dpst d))) eqn:Hv.
    + match goal with |- context [i915_dpst_restore_luma ?x] =>
        destruct (restore_trace x i Hi) as (h' & c' & ->); [done|done|] end.
      eexists _, c, g1, g2, c'. unfold d1.
      cbn; by rewrite with_dpst_evolve, !evolve_evolve.
    + match goal with |- context [i915_dpst_restore_luma ?x] =>
        pose proof (restore_run x) as Hr; change (edp x) with (edp d) in Hr end.
      rewrite Hi in Hr. cbn in Hr. rewrite Hv in Hr. rewrite Hr.
      exists h, c, g1, g2, 0. unfold d1.
      cbn; by rewrite with_dpst_evolve, !evolve_evolve.
  - intros disable Hcase. by apply set_kernel_disable_idle.
Qed.

Lemma outcome_env (d : device) e r d' :
  outcome d e r d' →
  connector_list d' = connector_list d ∧ has_dpst d' = has_dpst d.
Proof. by destruct 1. Qed.

Lemma outcome_coherent (d : device) e r d' :
  outcome d e r d' → coherent d → coherent d'.
Proof.
  intros Ho Hc. pose proof (outcome_env _ _ _ _ Ho) as [Hl _].
  unfold coherent in *. unfold edp in *. rewrite Hl. clear Hl.
  destruct Ho; try done.
  all: unfold has_edp, edp in *.
  all: destruct (find is_edp (connector_list d)) eqn:Hfind;
    [rewrite ?(bool_decide_eq_true_2 _ (mk_is_Some _ _ eq_refl)) in *
    |rewrite ?(bool_decide_eq_false_2 (is_Some None) is_Some_None) in *].
  all: unfold user_gate, kernel_gate, init_dpst, on_enable, on_disable in *.
  all: try destruct b.
  all: try destruct (ie_on d).
  all: destruct (dpst d) as [[] [] [] ? ? ? ? [[] ?]]; cbn in *;
    try done; try (by intuition congruence).
Qed.

Lemma reachable_coherent (d0 d : device) :
  reachable d0 d → coherent d0 →
  coherent d ∧ connector_list d = connector_list d0 ∧ has_dpst d = has_dpst d0.
Proof.
  induction 1 as [|d fuel e r d' _ IH Hrun]; intros Hc; [done|].
  destruct (IH Hc) as (Hd & Hl & Hcap).
  apply run_entry_outcome in Hrun.
  destruct (outcome_env _ _ _ _ Hrun) as [Hl' Hcap'].
  split; [by eapply outcome_coherent|]. split; congruence.
Qed.

Lemma run_entries_reachable fuel es :
  ∀ d0 d d', reachable d0 d → run_entries fuel es d = Some d' → reachable d0 d'.
Proof.
  induction es as [|e es IH]; intros d0 d d' Hreach Hrun; cbn in Hrun.
  - by injection Hrun as <-.
  - destruct (run_entry fuel e d) as [[r d1]|] eqn:He; [|done].
    eapply IH; [|exact Hrun]. by eapply reach_step.
Qed.

End Properties.

(** ** The round trip on a register file *)

Section RegisterFile.

Context `{!dpst_config}.

Abbreviation rdevice := (drm_device (gmap Z Z)).

Lemma lor_keeps_bit (v k e : Z) : Z.land v e ≠ 0 → Z.land (Z.lor v k) e ≠ 0.
Proof.
  intros Hv Hz. apply Hv. apply Z.bits_inj'. intros n Hn.
  apply (f_equal (λ z, Z.testbit z n)) in Hz.
  rewrite Z.land_spec, Z.lor_spec, Z.bits_0 in Hz.
  rewrite Z.land_spec, Z.bits_0.
  destruct (Z.testbit v n), (Z.testbit e n); cbn in *; congruence.
Qed.

Lemma lor_sets_bit (v m e : Z) : e ≠ 0 → Z.land (Z.lor v (Z.lor e m)) e ≠ 0.
Proof.
  intros He Hz. apply He. apply Z.bits_inj'. intros n Hn.
  apply (f_equal (λ z, Z.testbit z n)) in Hz.
  rewrite Z.land_spec, !Z.lor_spec, Z.bits_0 in Hz.
  rewrite Z.bits_0.
  destruct (Z.testbit v n), (Z.testbit e n); cbn in *; congruence.
Qed.

(** Or-ing bits into the register at [a] keeps a bit that is set in the
    register at [b], whether or not the two are the same register. *)
Lemma or_write_keeps_bit (m : gmap Z Z) (a b k e : Z) :
  Z.land (default 0 (m !! b)) e ≠ 0 →
  Z.land (default 0 (<[a := Z.lor (default 0 (m !! a)) k]> m !! b)) e ≠ 0.
Proof.
  intros Hb. destruct (decide (a = b)) as [->|Hne].
  - rewrite lookup_insert_eq. cbn. by apply lor_keeps_bit.
  - by rewrite lookup_insert_ne.
Qed.

Lemma ie_table_enabled_ext (d d' : rdevice) :
  reg (dpst d') = reg (dpst d) → mmio d' = mmio d →
  ie_table_enabled d → ie_table_enabled d'.
Proof. unfold ie_table_enabled, peek. by intros -> ->. Qed.

Lemma enable_keeps_ie (d : rdevice) :
  ie_table_enabled d → ie_table_enabled (snd (i915_dpst_enable_hist_interrupt d)).
Proof.
  unfold ie_table_enabled, peek. intros Hie.
  unfold i915_dpst_enable_hist_interrupt, intel_wait_for_vblank, I915_READ, I915_WRITE,
    assign, load, bind, ret. cbn.
  by do 3 apply or_write_keeps_bit.
Qed.

Lemma mmio_read_regfile (a : Z) (d : rdevice) :
  mmio_read a (mmio d) = (peek a d, mmio d).
Proof. done. Qed.

Lemma ie_bit_nonzero (d : rdevice) : ie_table_enabled d → IE_MOD_TABLE_ENABLE ≠ 0.
Proof. intros Hie E. apply Hie. rewrite E. apply Z.land_0_r. Qed.

Lemma round_trip_with_connector (d : rdevice) i :
  has_dpst d = true → edp d = Some i →
  enabled (dpst d) = true → user_enable (dpst d) = true → ie_table_enabled d →
  let d1 := snd (i915_dpst_set_kernel_disable true d) in
  let d2 := snd (i915_dpst_set_kernel_disable false d1) in
  blc_adjustment (dpst d2) = blc_adjustment (dpst d) ∧
  ie_table_enabled d2 ∧
  user_enable (dpst d2) = user_enable (dpst d).
Proof.
  intros Hcap Hi He Hu Hie. cbn zeta.
  pose proof (ie_bit_nonzero d Hie) as Hbit.
  rewrite (set_kernel_disable_true_eq d Hcap He).
  destruct (save_run (with_dpst (upd_kernel_disable true (dpst d)) d))
    as (v & h & Hrd & ->).
  rewrite mmio_read_regfile in Hrd. injection Hrd as <- <-. cbn [snd].
  unfold ie_table_enabled in Hie. apply Z.eqb_neq in Hie.
  change (peek _ (with_dpst _ d)) with (peek (blm_hist_ctl (reg (dpst d))) d).
  rewrite Hie.
  match goal with |- context [i915_dpst_disable_hist_interrupt ?x] =>
    destruct (disable_trace x i Hi) as (h' & g & c & ->) end.
  cbn [snd]. rewrite set_kernel_disable_false_eq by done.
  match goal with |- context [i915_dpst_enable_hist_interrupt ?x] =>
    destruct (enable_trace x) as (h1 & c1 & g1 & g2 & ->) end.
  cbn [snd].
  match goal with |- context [i915_dpst_restore_luma ?x] =>
    destruct (restore_trace x i Hi) as (h2 & c2 & ->); [done|done|] end.
  cbn [snd]. split; [done|]. split; [|done].
  unfold ie_table_enabled, peek, evolve. cbn [mmio dpst reg].
  unfold mmio_write, regfile_hw. rewrite lookup_insert_eq. cbn [default].
  by apply lor_sets_bit.
Qed.

(** Without a connector, set_kernel_disable(true) while enabled fails
    after the snapshot: the registers are as they were. *)
Lemma kernel_disable_without_connector (d : rdevice) :
  has_dpst d = true → edp d = None → enabled (dpst d) = true →
  ∃ d1, i915_dpst_set_kernel_disable true d = (- EINVAL, d1) ∧
    mmio d1 = mmio d ∧ reg (dpst d1) = reg (dpst d) ∧
    user_enable (dpst d1) = user_enable (dpst d) ∧
    blc_adjustment (dpst d1) = blc_adjustment (dpst d) ∧
    has_dpst d1 = true ∧ edp d1 = None.
Proof.
  intros Hcap Hi He.
  rewrite (set_kernel_disable_failed d _ _ Hcap He Hi (mmio_read_regfile _ d)).
  rewrite kernel_gate_failed by done.
  eexists. split; [done|]. unfold kernel_disable_recorded.
  by destruct (ie_on d).
Qed.

Lemma kernel_enable_without_connector (d : rdevice) :
  has_dpst d = true → edp d = None → ie_table_enabled d →
  ∃ d2, i915_dpst_set_kernel_disable false d = (0, d2) ∧
    ie_table_enabled d2 ∧
    user_enable (dpst d2) = user_enable (dpst d) ∧
    (blc_adjustment (dpst d2) = blc_adjustment (dpst d) ∨
     blc_adjustment (dpst d2) = DPST_MAX_FACTOR).
Proof.
  intros Hcap Hi Hie.
  destruct (user_enable (dpst d)) eqn:Hu.
  - rewrite (set_kernel_disable_false_eq d Hcap Hu).
    eexists. split; [done|].
    pose (dk := with_dpst (upd_kernel_disable false (dpst d)) d).
    assert (Hiek : ie_table_enabled (snd (i915_dpst_enable_hist_interrupt dk))).
    { apply enable_keeps_ie. by apply (ie_table_enabled_ext d). }
    fold dk. destruct (enable_run dk) as (h & es & Hen).
    rewrite Hen in Hiek |- *. cbn [snd] in Hiek |- *.
    match goal with |- context [i915_dpst_restore_luma ?x] =>
      pose proof (restore_run x) as Hr; change (edp x) with (edp d) in Hr end.
    rewrite Hi in Hr. rewrite Hr. cbn [snd].
    split; [exact Hiek|]. split; [exact Hu|by right].
  - rewrite (set_kernel_disable_idle false d Hcap) by (by right).
    eexists. split; [done|]. split; [|split; [exact Hu|by left]].
    by apply (ie_table_enabled_ext d).
Qed.

Lemma round_trip_without_connector (d : rdevice) :
  has_dpst d = true → edp d = None →
  enabled (dpst d) = true → blc_adjustment (dpst d) = DPST_MAX_FACTOR →
  ie_table_enabled d →
  let d1 := snd (i915_dpst_set_kernel_disable true d) in
  let d2 := snd (i915_dpst_set_kernel_disable false d1) in
  blc_adjustment (dpst d2) = blc_adjustment (dpst d) ∧
  ie_table_enabled d2 ∧
  user_enable (dpst d2) = user_enable (dpst d).
Proof.
  intros Hcap Hi He Hmax Hie. cbn zeta.
  destruct (kernel_disable_without_connector d Hcap Hi He)
    as (d1 & -> & Hm1 & Hr1 & Hu1 & Hb1 & Hcap1 & Hi1).
  cbn [snd].
  assert (Hie1 : ie_table_enabled d1) by by apply (ie_table_enabled_ext d).
  destruct (kernel_enable_without_connector d1 Hcap1 Hi1 Hie1)
    as (d2 & -> & Hie2 & Hu2 & Hb2).
  cbn [snd]. split; [|split; [done|congruence]].
  destruct Hb2; congruence.
Qed.

(** C6: in every state reached from a freshly attached device in which
    enabled is true, the enhancement-table-enable bit is set in the
    control register and blc_adjustment = X, set_kernel_disable(true)
    followed by set_kernel_disable(false) ends with blc_adjustment = X
    again, with the enhancement-table-enable bit set and with
    user_enable as it was. *)
Theorem save_restore_round_trip (d0 d : rdevice) (X : Z) :
  dpst d0 = dpst0 → reachable d0 d →
  enabled (dpst d) = true → ie_table_enabled d → blc_adjustment (dpst d) = X →
  let d1 := snd (i915_dpst_set_kernel_disable true d) in
  let d2 := snd (i915_dpst_set_kernel_disable false d1) in
  blc_adjustment (dpst d2) = X ∧
  ie_table_enabled d2 ∧
  user_enable (dpst d2) = user_enable (dpst d).
Proof.
  intros H0 Hreach He Hie <-.
  assert (Hc0 : coherent d0).
  { unfold coherent. rewrite H0. by destruct (edp d0). }
  destruct (reachable_coherent _ _ Hreach Hc0) as (Hc & _ & _).
  unfold coherent in Hc.
  destruct (has_dpst d) eqn:Hcap.
  - destruct (edp d) as [i|] eqn:Hi.
    + destruct (Hc He) as [Hu Hkd]. by apply (round_trip_with_connector d i).
    + by apply round_trip_without_connector; auto.
  - cbn zeta. rewrite (set_kernel_disable_off true d Hcap). cbn [snd].
    by rewrite (set_kernel_disable_off false d Hcap).
Qed.

End RegisterFile.

(** ** Scenarios on the simulated backends *)

Section Scenarios.

#[local] Existing Instance i915_config.

Abbreviation sim := (drm_device (gmap Z Z)).

Lemma gate_invariant_with_connector_witness :
  is_Some (edp with_panel) ∧ gate_inv with_panel ∧
  Forall gate_inv
    (states_after [SetUserEnable true; SetKernelDisable true; SetUserEnable false;
                   SetKernelDisable false; SetUserEnable true] with_panel).
Proof.
  assert (Hc : is_Some (edp with_panel)) by (eexists; reflexivity).
  assert (Hi : gate_inv with_panel) by reflexivity.
  split; [exact Hc|]. split; [exact Hi|].
  exact (gate_invariant_with_connector _ with_panel Hc Hi).
Defined.

(** C1, as stated, fails: without an eDP connector, Enable followed by
    Disable leaves enabled true with user_enable false. *)
Lemma gate_invariant_fails_without_connector :
  gate_inv no_panel ∧
  ¬ Forall gate_inv (states_after [SetUserEnable true; SetUserEnable false] no_panel).
Proof.
  split; [reflexivity|]. intros HF.
  apply Forall_cons in HF as [_ HF]. apply Forall_cons in HF as [H2 _].
  vm_compute in H2. discriminate H2.
Qed.

Lemma failed_command_effect_witness :
  (is_Some (edp with_panel) → with_panel = with_panel) ∧
  enabled (dpst with_panel) = enabled (dpst with_panel) ∧
  blc_adjustment (dpst with_panel) = blc_adjustment (dpst with_panel) ∧
  (with_panel = with_panel ∨
   ∃ ioctl_data, Some (ioctl_cmd DPST_APPLY_LUMA) = Some ioctl_data ∧
     dpst_ioctl_type ioctl_data = DPST_DISABLE ∧ edp with_panel = None ∧
     with_panel =
       with_dpst (upd_saved_is_valid false (upd_user_enable false (dpst with_panel)))
                 with_panel).
Proof.
  apply (proj1 failed_command_effect 0%nat 1 (Some (ioctl_cmd DPST_APPLY_LUMA))
           with_panel (- EINVAL) (Some (ioctl_cmd DPST_APPLY_LUMA)) with_panel).
  - reflexivity.
  - discriminate.
Defined.

(** C2, as stated, fails: without an eDP connector a Disable issued
    while enabled returns -EINVAL and has cleared user_enable. *)
Lemma failed_disable_changes_state :
  match i915_dpst_context 0 1 (Some (ioctl_cmd DPST_DISABLE)) enabled_no_panel with
  | Some (r, _, d') =>
    r = - EINVAL ∧ dpst d' ≠ dpst enabled_no_panel ∧
    user_enable (dpst enabled_no_panel) = true ∧ user_enable (dpst d') = false
  | None => False
  end.
Proof. vm_compute. repeat split; congruence. Qed.

Lemma apply_luma_invalid_iff_user_disabled_witness :
  (fst (i915_dpst_apply_luma (ioctl_cmd DPST_APPLY_LUMA) active_panel) = - EINVAL ↔
   user_enable (dpst active_panel) = false) ∧
  fst (i915_dpst_apply_luma (ioctl_cmd DPST_APPLY_LUMA) no_panel) = - EINVAL.
Proof.
  split.
  - apply (proj1 (apply_luma_invalid_iff_user_disabled _ active_panel)).
    exists (edp_panel 1000). by vm_compute.
  - apply (proj2 (apply_luma_invalid_iff_user_disabled _ no_panel)).
    by vm_compute.
Defined.

(** C3, as stated, fails: without an eDP connector apply_luma returns
    -EINVAL although user_enable is true. *)
Lemma apply_luma_invalid_although_user_enabled :
  user_enable (dpst enabled_no_panel) = true ∧
  fst (i915_dpst_apply_luma (ioctl_cmd DPST_APPLY_LUMA) enabled_no_panel) = - EINVAL.
Proof. split; by vm_compute. Qed.

Lemma apply_luma_while_kernel_disabled_witness :
  ∃ d', i915_dpst_apply_luma (ioctl_cmd DPST_APPLY_LUMA) suspended_panel = (0, d') ∧
    saved (dpst d') = {| is_valid := true; saved_blc_adjustment := 5000 |} ∧
    blc_adjustment (dpst d') = blc_adjustment (dpst suspended_panel) ∧
    Forall (λ e, ∀ level, e ≠ EvBacklight level)
           (drop (length (trace suspended_panel)) (trace d')).
Proof.
  assert (Hc : edp suspended_panel = Some (edp_panel 1000)) by by vm_compute.
  assert (Hue : user_enable (dpst suspended_panel) = true) by by vm_compute.
  assert (Hkd : kernel_disable (dpst suspended_panel) = true) by by vm_compute.
  assert (Hrd : mmio_read (blm_hist_ctl (reg (dpst suspended_panel)))
                  (mmio suspended_panel) =
                (peek (blm_hist_ctl (reg (dpst suspended_panel))) suspended_panel,
                 mmio suspended_panel)) by apply mmio_read_regfile.
  assert (Hsel : Z.land BIN_REG_FUNCTION_SELECT_IE IE_MOD_TABLE_ENABLE = 0)
    by by vm_compute.
  assert (Hmask : Z.land BIN_REGISTER_INDEX_MASK IE_MOD_TABLE_ENABLE = 0)
    by by vm_compute.
  destruct (apply_luma_while_kernel_disabled (ioctl_cmd DPST_APPLY_LUMA) suspended_panel
              _ _ _ Hc Hue Hkd Hrd Hsel Hmask)
    as (d' & Hrun & Hdpst & Hblc & _ & _ & Hquiet & _).
  exists d'. rewrite Hdpst. auto.
Defined.

(** C4, as stated, fails: without an eDP connector, with user_enable
    and kernel_disable both true, apply_luma returns -EINVAL and has
    neither written a register nor recorded a snapshot. *)
Lemma deferred_apply_refused_without_connector :
  user_enable (dpst suspended_no_panel) = true ∧
  kernel_disable (dpst suspended_no_panel) = true ∧
  i915_dpst_apply_luma (ioctl_cmd DPST_APPLY_LUMA) suspended_no_panel =
    (- EINVAL, suspended_no_panel).
Proof. repeat split; by vm_compute. Qed.

Lemma saved_validity_changes_witness :
  is_valid (saved (dpst (snd (i915_dpst_set_user_enable false
                                (after [KernelDisable true] active_panel))))) = false ∧
  ((∃ current ioctl_data,
      ioctl DPST_APPLY_LUMA = Ioctl current (Some ioctl_data) ∧
      dpst_ioctl_type ioctl_data = DPST_APPLY_LUMA ∧
      user_enable (dpst suspended_panel) = true ∧
      kernel_disable (dpst suspended_panel) = true ∧ 0 = 0 ∧
      saved_blc_adjustment (saved (dpst (after [ioctl DPST_APPLY_LUMA] suspended_panel)))
        = dpst_blc_factor ioctl_data) ∨
   (ioctl DPST_APPLY_LUMA = KernelDisable true ∧
    enabled (dpst suspended_panel) = true ∧ ie_on suspended_panel = true ∧
    saved_blc_adjustment (saved (dpst (after [ioctl DPST_APPLY_LUMA] suspended_panel)))
      = blc_adjustment (dpst suspended_panel))).
Proof.
  destruct saved_validity_changes as (Hclear & _ & Hrise & _).
  split; [apply Hclear|].
  apply (Hrise 0%nat (ioctl DPST_APPLY_LUMA) suspended_panel 0
               (after [ioctl DPST_APPLY_LUMA] suspended_panel)).
  - by vm_compute.
  - by vm_compute.
  - by vm_compute.
Defined.

(** C5, as stated, fails: after set_kernel_disable(true) has taken the
    snapshot and set_kernel_disable(false) has restored it, the
    snapshot is still marked valid. *)
Lemma snapshot_still_valid_after_restore :
  is_valid (saved (dpst active_panel)) = false ∧
  saved (dpst (after [KernelDisable true] active_panel))
    = {| is_valid := true; saved_blc_adjustment := 5000 |} ∧
  blc_adjustment (dpst (after [KernelDisable true] active_panel)) = 10000 ∧
  blc_adjustment (dpst (after [KernelDisable true; KernelDisable false] active_panel))
    = 5000 ∧
  is_valid (saved (dpst (after [KernelDisable true; KernelDisable false] active_panel)))
    = true ∧
  is_valid (saved (dpst (snd (i915_dpst_restore_luma
                                (after [KernelDisable true] active_panel))))) = true.
Proof. repeat split; by vm_compute. Qed.

Lemma active_panel_reachable : reachable with_panel active_panel.
Proof.
  apply (run_entries_reachable 64 [ioctl DPST_INIT_DATA; ioctl DPST_APPLY_LUMA]
           with_panel with_panel).
  - constructor.
  - by vm_compute.
Defined.

Lemma save_restore_round_trip_witness :
  let d1 := snd (i915_dpst_set_kernel_disable true active_panel) in
  let d2 := snd (i915_dpst_set_kernel_disable false d1) in
  blc_adjustment (dpst d2) = 5000 ∧ ie_table_enabled d2 ∧
  user_enable (dpst d2) = user_enable (dpst active_panel).
Proof.
  apply (save_restore_round_trip with_panel active_panel 5000).
  - by vm_compute.
  - exact active_panel_reachable.
  - by vm_compute.
  - unfold ie_table_enabled. vm_compute. discriminate.
  - by vm_compute.
Defined.

Lemma set_kernel_disable_transitions_witness :
  ∃ v h g c,
    i915_dpst_set_kernel_disable true active_panel =
      (0, evolve (on_disable (kernel_disable_recorded
                                (negb (Z.land v IE_MOD_TABLE_ENABLE =? 0))
                                (dpst active_panel)))
                 h
                 (EvRead (blm_hist_ctl (reg (dpst active_panel))) v ::
                  disable_events (dpst active_panel) g c (backlight_level (edp_panel 1000)))
                 active_panel).
Proof.
  assert (Hcap : has_dpst active_panel = true) by by vm_compute.
  assert (Hedp : edp active_panel = Some (edp_panel 1000)) by by vm_compute.
  apply (proj1 (set_kernel_disable_transitions active_panel (edp_panel 1000) Hcap Hedp)).
  - by vm_compute.
  - by vm_compute.
Defined.

(** C7, as stated, fails: without an eDP connector the transition
    false→true while enabled takes the snapshot decision but does not
    disable the hardware: enabled stays true, no register is written,
    and the call returns -EINVAL. *)
Lemma kernel_disable_true_fails_without_connector :
  kernel_disable (dpst enabled_no_panel) = false ∧
  enabled (dpst enabled_no_panel) = true ∧
  fst (i915_dpst_set_kernel_disable true enabled_no_panel) = - EINVAL ∧
  enabled (dpst (snd (i915_dpst_set_kernel_disable true enabled_no_panel))) = true ∧
  trace (snd (i915_dpst_set_kernel_disable true enabled_no_panel)) =
    trace enabled_no_panel ++ [EvRead 0 3238002688].
Proof. repeat split; by vm_compute. Qed.

(** A call that repeats kernel_disable = false while user_enable is
    true runs the enable sequence again: the applied backlight factor
    is lost although the enhancement table stays enabled. *)
Example repeated_kernel_enable_resets_blc :
  kernel_disable (dpst active_panel) = false ∧
  blc_adjustment (dpst active_panel) = 5000 ∧
  blc_adjustment (dpst (snd (i915_dpst_set_kernel_disable false active_panel))) = 10000 ∧
  ie_table_enabled (snd (i915_dpst_set_kernel_disable false active_panel)).
Proof.
  repeat split; by vm_compute.
Qed.

Lemma get_bin_data_gate_witness :
  i915_dpst_get_bin_data 64 (ioctl_cmd DPST_GET_BIN_DATA) with_panel =
    Some (- EINVAL, ioctl_cmd DPST_GET_BIN_DATA, with_panel) ∧
  (i915_dpst_get_bin_data 64 (ioctl_cmd DPST_GET_BIN_DATA) active_panel = None ∨
   ∃ data' d', i915_dpst_get_bin_data 64 (ioctl_cmd DPST_GET_BIN_DATA) active_panel =
                 Some (0, data', d')).
Proof.
  split.
  - apply (proj1 (get_bin_data_gate 64 (ioctl_cmd DPST_GET_BIN_DATA) with_panel));
      by vm_compute.
  - apply (proj1 (proj2 (get_bin_data_gate 64 (ioctl_cmd DPST_GET_BIN_DATA) active_panel))).
    left. by vm_compute.
Defined.

Lemma enable_resets_blc_adjustment_witness :
  (∃ d', i915_dpst_set_user_enable true with_panel = (0, d') ∧
         blc_adjustment (dpst d') = 10000) ∧
  blc_adjustment (dpst (snd (i915_dpst_set_kernel_disable false suspended_panel)))
    = 10000.
Proof.
  split.
  - assert (Hkd : kernel_disable (dpst with_panel) = false) by by vm_compute.
    assert (Hen : enabled (dpst with_panel) = false) by by vm_compute.
    exact (proj1 (proj2 (enable_resets_blc_adjustment with_panel)) Hkd Hen).
  - assert (Hcap : has_dpst suspended_panel = true) by by vm_compute.
    assert (Hue : user_enable (dpst suspended_panel) = true) by by vm_compute.
    destruct (proj2 (proj2 (enable_resets_blc_adjustment suspended_panel)) Hcap Hue)
      as (d1 & _ & _ & _ & Hmax).
    assert (Hinv : is_valid (saved (dpst suspended_panel)) = false) by by vm_compute.
    exact (Hmax Hinv).
Defined.

End Scenarios.

(** ** The read loop on a bin register that is never, or always, busy *)

Section BusyScenarios.

#[local] Existing Instance i915_config.

Lemma idle_hw_never_busy a : @never_busy unit idle_hw i915_config a.
Proof. intros h. by vm_compute. Qed.

Lemma busy_hw_always_busy a : @always_busy unit busy_hw i915_config a.
Proof. intros h. by vm_compute. Qed.

Lemma bin_read_loop_witness :
  (∃ data' d' c vs,
     @i915_dpst_get_bin_data unit idle_hw i915_config 33
       (ioctl_cmd DPST_GET_BIN_DATA) idle_device = Some (0, data', d') ∧
     dpst d' = dpst idle_device ∧
     trace d' = trace idle_device ++
       [EvRead (blm_hist_ctl (reg (dpst idle_device))) c;
        EvWrite (blm_hist_ctl (reg (dpst idle_device))) (select_histogram c)] ++
       map (EvRead (blm_hist_bin (reg (dpst idle_device)))) vs ∧
     length vs = Z.to_nat HIST_BIN_COUNT) ∧
  (∀ fuel,
     @i915_dpst_get_bin_data unit busy_hw i915_config fuel
       (ioctl_cmd DPST_GET_BIN_DATA) busy_device = None) ∧
  @read_bins unit busy_hw i915_config 4 7 (ioctl_cmd DPST_GET_BIN_DATA) busy_device =
    @read_bins unit busy_hw i915_config 3 0 (ioctl_cmd DPST_GET_BIN_DATA)
      (evolve (dpst busy_device) tt
         [EvRead 0 BUSY_BIT; EvRead 0 BUSY_BIT; EvWrite 0 (reset_index BUSY_BIT)]
         busy_device).
Proof.
  destruct (@bin_read_loop_restart_and_termination unit idle_hw i915_config)
    as (_ & Hidle & _).
  destruct (@bin_read_loop_restart_and_termination unit busy_hw i915_config)
    as (Hrestart & _ & Hbusy).
  split; [|split].
  - apply Hidle.
    + left. by vm_compute.
    + apply idle_hw_never_busy.
    + vm_compute. lia.
  - apply Hbusy.
    + left. by vm_compute.
    + apply busy_hw_always_busy.
    + by vm_compute.
  - apply (Hrestart 3%nat 7 (ioctl_cmd DPST_GET_BIN_DATA) busy_device BUSY_BIT tt
                    BUSY_BIT tt).
    + by vm_compute.
    + by vm_compute.
    + by vm_compute.
    + by vm_compute.
Defined.

End BusyScenarios.

(** * Further properties of the DPST controller *)

Section Controller.
Context {HW : Type} `{!Hardware HW} `{!dpst_config}.
Abbreviation device := (drm_device HW).

#[local] Arguments i915_dpst_set_kernel_disable : simpl never.
#[local] Arguments i915_dpst_set_user_enable : simpl never.
#[local] Arguments i915_dpst_apply_luma : simpl never.
#[local] Arguments i915_dpst_restore_luma : simpl never.
#[local] Arguments i915_dpst_save_luma : simpl never.
#[local] Arguments i915_dpst_set_brightness : simpl never.
#[local] Arguments i915_dpst_disable_hist_interrupt : simpl never.
#[local] Arguments i915_dpst_enable_hist_interrupt : simpl never.
#[local] Arguments i915_dpst_clear_hist_interrupt : simpl never.
#[local] Arguments i915_dpst_update_registers : simpl never.
#[local] Arguments i915_dpst_init : simpl never.
#[local] Arguments i915_dpst_get_bin_data : simpl never.
#[local] Arguments i915_dpst_context : simpl never.
#[local] Arguments u32 : simpl never.
#[local] Arguments user_gate : simpl never.
#[local] Arguments kernel_gate : simpl never.

Lemma is_edp_spec (c : intel_connector) :
  is_edp c = true ↔ encoder c = Some INTEL_OUTPUT_EDP.
Proof. unfold is_edp. destruct (encoder c) as [[]|]; split; congruence. Qed.

Lemma find_first {A} (p : A → bool) (l : list A) :
  match find p l with
  | Some c => p c = true ∧ ∃ l1 l2, l = l1 ++ c :: l2 ∧ Forall (λ x, p x = false) l1
  | None => Forall (λ x, p x = false) l
  end.
Proof.
  induction l as [|x l IH]; cbn; [done|].
  destruct (p x) eqn:Hx.
  - split; [done|]. by exists [], l.
  - destruct (find p l) as [c|].
    + destruct IH as (Hc & l1 & l2 & -> & Hl1). split; [done|].
      exists (x :: l1), l2. split; [done|]. by constructor.
    + by constructor.
Qed.

(** X1: the connector lookup returns the first connector of the list
    whose encoder is of type eDP (a connector without encoder is passed
    over), returns NULL exactly when the list has none, and changes
    nothing. *)
Theorem edp_lookup_first_match (d : device) :
  snd (get_intel_connector_on_edp d) = d ∧
  match fst (get_intel_connector_on_edp d) with
  | Some c =>
    encoder c = Some INTEL_OUTPUT_EDP ∧
    ∃ l1 l2, connector_list d = l1 ++ c :: l2 ∧
      Forall (λ x, encoder x ≠ Some INTEL_OUTPUT_EDP) l1
  | None => Forall (λ x, encoder x ≠ Some INTEL_OUTPUT_EDP) (connector_list d)
  end.
Proof.
  split; [done|]. cbn.
  pose proof (find_first is_edp (connector_list d)) as Hf.
  assert (Hno : ∀ l, Forall (λ x, is_edp x = false) l →
                     Forall (λ x, encoder x ≠ Some INTEL_OUTPUT_EDP) l).
  { intros l Hl. eapply Forall_impl; [exact Hl|].
    intros x Hx E. apply is_edp_spec in E. congruence. }
  destruct (find is_edp (connector_list d)) as [c|].
  - destruct Hf as (Hc & l1 & l2 & Hl & Hl1). split; [by apply is_edp_spec|].
    exists l1, l2. split; [done|]. by apply Hno.
  - by apply Hno.
Qed.

Lemma set_brightness_effect (brightness_val : Z) (d : device) :
  (edp d = None ∨ enabled (dpst d) = false →
   i915_dpst_set_brightness brightness_val d = (tt, d)) ∧
  (is_Some (edp d) → enabled (dpst d) = true →
   i915_dpst_set_brightness brightness_val d =
     (tt, evolve (dpst d) (mmio d)
            [EvBacklight (u32 (brightness_val * blc_adjustment (dpst d)) / 100 / 100)] d)).
Proof.
  split.
  - intros Hc. drv_unfold. destruct (find is_edp (connector_list d)); [|done].
    destruct Hc as [?|Hc]; [done|]. cbn. by rewrite Hc.
  - intros [c Hc] He. drv_unfold. rewrite Hc. cbn. rewrite He. cbn.
    by rewrite with_io_evolve.
Qed.

Lemma scaled_level_bound (val adj : Z) :
  0 ≤ val → 0 ≤ adj ≤ 10000 → val * adj < 2 ^ 32 →
  0 ≤ u32 (val * adj) / 100 / 100 ≤ val ∧
  (adj = 10000 → u32 (val * adj) / 100 / 100 = val).
Proof.
  intros Hv Ha Hlt. unfold u32.
  rewrite Z.mod_small by nia.
  rewrite Z.div_div by lia. change (100 * 100) with 10000.
  split.
  - split; [apply Z.div_pos; nia|].
    apply Z.div_le_upper_bound; nia.
  - intros ->. by rewrite Z.div_mul.
Qed.

(** X17: set_brightness does nothing but set at most one backlight
    level. As long as the product of the requested brightness and
    blc_adjustment fits 32 bits and blc_adjustment is at most 10000,
    the level set is at most the brightness requested, and equal to it
    when blc_adjustment is 10000. *)
Theorem set_brightness_never_brighter (brightness_val : Z) (d : device) :
  0 ≤ brightness_val → 0 ≤ blc_adjustment (dpst d) ≤ 10000 →
  brightness_val * blc_adjustment (dpst d) < 2 ^ 32 →
  ∃ es,
    i915_dpst_set_brightness brightness_val d = (tt, evolve (dpst d) (mmio d) es d) ∧
    (length es ≤ 1)%nat ∧
    Forall (λ e, ∃ level, e = EvBacklight level ∧ 0 ≤ level ≤ brightness_val ∧
                   (blc_adjustment (dpst d) = 10000 → level = brightness_val)) es.
Proof.
  intros Hv Ha Hlt.
  destruct (scaled_level_bound _ _ Hv Ha Hlt) as [Hb Heq].
  destruct (set_brightness_effect brightness_val d) as [Hoff Hon].
  destruct (edp d) as [c|] eqn:Hc; [destruct (enabled (dpst d)) eqn:He|].
  - rewrite Hon by done. eexists. split; [done|]. split; [cbn; lia|].
    constructor; [|constructor]. by eexists.
  - rewrite Hoff by auto. exists []. rewrite evolve_id. split; [done|].
    split; [cbn; lia|constructor].
  - rewrite Hoff by auto. exists []. rewrite evolve_id. split; [done|].
    split; [cbn; lia|constructor].
Qed.

(** X16: get_brightness changes nothing. Without an eDP connector it
    returns -EINVAL converted to u32, that is 4294967274; with one it
    returns 0 while DPST is not enabled and the panel's unadjusted
    level while it is. *)
Theorem get_brightness_result (d : device) :
  snd (i915_dpst_get_brightness d) = d ∧
  fst (i915_dpst_get_brightness d) =
    match edp d with
    | None => 2 ^ 32 - 22
    | Some c => if enabled (dpst d) then backlight_level c else 0
    end.
Proof.
  unfold i915_dpst_get_brightness, get_intel_connector_on_edp, load, bind, ret, edp.
  destruct (find is_edp (connector_list d)); [destruct (enabled (dpst d))|]; done.
Qed.


(** *** Flags, registration and frames *)

Lemma user_gate_frame e b (s : i915_dpst) :
  kernel_disable (snd (user_gate e b s)) = kernel_disable s ∧
  task (snd (user_gate e b s)) = task s ∧
  signal (snd (user_gate e b s)) = signal s ∧
  reg (snd (user_gate e b s)) = reg s ∧
  user_enable (snd (user_gate e b s)) = b.
Proof. unfold user_gate. destruct b; cbn; repeat case_match; done. Qed.

Lemma kernel_gate_frame e ie b (s : i915_dpst) :
  user_enable (snd (kernel_gate e ie b s)) = user_enable s ∧
  task (snd (kernel_gate e ie b s)) = task s ∧
  signal (snd (kernel_gate e ie b s)) = signal s ∧
  reg (snd (kernel_gate e ie b s)) = reg s ∧
  kernel_disable (snd (kernel_gate e ie b s)) = b.
Proof. unfold kernel_gate. destruct b; cbn; repeat case_match; done. Qed.

Lemma with_mode_frame (d : device) ioctl_data :
  sig_num (with_mode d ioctl_data) = sig_num ioctl_data ∧
  gb_delay (with_mode d ioctl_data) = gb_delay ioctl_data ∧
  dpst_ioctl_type (with_mode d ioctl_data) = dpst_ioctl_type ioctl_data.
Proof. unfold with_mode. by destruct (pipe_a_crtc d) as [[?|]|]. Qed.

Lemma outcome_platform (d : device) e r d' :
  outcome d e r d' → platform d' = platform d.
Proof. by destruct 1. Qed.

Lemma outcome_registration (d : device) e r d' :
  outcome d e r d' →
  (task (dpst d') = task (dpst d) ∧ signal (dpst d') = signal (dpst d) ∧
   reg (dpst d') = reg (dpst d)) ∨
  (∃ current ioctl_data, e = Ioctl current (Some ioctl_data) ∧
     dpst_ioctl_type ioctl_data = DPST_INIT_DATA ∧ r = 0 ∧
     task (dpst d') = Some current ∧ signal (dpst d') = sig_num ioctl_data ∧
     platform_regs (platform d) = Some (reg (dpst d'))).
Proof.
  destruct 1; cbn.
  1,2,4,6,7: by left.
  - left. by destruct (user_gate_frame (has_edp d) b (dpst d)) as (_ & -> & -> & -> & _).
  - right. exists current, ioctl_data.
    destruct (user_gate_frame (has_edp d) true
                (init_dpst current (with_mode d ioctl_data) regs (dpst d)))
      as (_ & -> & -> & -> & _).
    cbn. by destruct (with_mode_frame d ioctl_data) as (-> & _).
  - left. by destruct (kernel_gate_frame (has_edp d) (ie_on d) b (dpst d))
      as (_ & -> & -> & -> & _).
  - left. by destruct (kernel_gate_frame false (ie_on d) true (dpst d))
      as (_ & -> & -> & -> & _).
Qed.

(** X13: the recorded task, its signal number and the register offsets
    change in no entry point but a successful init ioctl, which sets
    them to the caller, its sig_num and the platform's offsets. *)
Theorem registration_changes_only_in_init fuel e (d : device) r d' :
  run_entry fuel e d = Some (r, d') →
  (task (dpst d') = task (dpst d) ∧ signal (dpst d') = signal (dpst d) ∧
   reg (dpst d') = reg (dpst d)) ∨
  (∃ current ioctl_data, e = Ioctl current (Some ioctl_data) ∧
     dpst_ioctl_type ioctl_data = DPST_INIT_DATA ∧ r = 0 ∧
     task (dpst d') = Some current ∧ signal (dpst d') = sig_num ioctl_data ∧
     platform_regs (platform d) = Some (reg (dpst d'))).
Proof. intros Hrun. apply outcome_registration. by eapply run_entry_outcome. Qed.

(** X14: in every state reached from one without a recorded task,
    either no task is recorded and the register offsets are the
    initial ones, or a task is recorded and the offsets are those of
    the platform. *)
Theorem registered_task_has_platform_registers (d0 d : device) :
  reachable d0 d → task (dpst d0) = None →
  platform d = platform d0 ∧
  match task (dpst d) with
  | Some _ => platform_regs (platform d0) = Some (reg (dpst d))
  | None => reg (dpst d) = reg (dpst d0)
  end.
Proof.
  induction 1 as [|d fuel e r d' _ IH Hrun]; intros H0.
  - by rewrite H0.
  - destruct (IH H0) as [Hp Ht].
    apply run_entry_outcome in Hrun.
    pose proof (outcome_platform _ _ _ _ Hrun) as Hp'.
    split; [congruence|].
    destruct (outcome_registration _ _ _ _ Hrun)
      as [(-> & _ & ->)|(current & ioctl_data & _ & _ & _ & -> & _ & Hregs)];
      [done|congruence].
Qed.

(** *** Idempotence of the user gate *)

Lemma set_user_enable_settled (b : bool) (d : device) :
  user_enable (dpst d) = b →
  (if b then kernel_disable (dpst d) || enabled (dpst d)
   else negb (is_valid (saved (dpst d))) &&
        (negb (enabled (dpst d)) || negb (has_edp d))) = true →
  i915_dpst_set_user_enable b d =
    ((if b then 0 else if enabled (dpst d) then - EINVAL else 0), d).
Proof.
  intros Hu Hs.
  pose proof (disable_run d) as Hd.
  unfold i915_dpst_set_user_enable, assign, load, bind, ret.
  unfold has_edp in Hs.
  destruct d as [[ue kd en adj rg tk sg [v sadj]] h cs p c m t]; cbn in *.
  subst ue. destruct b; cbn in *.
  - destruct kd, en; cbn in *; done.
  - destruct v; [done|]. destruct en; cbn in *; [|done].
    unfold edp in Hd, Hs. cbn in Hd, Hs.
    destruct (find is_edp cs) as [i|].
    + exfalso. rewrite bool_decide_eq_true_2 in Hs by by eexists. done.
    + unfold with_dpst, upd_saved_is_valid, upd_user_enable, upd_saved. cbn. exact Hd.
Qed.

(** X5: set_user_enable is idempotent: a second call with the same
    argument returns what the first returned and leaves the device as
    the first left it. *)
Theorem set_user_enable_idempotent (b : bool) (d : device) :
  i915_dpst_set_user_enable b (snd (i915_dpst_set_user_enable b d)) =
    i915_dpst_set_user_enable b d.
Proof.
  destruct (set_user_enable_run b d) as (h & es & Hrun). rewrite Hrun. cbn [snd].
  set (d1 := evolve _ h es d).
  assert (Hedp : has_edp d1 = has_edp d) by done.
  rewrite (set_user_enable_settled b d1).
  - f_equal. unfold d1. cbn. unfold user_gate.
    destruct b; cbn; repeat case_match; cbn in *; congruence.
  - unfold d1. cbn. by destruct (user_gate_frame (has_edp d) b (dpst d)) as (_ & _ & _ & _ & ->).
  - rewrite Hedp. unfold d1. cbn. unfold user_gate.
    destruct b; cbn; repeat case_match; cbn in *; try done.
    all: flags d; cbn in *; try done.
Qed.


(** X6: with an eDP connector and no kernel suppression, a user Disable
    followed by a user Enable both return 0 and end enabled with
    blc_adjustment at DPST_MAX_FACTOR and no valid snapshot: what the
    user had applied is forgotten. *)
Theorem user_disable_enable_forgets_adjustment (d : device) :
  is_Some (edp d) → kernel_disable (dpst d) = false →
  ∃ d1 d2,
    i915_dpst_set_user_enable false d = (0, d1) ∧
    i915_dpst_set_user_enable true d1 = (0, d2) ∧
    enabled (dpst d1) = false ∧
    enabled (dpst d2) = true ∧
    blc_adjustment (dpst d2) = DPST_MAX_FACTOR ∧
    is_valid (saved (dpst d2)) = false.
Proof.
  intros [i Hi] Hkd.
  destruct (set_user_enable_run false d) as (h & es & ->).
  rewrite (has_edp_Some _ _ Hi).
  set (d1 := evolve _ h es d).
  destruct (set_user_enable_run true d1) as (h' & es' & Hen).
  exists d1, (evolve (snd (user_gate (has_edp d1) true (dpst d1))) h' es' d1).
  rewrite Hen. unfold d1, user_gate. cbn. flags d; cbn in *; done.
Qed.

(** X21: with an eDP connector, a second set_kernel_disable(true) does
    nothing and returns what the first returned, 0 on a device with
    DPST support. *)
Theorem set_kernel_disable_true_idempotent (d : device) :
  is_Some (edp d) →
  i915_dpst_set_kernel_disable true (snd (i915_dpst_set_kernel_disable true d)) =
    i915_dpst_set_kernel_disable true d ∧
  (has_dpst d = true → fst (i915_dpst_set_kernel_disable true d) = 0).
Proof.
  intros [i Hi].
  rewrite (surjective_pairing (i915_dpst_set_kernel_disable true d)) at 2.
  destruct (has_dpst d) eqn:Hcap.
  - destruct (set_kernel_disable_run true d Hcap) as (h & es & ->).
    rewrite (has_edp_Some _ _ Hi). cbn [fst snd].
    set (d1 := evolve _ h es d).
    assert (He : enabled (dpst d1) = false ∧ kernel_disable (dpst d1) = true ∧
                 fst (kernel_gate true (ie_on d) true (dpst d)) = 0).
    { unfold d1, kernel_gate. cbn. destruct (ie_on d); flags d; cbn; done. }
    destruct He as (He & Hk & ->).
    split; [|done].
    rewrite (set_kernel_disable_idle true d1) by auto.
    f_equal. destruct d1 as [[] ? ? ? ? ? ?]. cbn in *. by subst.
  - rewrite (set_kernel_disable_off true d Hcap). cbn [fst snd].
    by rewrite (set_kernel_disable_off true d Hcap).
Qed.

(** *** Error codes of the ioctl *)

(** X18: a returning ioctl returns 0 or -EINVAL, and -EINVAL in exactly
    these cases: NULL data; no DPST support; an unknown ioctl type;
    Disable, enabled, without eDP connector; Init on a platform other
    than Haswell and Valleyview; GetBinData with enabled and
    user_enable both false; ApplyLuma without eDP connector or with
    user_enable false. *)
Theorem ioctl_error_conditions fuel current data (d : device) r data' d' :
  i915_dpst_context fuel current data d = Some (r, data', d') →
  (r = 0 ∨ r = - EINVAL) ∧
  (r = - EINVAL ↔
   match data with
   | None => True
   | Some ioctl_data =>
     has_dpst d = false ∨
     match dpst_ioctl_type ioctl_data with
     | DPST_ENABLE => False
     | DPST_DISABLE => enabled (dpst d) = true ∧ edp d = None
     | DPST_INIT_DATA => platform d = OTHER_PLATFORM
     | DPST_GET_BIN_DATA => enabled (dpst d) = false ∧ user_enable (dpst d) = false
     | DPST_APPLY_LUMA => edp d = None ∨ user_enable (dpst d) = false
     | DPST_RESET_HISTOGRAM_STATUS => False
     | DPST_IOCTL_OTHER _ => True
     end
   end).
Proof.
  unfold i915_dpst_context. intros Hrun.
  assert (Hne : - EINVAL ≠ 0) by done.
  assert (Hne' : 0 ≠ - EINVAL) by done.
  destruct data as [ioctl_data|]; [|injection Hrun as <- <- <-; by intuition congruence].
  destruct (has_dpst d) eqn:Hcap; cbn [negb] in Hrun;
    [|injection Hrun as <- <- <-; by intuition congruence].
  destruct (dpst_ioctl_type ioctl_data) eqn:Hty.
  - destruct (set_user_enable_run true d) as (h & es & Hu). rewrite Hu in Hrun.
    injection Hrun as <- <- <-. rewrite user_gate_enable_ok. by intuition congruence.
  - destruct (set_user_enable_run false d) as (h & es & Hu). rewrite Hu in Hrun.
    injection Hrun as <- <- <-. unfold user_gate, has_edp. cbn.
    destruct (enabled (dpst d)); cbn; [|by intuition congruence].
    destruct (edp d) as [i|] eqn:Hi.
    + rewrite bool_decide_eq_true_2 by by eexists. cbn. by intuition congruence.
    + rewrite bool_decide_eq_false_2 by by intros [? ?]. cbn. by intuition congruence.
  - pose proof (init_run current ioctl_data d) as Hi.
    destruct (platform d) eqn:Hp; cbn [platform_regs] in Hi.
    1,2: destruct Hi as (h & es & Hi); rewrite Hi in Hrun;
      injection Hrun as <- <- <-; by intuition congruence.
    rewrite Hi in Hrun. injection Hrun as <- <- <-. by intuition congruence.
  - destruct (i915_dpst_get_bin_data fuel ioctl_data d) as [[[r1 data1] d1]|] eqn:Hg;
      [|done].
    injection Hrun as <- <- <-.
    destruct (enabled (dpst d)) eqn:He; [|destruct (user_enable (dpst d)) eqn:Hu].
    1,2: destruct (mmio_read (blm_hist_ctl (reg (dpst d))) (mmio d)) as [c h] eqn:Hrd;
      rewrite (get_bin_data_accepted _ _ _ c h) in Hg by auto;
      destruct (read_bins _ _ _ _) as [[data2 d2]|]; [|done];
      injection Hg as <- <- <-; by intuition congruence.
    rewrite (get_bin_data_refused _ _ _ He Hu) in Hg. injection Hg as <- <- <-.
    by intuition congruence.
  - destruct (edp d) as [c|] eqn:Hc; [destruct (user_enable (dpst d)) eqn:Hu|].
    + assert (∃ d2, i915_dpst_apply_luma ioctl_data d = (0, d2)) as [d2 Ha].
      { destruct (kernel_disable (dpst d)) eqn:Hkd.
        - destruct (mmio_read (blm_hist_ctl (reg (dpst d))) (mmio d)) as [v h] eqn:Hrd.
          rewrite (apply_luma_deferred _ _ _ _ _ Hc Hu Hkd Hrd). by eexists.
        - destruct (apply_luma_live ioctl_data _ _ Hc Hu Hkd) as (h & es & ->).
          by eexists. }
      rewrite Ha in Hrun. injection Hrun as <- <- <-. by intuition congruence.
    + rewrite apply_luma_refused in Hrun by auto.
      injection Hrun as <- <- <-. by intuition congruence.
    + rewrite apply_luma_refused in Hrun by auto.
      injection Hrun as <- <- <-. by intuition congruence.
  - destruct (clear_hist_interrupt_run d) as (h & es & Hc). rewrite Hc in Hrun.
    injection Hrun as <- <- <-. by intuition congruence.
  - injection Hrun as <- <- <-. by intuition congruence.
Qed.

(** *** A device without DPST support *)

(** X20: a device without DPST support that starts disabled and without
    recorded task never leaves its initial state, whatever entry
    points are called: no register access, no backlight change, no
    signal. *)
Theorem device_without_dpst_is_inert (d0 d : device) :
  has_dpst d0 = false → enabled (dpst d0) = false → task (dpst d0) = None →
  reachable d0 d → d = d0.
Proof.
  intros Hcap He Ht. induction 1 as [|d fuel e r d' _ IH Hrun]; [done|].
  subst d. destruct e as [current data|b| |v|]; unfold run_entry in Hrun.
  - unfold i915_dpst_context in Hrun. rewrite Hcap in Hrun.
    destruct data; cbn in Hrun; by injection Hrun as <- <-.
  - rewrite set_kernel_disable_off in Hrun by done. by injection Hrun as <- <-.
  - unfold i915_dpst_irq_handler, load, bind, ret in Hrun. rewrite Ht in Hrun.
    by injection Hrun as <- <-.
  - destruct (set_brightness_effect v d0) as [Hoff _].
    rewrite Hoff in Hrun by auto. by injection Hrun as <- <-.
  - pose proof (get_brightness_run d0) as Hg.
    injection Hrun as Hrun. rewrite Hrun in Hg. by cbn in Hg.
Qed.

(** *** Who owns which flag *)

(** X19: user_enable is written by the Enable, Disable and Init ioctls
    only, and by them only on a device with DPST support (Init: on a
    supported platform); it then holds the value requested, whether or
    not the call succeeds. kernel_disable is written by
    set_kernel_disable only, which on a device with DPST support
    records its argument whether or not the call succeeds. *)
Theorem flag_ownership fuel e (d : device) r d' :
  run_entry fuel e d = Some (r, d') →
  match e with
  | Ioctl _ (Some ioctl_data) =>
    kernel_disable (dpst d') = kernel_disable (dpst d) ∧
    user_enable (dpst d') =
      match dpst_ioctl_type ioctl_data, has_dpst d, platform d with
      | DPST_ENABLE, true, _ => true
      | DPST_DISABLE, true, _ => false
      | DPST_INIT_DATA, true, (HASWELL | VALLEYVIEW) => true
      | _, _, _ => user_enable (dpst d)
      end
  | KernelDisable b =>
    user_enable (dpst d') = user_enable (dpst d) ∧
    kernel_disable (dpst d') = (if has_dpst d then b else kernel_disable (dpst d))
  | _ =>
    user_enable (dpst d') = user_enable (dpst d) ∧
    kernel_disable (dpst d') = kernel_disable (dpst d)
  end.
Proof.
  intros Hrun. destruct e as [current data|b| |v|]; unfold run_entry in Hrun.
  - destruct (i915_dpst_context _ _ _ _) as [[[r1 data1] d1]|] eqn:Hc; [|done].
    injection Hrun as <- <-.
    destruct data as [ioctl_data|]; [|unfold i915_dpst_context in Hc; by injection Hc as <- <- <-].
    unfold i915_dpst_context in Hc.
    destruct (has_dpst d) eqn:Hcap; cbn [negb] in Hc.
    2: { injection Hc as <- <- <-. split; [done|].
         by destruct (dpst_ioctl_type ioctl_data), (platform d). }
    destruct (dpst_ioctl_type ioctl_data) eqn:Hty.
    + destruct (set_user_enable_run true d) as (h & es & Hu). rewrite Hu in Hc.
      injection Hc as <- <- <-. cbn.
      by destruct (user_gate_frame (has_edp d) true (dpst d)) as (-> & _ & _ & _ & ->).
    + destruct (set_user_enable_run false d) as (h & es & Hu). rewrite Hu in Hc.
      injection Hc as <- <- <-. cbn.
      by destruct (user_gate_frame (has_edp d) false (dpst d)) as (-> & _ & _ & _ & ->).
    + pose proof (init_run current ioctl_data d) as Hi.
      destruct (platform d) eqn:Hp; cbn [platform_regs] in Hi.
      1,2: destruct Hi as (h & es & Hi); rewrite Hi in Hc;
        injection Hc as <- <- <-; cbn;
        match goal with |- context [user_gate ?e true ?s] =>
          destruct (user_gate_frame e true s) as (-> & _ & _ & _ & ->) end; done.
      rewrite Hi in Hc. injection Hc as <- <- <-. done.
    + destruct (i915_dpst_get_bin_data fuel ioctl_data d) as [[[r2 data2] d2]|] eqn:Hg;
        [|done].
      injection Hc as <- <- <-.
      apply get_bin_data_frame in Hg as [(_ & -> & _)|(_ & h & es & ->)];
        by destruct (platform d).
    + destruct (i915_dpst_apply_luma ioctl_data d) as [r2 d2] eqn:Ha.
      injection Hc as <- <- <-.
      destruct (edp d) as [c|] eqn:Hed; [destruct (user_enable (dpst d)) eqn:Hu|].
      * destruct (kernel_disable (dpst d)) eqn:Hkd.
        -- destruct (mmio_read (blm_hist_ctl (reg (dpst d))) (mmio d)) as [v h] eqn:Hrd.
           rewrite (apply_luma_deferred _ _ _ _ _ Hed Hu Hkd Hrd) in Ha.
           injection Ha as <- <-. cbn. by destruct (platform d).
        -- destruct (apply_luma_live ioctl_data _ _ Hed Hu Hkd) as (h & es & Ha').
           rewrite Ha' in Ha. injection Ha as <- <-. cbn. by destruct (platform d).
      * rewrite apply_luma_refused in Ha by auto. injection Ha as <- <-.
        by destruct (platform d).
      * rewrite apply_luma_refused in Ha by auto. injection Ha as <- <-.
        by destruct (platform d).
    + destruct (clear_hist_interrupt_run d) as (h & es & Hcl). rewrite Hcl in Hc.
      injection Hc as <- <- <-. by destruct (platform d).
    + injection Hc as <- <- <-. by destruct (platform d).
  - injection Hrun as Hrun. destruct (has_dpst d) eqn:Hcap.
    + destruct (set_kernel_disable_run b d Hcap) as (h & es & Hk). rewrite Hk in Hrun.
      injection Hrun as <- <-. cbn.
      by destruct (kernel_gate_frame (has_edp d) (ie_on d) b (dpst d)) as (-> & _ & _ & _ & ->).
    + rewrite set_kernel_disable_off in Hrun by done. by injection Hrun as <- <-.
  - injection Hrun as <- <-. by destruct (irq_handler_run d) as (es & ->).
  - injection Hrun as <- <-. by destruct (set_brightness_run v d) as (es & ->).
  - injection Hrun as Hrun. pose proof (get_brightness_run d) as Hg.
    rewrite Hrun in Hg. cbn in Hg. by subst.
Qed.

(** *** Initialisation *)

(** X11: on Haswell and Valleyview, init returns 0, selects the
    platform's three register offsets before it touches the guard
    register, ors the guardband delay (shifted by 22) and threshold
    into it, records the calling task and its signal number, and
    requests enablement: user_enable is true, and enabled unless the
    kernel suppresses DPST. From then on the interrupt handler sends
    that signal to that task. *)
Theorem init_registers_caller current ioctl_data (d : device) :
  platform d ≠ OTHER_PLATFORM →
  ∃ regs data' d' g es,
    platform_regs (platform d) = Some regs ∧
    i915_dpst_init current ioctl_data d = (0, data', d') ∧
    reg (dpst d') = regs ∧
    task (dpst d') = Some current ∧
    signal (dpst d') = sig_num ioctl_data ∧
    user_enable (dpst d') = true ∧
    kernel_disable (dpst d') = kernel_disable (dpst d) ∧
    enabled (dpst d') = enabled (dpst d) || negb (kernel_disable (dpst d)) ∧
    trace d' = trace d ++
      EvRead (blm_hist_guard regs) g ::
      EvWrite (blm_hist_guard regs)
        (Z.lor g (Z.lor (u32 (Z.shiftl (gb_delay ioctl_data) 22)) (threshold_gb data'))) ::
      es ∧
    i915_dpst_irq_handler d' =
      (tt, evolve (dpst d') (mmio d') [EvSignal (sig_num ioctl_data) current] d').
Proof.
  intros Hp.
  unfold i915_dpst_init, i915_dpst_update_registers.
  change (match pipe_a_crtc d with Some (Some mode) => _ | _ => ioctl_data end)
    with (with_mode d ioctl_data).
  destruct (with_mode_frame d ioctl_data) as (Hsig & Hgb & _).
  revert Hsig Hgb. generalize (with_mode d ioctl_data). intros data Hsig Hgb.
  destruct (platform d) eqn:Hpl; [| |done]; cbn [platform_regs];
    unfold bind at 1; rewrite ?Hpl;
    unfold assign, bind, ret, I915_READ, I915_WRITE;
    cbn -[Z.mul Z.quot Z.shiftl];
    destruct (mmio_read _ _) as [g h];
    match goal with |- context [i915_dpst_set_user_enable true ?x] =>
      destruct (set_user_enable_run true x) as (h' & es & ->) end;
    rewrite user_gate_enable_ok;
    eexists _, data, _, g, es; (split; [reflexivity|]); (split; [reflexivity|]);
    unfold user_gate, i915_dpst_irq_handler, send_sig_info, load, bind, ret;
    cbn -[Z.mul Z.quot Z.shiftl];
    rewrite Hsig, Hgb, <- !(app_assoc (trace d));
    destruct (kernel_disable (dpst d)) eqn:Hk, (enabled (dpst d)) eqn:He; cbn;
    rewrite ?Hk, ?He; done.
Qed.



(** *** The histogram handed to the caller *)

Lemma upd_status_id (data : dpst_initialize_context) :
  upd_status (status data) data = data.
Proof. by destruct data. Qed.

Lemma read_bins_pass (fuel : nat) :
  ∀ index ioctl_data (d : device) data' d' vs,
    0 ≤ index ≤ HIST_BIN_COUNT →
    length vs = Z.to_nat index →
    (Z.to_nat HIST_BIN_COUNT ≤ length (status ioctl_data))%nat →
    pass_recorded (blm_hist_bin (reg (dpst d))) vs (trace d) (status ioctl_data) →
    read_bins fuel index ioctl_data d = Some (data', d') →
    ∃ vs',
      length vs' = Z.to_nat HIST_BIN_COUNT ∧
      pass_recorded (blm_hist_bin (reg (dpst d))) vs' (trace d') (status data') ∧
      length (status data') = length (status ioctl_data) ∧
      drop (Z.to_nat HIST_BIN_COUNT) (status data') =
        drop (Z.to_nat HIST_BIN_COUNT) (status ioctl_data) ∧
      data' = upd_status (status data') ioctl_data.
Proof.
  induction fuel as [|fuel IH];
    intros index ioctl_data d data' d' vs Hidx Hlen Hroom Hpass Hrun; [done|].
  destruct (Z.lt_ge_cases index HIST_BIN_COUNT) as [Hlt|Hge].
  - destruct (mmio_read (blm_hist_bin (reg (dpst d))) (mmio d)) as [v h] eqn:Hrd.
    destruct (Z.eq_dec (Z.land v BUSY_BIT) 0) as [Hidle|Hbusy].
    + rewrite (read_bins_idle _ _ _ _ _ _ Hlt Hrd Hidle) in Hrun.
      destruct Hpass as ((pre & Htr) & Hfree & Htake).
      apply (IH _ _ _ _ _ (vs ++ [v])) in Hrun.
      * destruct Hrun as (vs' & Hlen' & Hpass' & Hl & Hd & Hdata).
        exists vs'. cbn in Hl, Hd, Hdata, Hpass'.
        rewrite length_insert in Hl.
        rewrite drop_insert_lt in Hd by lia.
        by rewrite Hdata at 1.
      * lia.
      * rewrite length_app. cbn. lia.
      * cbn. by rewrite length_insert.
      * cbn. split; [|split].
        -- exists pre. by rewrite Htr, map_app, app_assoc.
        -- apply Forall_app. by repeat constructor.
        -- rewrite length_app, Hlen. cbn. rewrite Nat.add_1_r.
           rewrite (take_S_r _ _ (Z.land v BIN_COUNT_MASK))
             by (apply list_lookup_insert_eq; lia).
           rewrite take_insert_ge by done.
           rewrite <- Hlen, Htake. by rewrite map_app.
    + destruct (mmio_read (blm_hist_ctl (reg (dpst d))) h) as [c h1] eqn:Hctl.
      rewrite (read_bins_busy _ _ _ _ _ _ _ _ Hlt Hrd Hbusy Hctl) in Hrun.
      apply (IH _ _ _ _ _ []) in Hrun; [done|lia|done|done|].
      cbn. split; [|done]. eexists. by rewrite app_nil_r.
  - rewrite read_bins_done in Hrun by done. injection Hrun as <- <-.
    exists vs. split; [f_equal; lia|]. split; [done|].
    by rewrite upd_status_id.
Qed.

(** X10: when get_bin_data returns 0, the first HIST_BIN_COUNT entries
    of the caller's status array are the count fields of the last
    HIST_BIN_COUNT reads of the bin register, in order, none of which
    showed the busy bit: the histogram comes from one pass that was
    not interrupted. The rest of the array and of the ioctl data is as
    the caller passed it. *)
Theorem get_bin_data_snapshot fuel ioctl_data (d : device) data' d' :
  0 ≤ HIST_BIN_COUNT →
  (Z.to_nat HIST_BIN_COUNT ≤ length (status ioctl_data))%nat →
  i915_dpst_get_bin_data fuel ioctl_data d = Some (0, data', d') →
  ∃ vs,
    length vs = Z.to_nat HIST_BIN_COUNT ∧
    pass_recorded (blm_hist_bin (reg (dpst d))) vs (trace d') (status data') ∧
    drop (Z.to_nat HIST_BIN_COUNT) (status data') =
      drop (Z.to_nat HIST_BIN_COUNT) (status ioctl_data) ∧
    data' = upd_status (status data') ioctl_data.
Proof.
  intros Hpos Hroom Hrun.
  destruct (negb (enabled (dpst d)) && negb (user_enable (dpst d))) eqn:Hoff.
  { unfold i915_dpst_get_bin_data in Hrun. rewrite Hoff in Hrun. done. }
  assert (Hon : enabled (dpst d) = true ∨ user_enable (dpst d) = true).
  { destruct (enabled (dpst d)), (user_enable (dpst d)); auto. }
  destruct (mmio_read (blm_hist_ctl (reg (dpst d))) (mmio d)) as [c h] eqn:Hrd.
  rewrite (get_bin_data_accepted _ _ _ _ _ Hon Hrd) in Hrun.
  destruct (read_bins _ _ _ _) as [[data1 d1]|] eqn:Hloop; [|done].
  injection Hrun as <- <-.
  apply (read_bins_pass _ _ _ _ _ _ []) in Hloop; [|lia|done|done|].
  - destruct Hloop as (vs & Hlen & Hpass & _ & Hd & Hdata). by exists vs.
  - cbn. split; [|done]. eexists. by rewrite app_nil_r.
Qed.

(** *** Applying settings while live *)

(** X8: apply_luma on an enabled device (eDP connector, user_enable, no
    kernel suppression) returns 0 after, in this order: programming
    the table, setting blc_adjustment to the new factor, setting the
    backlight to the panel level scaled by that factor, and or-ing
    IE_MOD_TABLE_ENABLE and ENHANCEMENT_MODE_MULT into the control
    register; the snapshot is not touched. *)
Theorem apply_luma_live_effect ioctl_data (d : device) i v h c h2 :
  edp d = Some i → user_enable (dpst d) = true → kernel_disable (dpst d) = false →
  enabled (dpst d) = true →
  mmio_read (blm_hist_ctl (reg (dpst d))) (mmio d) = (v, h) →
  mmio_read (blm_hist_ctl (reg (dpst d))) (program_table_hw ioctl_data (dpst d) v h)
    = (c, h2) →
  i915_dpst_apply_luma ioctl_data d =
    (0, evolve (upd_blc_adjustment (dpst_blc_factor ioctl_data) (dpst d))
          (mmio_write (blm_hist_ctl (reg (dpst d)))
             (Z.lor c (Z.lor IE_MOD_TABLE_ENABLE ENHANCEMENT_MODE_MULT)) h2)
          (program_table_events ioctl_data (dpst d) v ++
           [EvBacklight (u32 (backlight_level i * dpst_blc_factor ioctl_data) / 100 / 100);
            EvRead (blm_hist_ctl (reg (dpst d))) c;
            EvWrite (blm_hist_ctl (reg (dpst d)))
              (Z.lor c (Z.lor IE_MOD_TABLE_ENABLE ENHANCEMENT_MODE_MULT))]) d).
Proof.
  intros Hc Hue Hkd Hen Hrd Hrd2.
  unfold i915_dpst_apply_luma, get_intel_connector_on_edp. unfold bind at 1.
  unfold edp in Hc. rewrite Hc.
  unfold load at 1, bind at 1. rewrite Hue. cbn [negb].
  unfold bind at 1, I915_READ at 1. rewrite Hrd.
  unfold bind at 1, I915_WRITE at 1.
  unfold bind at 1. rewrite for_each_write.
  unfold load at 1, bind at 1. cbn [dpst with_io evolve]. rewrite Hkd.
  unfold i915_dpst_set_brightness, get_intel_connector_on_edp,
    intel_panel_actually_set_backlight, I915_READ, I915_WRITE, assign, load, bind, ret.
  cbn -[Z.mul Z.div u32 seqZ]. rewrite Hc. cbn -[Z.mul Z.div u32 seqZ]. rewrite Hen.
  cbn -[Z.mul Z.div u32 seqZ].
  unfold program_table_hw, select_ie in Hrd2. rewrite Hrd2.
  unfold evolve, with_io, with_dpst, program_table_events, select_ie.
  cbn -[Z.mul Z.div u32 seqZ].
  by rewrite <- !app_assoc.
Qed.


(** *** A deferred apply takes effect when the kernel re-enables *)

(** X9: settings applied while the kernel suppresses DPST take effect
    when it stops doing so: apply_luma leaves blc_adjustment alone,
    and the following set_kernel_disable(false) ends enabled with
    blc_adjustment equal to the factor applied, having set the
    backlight to the panel level scaled by it and re-enabled the
    table. *)
Theorem deferred_apply_takes_effect_on_kernel_enable ioctl_data (d : device) i :
  has_dpst d = true → edp d = Some i →
  user_enable (dpst d) = true → kernel_disable (dpst d) = true →
  ∃ d1 d2 es c,
    i915_dpst_apply_luma ioctl_data d = (0, d1) ∧
    blc_adjustment (dpst d1) = blc_adjustment (dpst d) ∧
    i915_dpst_set_kernel_disable false d1 = (0, d2) ∧
    enabled (dpst d2) = true ∧ kernel_disable (dpst d2) = false ∧
    blc_adjustment (dpst d2) = dpst_blc_factor ioctl_data ∧
    trace d2 = trace d1 ++ es ++
      [EvBacklight (u32 (backlight_level i * dpst_blc_factor ioctl_data) / 100 / 100);
       EvRead (blm_hist_ctl (reg (dpst d))) c;
       EvWrite (blm_hist_ctl (reg (dpst d)))
         (Z.lor c (Z.lor IE_MOD_TABLE_ENABLE ENHANCEMENT_MODE_MULT))].
Proof.
  intros Hcap Hi Hu Hkd.
  destruct (mmio_read (blm_hist_ctl (reg (dpst d))) (mmio d)) as [v h] eqn:Hrd.
  rewrite (apply_luma_deferred _ _ _ _ _ Hi Hu Hkd Hrd).
  set (d1 := evolve _ _ _ d).
  assert (Hcap1 : has_dpst d1 = true) by exact Hcap.
  assert (Hu1 : user_enable (dpst d1) = true) by exact Hu.
  pose proof (set_kernel_disable_false_eq d1 Hcap1 Hu1) as Hk.
  destruct (enable_trace (with_dpst (upd_kernel_disable false (dpst d1)) d1))
    as (h1 & c1 & g1 & g2 & He).
  rewrite He in Hk. cbn [snd] in Hk.
  match type of Hk with context [i915_dpst_restore_luma ?x] =>
    destruct (restore_trace x i Hi) as (h2 & c2 & Hr); [reflexivity|reflexivity|] end.
  rewrite Hr in Hk. cbn [snd] in Hk.
  eexists d1, _, (enable_events (dpst d) c1 g1 g2), c2.
  split; [reflexivity|]. split; [reflexivity|].
  split; [exact Hk|].
  split; [reflexivity|]. split; [reflexivity|]. split; [reflexivity|].
  unfold restore_events, evolve, with_dpst, d1.
  cbn [trace dpst saved saved_blc_adjustment reg upd_saved upd_kernel_disable on_enable
       upd_blc_adjustment upd_enabled].
  rewrite <- !app_assoc. reflexivity.
Qed.

(** *** The adjustment while DPST is off *)

Lemma outcome_neutral (d : device) e r d' (adj0 : Z) :
  outcome d e r d' → is_Some (edp d) →
  gate_inv d ∧
  (enabled (dpst d) = false →
   blc_adjustment (dpst d) = adj0 ∨ blc_adjustment (dpst d) = DPST_MAX_FACTOR) →
  gate_inv d' ∧
  (enabled (dpst d') = false →
   blc_adjustment (dpst d') = adj0 ∨ blc_adjustment (dpst d') = DPST_MAX_FACTOR).
Proof.
  intros Ho [i Hi] Hinv. unfold gate_inv in *.
  pose proof (has_edp_Some _ _ Hi) as Hedp.
  destruct Ho; try done.
  all: rewrite ?Hedp in *.
  all: unfold user_gate, kernel_gate, init_dpst, on_enable, on_disable in *.
  all: try destruct b.
  all: try destruct (ie_on d).
  all: destruct (dpst d) as [[] [] [] ? ? ? ? [[] ?]]; cbn in *;
    try done; try (by intuition congruence); try (by intuition auto).
Qed.

(** X22: with an eDP connector, in every state reached from a
    zero-initialised DPST record through any entry point, enabled =
    (user_enable && !kernel_disable), and while enabled is false
    blc_adjustment is 0 (never set) or DPST_MAX_FACTOR. *)
Theorem adjustment_neutral_while_disabled (d0 d : device) :
  is_Some (edp d0) → dpst d0 = dpst0 → reachable d0 d →
  gate_inv d ∧
  (enabled (dpst d) = false →
   blc_adjustment (dpst d) = 0 ∨ blc_adjustment (dpst d) = DPST_MAX_FACTOR).
Proof.
  intros Hedp H0 Hreach.
  assert (Hc0 : coherent d0).
  { unfold coherent. rewrite H0. by destruct (edp d0). }
  induction Hreach as [|d fuel e r d' Hreach IH Hrun].
  - unfold gate_inv. rewrite H0. cbn. by auto.
  - destruct (reachable_coherent _ _ Hreach Hc0) as (_ & Hl & _).
    apply run_entry_outcome in Hrun.
    apply (outcome_neutral _ _ _ _ 0 Hrun); [|done].
    unfold edp in *. by rewrite Hl.
Qed.

End Controller.

(** ** Register contents after the hardware sequences *)

Ltac Zbits_spec :=
  repeat first [rewrite Z.land_spec | rewrite Z.lor_spec
               | rewrite Z.lnot_spec by done | rewrite Z.bits_0].

Ltac Zbits :=
  apply Z.bits_inj'; intros ? ?; Zbits_spec;
  repeat match goal with |- context [Z.testbit ?x ?n] => destruct (Z.testbit x n) end;
  done.

Section RegisterContents.

Context `{!dpst_config}.

Abbreviation rdevice := (drm_device (gmap Z Z)).

#[local] Arguments i915_dpst_set_user_enable : simpl never.
#[local] Arguments i915_dpst_enable_hist_interrupt : simpl never.
#[local] Arguments i915_dpst_init : simpl never.

Lemma bits_kept_refl (v : Z) : bits_kept v v.
Proof. unfold bits_kept. Zbits. Qed.

Lemma bits_kept_lor_l (v k : Z) : bits_kept v (Z.lor v k).
Proof. unfold bits_kept. Zbits. Qed.

Lemma bits_kept_lor_r (v k : Z) : bits_kept k (Z.lor v k).
Proof. unfold bits_kept. Zbits. Qed.

Lemma bits_kept_trans (a b c : Z) : bits_kept a b → bits_kept b c → bits_kept a c.
Proof.
  unfold bits_kept. intros Hab Hbc. rewrite <- Hab at 2.
  rewrite <- Hbc at 1. rewrite <- Hab at 1.
  Zbits.
Qed.

Lemma bits_kept_lor_join (a b v : Z) :
  bits_kept a v → bits_kept b v → bits_kept (Z.lor a b) v.
Proof.
  unfold bits_kept. intros Ha Hb. by rewrite Z.land_lor_distr_l, Ha, Hb.
Qed.

Lemma bits_kept_lor_split (a b v : Z) :
  bits_kept (Z.lor a b) v → bits_kept a v ∧ bits_kept b v.
Proof.
  intros Hk. split.
  - apply (bits_kept_trans _ (Z.lor a b)); [apply bits_kept_lor_l|done].
  - apply (bits_kept_trans _ (Z.lor a b)); [apply bits_kept_lor_r|done].
Qed.

(** Or-ing [k] into the register at [a]: no register loses a bit, the
    register at [a] has the bits of [k], the others are untouched. *)
Lemma or_write_kept (m : gmap Z Z) (a k b : Z) :
  bits_kept (default 0 (m !! b))
            (default 0 (<[a := Z.lor (default 0 (m !! a)) k]> m !! b)).
Proof.
  destruct (decide (a = b)) as [->|Hne].
  - rewrite lookup_insert_eq. apply bits_kept_lor_l.
  - rewrite lookup_insert_ne by done. apply bits_kept_refl.
Qed.

Lemma or_write_sets (m : gmap Z Z) (a k : Z) :
  bits_kept k (default 0 (<[a := Z.lor (default 0 (m !! a)) k]> m !! a)).
Proof. rewrite lookup_insert_eq. apply bits_kept_lor_r. Qed.

(** X2: on a register file, clearing the histogram interrupt returns 0,
    leaves the DPST record alone, ors HISTOGRAM_EVENT_STATUS into the
    guard register and touches no other register; a second call finds
    nothing left to change. *)
Theorem clear_hist_interrupt_sets_status (d : rdevice) :
  ∃ d', i915_dpst_clear_hist_interrupt d = (0, d') ∧
    dpst d' = dpst d ∧
    peek (blm_hist_guard (reg (dpst d))) d' =
      Z.lor (peek (blm_hist_guard (reg (dpst d))) d) HISTOGRAM_EVENT_STATUS ∧
    (∀ a, a ≠ blm_hist_guard (reg (dpst d)) → peek a d' = peek a d) ∧
    mmio (snd (i915_dpst_clear_hist_interrupt d')) = mmio d'.
Proof.
  eexists. split; [reflexivity|]. unfold peek. cbn.
  split; [done|]. split; [by rewrite lookup_insert_eq|].
  split; [intros a Ha; by rewrite lookup_insert_ne|].
  rewrite lookup_insert_eq. cbn. rewrite insert_insert_eq.
  f_equal. Zbits.
Qed.

(** X3: on a register file, after the enable sequence the control
    register has IE_HISTOGRAM_ENABLE and HSV_INTENSITY_MODE set, the
    guard register has HISTOGRAM_EVENT_STATUS and
    HISTOGRAM_INTERRUPT_ENABLE set, no register has lost a bit, and
    only these two registers have changed. *)
Theorem enable_sets_histogram_bits (d : rdevice) :
  ∃ d', i915_dpst_enable_hist_interrupt d = (0, d') ∧
    bits_kept (Z.lor IE_HISTOGRAM_ENABLE HSV_INTENSITY_MODE)
              (peek (blm_hist_ctl (reg (dpst d))) d') ∧
    bits_kept (Z.lor HISTOGRAM_EVENT_STATUS HISTOGRAM_INTERRUPT_ENABLE)
              (peek (blm_hist_guard (reg (dpst d))) d') ∧
    (∀ a, bits_kept (peek a d) (peek a d')) ∧
    (∀ a, a ≠ blm_hist_ctl (reg (dpst d)) → a ≠ blm_hist_guard (reg (dpst d)) →
          peek a d' = peek a d).
Proof.
  unfold i915_dpst_enable_hist_interrupt, intel_wait_for_vblank, I915_READ, I915_WRITE,
    assign, load, bind, ret. cbn.
  eexists. split; [reflexivity|]. unfold peek. cbn.
  set (c := blm_hist_ctl (reg (dpst d))). set (g := blm_hist_guard (reg (dpst d))).
  set (m1 := <[c := _]> (mmio d)). set (m2 := <[g := _]> m1).
  split; [|split; [|split]].
  - eapply bits_kept_trans; [apply (or_write_sets (mmio d) c)|]. fold m1.
    eapply bits_kept_trans; apply or_write_kept.
  - assert (H1 : bits_kept HISTOGRAM_EVENT_STATUS (default 0 (m2 !! g)))
      by apply or_write_sets.
    pose proof (or_write_kept m2 g HISTOGRAM_INTERRUPT_ENABLE g) as H2.
    pose proof (or_write_sets m2 g HISTOGRAM_INTERRUPT_ENABLE) as H3.
    pose proof (bits_kept_trans _ _ _ H1 H2) as H4.
    by apply bits_kept_lor_join.
  - intros a. eapply bits_kept_trans; [apply (or_write_kept (mmio d) c)|]. fold m1.
    eapply bits_kept_trans; apply or_write_kept.
  - intros a Hc Hg. unfold m2, m1. by rewrite !lookup_insert_ne.
Qed.

(** X4: on a register file with an eDP connector, the disable sequence
    returns 0 with enabled false and blc_adjustment at
    DPST_MAX_FACTOR; the interrupt-enable bit of the guard register
    and the histogram-enable and table-enable bits of the control
    register are clear, no other register has changed, and the last
    thing done is to set the backlight to the panel's unadjusted
    level. *)
Theorem disable_clears_histogram_bits (d : rdevice) i :
  edp d = Some i →
  ∃ d', i915_dpst_disable_hist_interrupt d = (0, d') ∧
    enabled (dpst d') = false ∧
    blc_adjustment (dpst d') = DPST_MAX_FACTOR ∧
    Z.land (peek (blm_hist_guard (reg (dpst d))) d') HISTOGRAM_INTERRUPT_ENABLE = 0 ∧
    Z.land (peek (blm_hist_ctl (reg (dpst d))) d') IE_HISTOGRAM_ENABLE = 0 ∧
    Z.land (peek (blm_hist_ctl (reg (dpst d))) d') IE_MOD_TABLE_ENABLE = 0 ∧
    (∀ a, a ≠ blm_hist_ctl (reg (dpst d)) → a ≠ blm_hist_guard (reg (dpst d)) →
          peek a d' = peek a d) ∧
    last (trace d') = Some (EvBacklight (backlight_level i)).
Proof.
  intros Hi. unfold i915_dpst_disable_hist_interrupt, get_intel_connector_on_edp.
  unfold bind at 1. unfold edp in Hi. rewrite Hi.
  unfold intel_panel_actually_set_backlight, I915_READ, I915_WRITE,
    assign, load, bind, ret. cbn.
  eexists. split; [reflexivity|]. unfold peek. cbn.
  set (c := blm_hist_ctl (reg (dpst d))). set (g := blm_hist_guard (reg (dpst d))).
  split; [done|]. split; [done|].
  split; [|split; [|split; [|split]]].
  - destruct (decide (c = g)) as [->|Hne].
    + rewrite !lookup_insert_eq. cbn. Zbits.
    + rewrite lookup_insert_ne, lookup_insert_eq by done. cbn. Zbits.
  - rewrite lookup_insert_eq. cbn. Zbits.
  - rewrite lookup_insert_eq. cbn. Zbits.
  - intros a Hc Hg. by rewrite !lookup_insert_ne.
  - by rewrite !last_snoc.
Qed.


Lemma enable_keeps_bits (d : rdevice) a :
  bits_kept (peek a d) (peek a (snd (i915_dpst_enable_hist_interrupt d))).
Proof.
  unfold i915_dpst_enable_hist_interrupt, intel_wait_for_vblank, I915_READ, I915_WRITE,
    assign, load, bind, ret, peek. cbn.
  eapply bits_kept_trans; [apply or_write_kept|].
  eapply bits_kept_trans; apply or_write_kept.
Qed.

Lemma set_user_enable_true_keeps_bits (d : rdevice) a :
  bits_kept (peek a d) (peek a (snd (i915_dpst_set_user_enable true d))).
Proof.
  unfold i915_dpst_set_user_enable, assign, load, bind, ret. cbn.
  destruct (negb (kernel_disable (dpst d)) && negb (enabled (dpst d))).
  - apply (enable_keeps_bits (with_dpst (upd_user_enable true (dpst d)) d)).
  - apply bits_kept_refl.
Qed.

Lemma init_keeps_bits current ioctl_data (d : rdevice) a :
  bits_kept (peek a d) (peek a (snd (i915_dpst_init current ioctl_data d))).
Proof.
  unfold i915_dpst_init, i915_dpst_update_registers.
  generalize (match pipe_a_crtc d with
              | Some (Some mode) =>
                upd_image_res (u32 (hdisplay mode * vdisplay mode))
                  (upd_threshold_gb
                     (u32 (Z.quot (DEFAULT_GUARDBAND_VAL * hdisplay mode * vdisplay mode) 1000))
                     ioctl_data)
              | _ => ioctl_data
              end). intros data.
  destruct (platform d) eqn:Hp; unfold bind at 1; rewrite ?Hp;
    [| |apply bits_kept_refl].
  all: unfold assign, bind, ret, I915_READ, I915_WRITE; cbn -[Z.shiftl u32];
    match goal with |- context [i915_dpst_set_user_enable true ?x] =>
      pose proof (set_user_enable_true_keeps_bits x a) as Hk;
      destruct (i915_dpst_set_user_enable true x) as [r d1] end;
    cbn in *; eapply bits_kept_trans; [|exact Hk];
    unfold peek; cbn; apply or_write_kept.
Qed.

(** X15: on a register file, the Enable, Init and
    Reset-histogram-status ioctls only ever set bits: no register
    loses a bit it had. In particular a second init cannot lower the
    guardband threshold or delay in the guard register. *)
Theorem setting_ioctls_only_set_bits fuel current ioctl_data (d : rdevice) r data' d' :
  dpst_ioctl_type ioctl_data = DPST_ENABLE ∨
  dpst_ioctl_type ioctl_data = DPST_INIT_DATA ∨
  dpst_ioctl_type ioctl_data = DPST_RESET_HISTOGRAM_STATUS →
  i915_dpst_context fuel current (Some ioctl_data) d = Some (r, data', d') →
  ∀ a, bits_kept (peek a d) (peek a d').
Proof.
  intros Hty Hrun a. unfold i915_dpst_context in Hrun.
  destruct (has_dpst d); cbn [negb] in Hrun;
    [|injection Hrun as <- <- <-; apply bits_kept_refl].
  destruct Hty as [Hty|[Hty|Hty]]; rewrite Hty in Hrun.
  - pose proof (set_user_enable_true_keeps_bits d a) as Hk.
    destruct (i915_dpst_set_user_enable true d) as [r1 d1].
    by injection Hrun as <- <- <-.
  - pose proof (init_keeps_bits current ioctl_data d a) as Hk.
    destruct (i915_dpst_init current ioctl_data d) as [[r1 data1] d1].
    by injection Hrun as <- <- <-.
  - unfold i915_dpst_clear_hist_interrupt, I915_READ, I915_WRITE, bind, ret in Hrun.
    cbn in Hrun. injection Hrun as <- <- <-. unfold peek. cbn. apply or_write_kept.
Qed.

(** X7: on a register file whose control and guard registers differ and
    whose table-enable bit is none of the bits the enable sequence
    sets: after a user Disable and Enable of an enabled device the
    enhancement table is off in hardware. *)
Theorem user_cycle_leaves_table_off (d : rdevice) :
  is_Some (edp d) → enabled (dpst d) = true → kernel_disable (dpst d) = false →
  blm_hist_ctl (reg (dpst d)) ≠ blm_hist_guard (reg (dpst d)) →
  Z.land (Z.lor IE_HISTOGRAM_ENABLE HSV_INTENSITY_MODE) IE_MOD_TABLE_ENABLE = 0 →
  ∃ d1 d2,
    i915_dpst_set_user_enable false d = (0, d1) ∧
    i915_dpst_set_user_enable true d1 = (0, d2) ∧
    enabled (dpst d2) = true ∧
    Z.land (peek (blm_hist_ctl (reg (dpst d))) d2) IE_MOD_TABLE_ENABLE = 0.
Proof.
  intros [i Hi] He Hkd Hne Hdis.
  unfold i915_dpst_set_user_enable at 1.
  unfold i915_dpst_disable_hist_interrupt, get_intel_connector_on_edp,
    intel_panel_actually_set_backlight, I915_READ, I915_WRITE,
    assign, load, bind, ret. cbn.
  unfold edp in Hi. rewrite He. cbn. rewrite Hi. cbn.
  eexists. eexists. split; [reflexivity|].
  unfold i915_dpst_set_user_enable, i915_dpst_enable_hist_interrupt,
    intel_wait_for_vblank, I915_READ, I915_WRITE, assign, load, bind, ret. cbn.
  rewrite Hkd. cbn.
  split; [reflexivity|]. split; [done|].
  unfold peek. cbn.
  set (c := blm_hist_ctl (reg (dpst d))) in *.
  set (g := blm_hist_guard (reg (dpst d))) in *.
  rewrite !(lookup_insert_ne _ g c) by done.
  rewrite !lookup_insert_eq. cbn.
  revert Hdis. generalize (Z.lor IE_HISTOGRAM_ENABLE HSV_INTENSITY_MODE). intros k Hdis.
  apply Z.bits_inj'. intros n Hn.
  apply (f_equal (λ z, Z.testbit z n)) in Hdis.
  rewrite Z.land_spec, Z.bits_0 in Hdis.
  Zbits_spec.
  destruct (Z.testbit k n), (Z.testbit IE_MOD_TABLE_ENABLE n); cbn in *; try done.
  all: by rewrite ?andb_false_r, ?andb_true_r.
Qed.

(** *** The window of the bin register *)

Lemma read_bins_keeps_histogram_window (fuel : nat) :
  ∀ index ioctl_data (d : rdevice) data' d',
    Z.land (peek (blm_hist_ctl (reg (dpst d))) d) BIN_REG_FUNCTION_SELECT_IE = 0 →
    read_bins fuel index ioctl_data d = Some (data', d') →
    Z.land (peek (blm_hist_ctl (reg (dpst d))) d') BIN_REG_FUNCTION_SELECT_IE = 0.
Proof.
  induction fuel as [|fuel IH]; intros index ioctl_data d data' d' Hsel Hrun; [done|].
  destruct (Z.lt_ge_cases index HIST_BIN_COUNT) as [Hlt|Hge].
  - pose proof (mmio_read_regfile (blm_hist_bin (reg (dpst d))) d) as Hrd.
    destruct (Z.eq_dec (Z.land (peek (blm_hist_bin (reg (dpst d))) d) BUSY_BIT) 0)
      as [Hidle|Hbusy].
    + rewrite (read_bins_idle _ _ _ _ _ _ Hlt Hrd Hidle) in Hrun.
      by apply IH in Hrun.
    + pose proof (mmio_read_regfile (blm_hist_ctl (reg (dpst d))) d) as Hctl.
      rewrite (read_bins_busy _ _ _ _ _ _ _ _ Hlt Hrd Hbusy Hctl) in Hrun.
      apply IH in Hrun; [done|].
      unfold peek, reset_index in *. cbn. rewrite lookup_insert_eq. cbn.
      revert Hsel. generalize (default 0 (mmio d !! blm_hist_ctl (reg (dpst d)))).
      intros c Hsel. apply Z.bits_inj'. intros n Hn.
      apply (f_equal (λ z, Z.testbit z n)) in Hsel.
      rewrite Z.land_spec, Z.bits_0 in Hsel. Zbits_spec.
      destruct (Z.testbit c n), (Z.testbit BIN_REG_FUNCTION_SELECT_IE n);
        cbn in *; try done.
      by rewrite andb_false_r.
  - rewrite read_bins_done in Hrun by done. by injection Hrun as <- <-.
Qed.

(** X29: on a register file, when get_bin_data returns 0 it leaves the
    bin register switched to the histogram: BIN_REG_FUNCTION_SELECT_IE,
    which apply_luma sets to program the enhancement table, is clear in
    the control register, however often the loop had to restart. *)
Theorem get_bin_data_selects_histogram fuel ioctl_data (d : rdevice) data' d' :
  i915_dpst_get_bin_data fuel ioctl_data d = Some (0, data', d') →
  Z.land (peek (blm_hist_ctl (reg (dpst d))) d') BIN_REG_FUNCTION_SELECT_IE = 0.
Proof.
  intros Hrun.
  destruct (negb (enabled (dpst d)) && negb (user_enable (dpst d))) eqn:Hoff.
  { unfold i915_dpst_get_bin_data in Hrun. rewrite Hoff in Hrun. done. }
  assert (Hon : enabled (dpst d) = true ∨ user_enable (dpst d) = true).
  { destruct (enabled (dpst d)), (user_enable (dpst d)); auto. }
  rewrite (get_bin_data_accepted _ _ _ _ _ Hon
             (mmio_read_regfile (blm_hist_ctl (reg (dpst d))) d)) in Hrun.
  destruct (read_bins _ _ _ _) as [[data1 d1]|] eqn:Hloop; [|done].
  injection Hrun as <- <-.
  apply read_bins_keeps_histogram_window in Hloop; [exact Hloop|].
  unfold peek, select_histogram. cbn. rewrite lookup_insert_eq. cbn.
  generalize (default 0 (mmio d !! blm_hist_ctl (reg (dpst d)))). intros c.
  Zbits.
Qed.

End RegisterContents.

(** ** Scenarios *)

Section FurtherScenarios.

#[local] Existing Instance i915_config.

Lemma set_brightness_never_brighter_witness :
  ∃ es,
    i915_dpst_set_brightness 800 active_panel =
      (tt, evolve (dpst active_panel) (mmio active_panel) es active_panel) ∧
    (length es ≤ 1)%nat ∧
    Forall (λ e, ∃ level, e = EvBacklight level ∧ 0 ≤ level ≤ 800 ∧
                   (blc_adjustment (dpst active_panel) = 10000 → level = 800)) es.
Proof.
  apply (set_brightness_never_brighter 800 active_panel).
  - lia.
  - by vm_compute.
  - by vm_compute.
Defined.

Lemma registration_changes_only_in_init_witness :
  (task (dpst initialised_panel) = task (dpst with_panel) ∧
   signal (dpst initialised_panel) = signal (dpst with_panel) ∧
   reg (dpst initialised_panel) = reg (dpst with_panel)) ∨
  (∃ current ioctl_data, ioctl DPST_INIT_DATA = Ioctl current (Some ioctl_data) ∧
     dpst_ioctl_type ioctl_data = DPST_INIT_DATA ∧ 0 = 0 ∧
     task (dpst initialised_panel) = Some current ∧
     signal (dpst initialised_panel) = sig_num ioctl_data ∧
     platform_regs (platform with_panel) = Some (reg (dpst initialised_panel))).
Proof.
  apply (registration_changes_only_in_init 64 (ioctl DPST_INIT_DATA) with_panel 0
           initialised_panel).
  by vm_compute.
Defined.

Lemma registered_task_has_platform_registers_witness :
  platform active_panel = platform with_panel ∧
  match task (dpst active_panel) with
  | Some _ => platform_regs (platform with_panel) = Some (reg (dpst active_panel))
  | None => reg (dpst active_panel) = reg (dpst with_panel)
  end.
Proof.
  apply (registered_task_has_platform_registers with_panel active_panel).
  - exact active_panel_reachable.
  - by vm_compute.
Defined.

Lemma user_disable_enable_forgets_adjustment_witness :
  ∃ d1 d2,
    i915_dpst_set_user_enable false active_panel = (0, d1) ∧
    i915_dpst_set_user_enable true d1 = (0, d2) ∧
    enabled (dpst d1) = false ∧
    enabled (dpst d2) = true ∧
    blc_adjustment (dpst d2) = DPST_MAX_FACTOR ∧
    is_valid (saved (dpst d2)) = false.
Proof.
  apply (user_disable_enable_forgets_adjustment active_panel).
  - exists (edp_panel 1000). by vm_compute.
  - by vm_compute.
Defined.

Lemma set_kernel_disable_true_idempotent_witness :
  i915_dpst_set_kernel_disable true (snd (i915_dpst_set_kernel_disable true active_panel)) =
    i915_dpst_set_kernel_disable true active_panel ∧
  (has_dpst active_panel = true → fst (i915_dpst_set_kernel_disable true active_panel) = 0).
Proof.
  apply (set_kernel_disable_true_idempotent active_panel).
  exists (edp_panel 1000). by vm_compute.
Defined.

Lemma ioctl_error_conditions_witness :
  (- EINVAL = 0 ∨ - EINVAL = - EINVAL) ∧
  (- EINVAL = - EINVAL ↔
   has_dpst no_panel = false ∨
   (edp no_panel = None ∨ user_enable (dpst no_panel) = false)).
Proof.
  apply (ioctl_error_conditions 0 1 (Some (ioctl_cmd DPST_APPLY_LUMA)) no_panel
           (- EINVAL) (Some (ioctl_cmd DPST_APPLY_LUMA)) no_panel).
  by vm_compute.
Defined.

Lemma legacy_reachable :
  reachable legacy (after [ioctl DPST_INIT_DATA; KernelDisable true; Irq;
                           SetBrightness 500] legacy).
Proof.
  apply (run_entries_reachable 64 [ioctl DPST_INIT_DATA; KernelDisable true; Irq;
                                   SetBrightness 500] legacy legacy).
  - constructor.
  - by vm_compute.
Defined.

Lemma device_without_dpst_is_inert_witness :
  after [ioctl DPST_INIT_DATA; KernelDisable true; Irq; SetBrightness 500] legacy = legacy.
Proof.
  apply (device_without_dpst_is_inert legacy).
  - by vm_compute.
  - by vm_compute.
  - by vm_compute.
  - exact legacy_reachable.
Defined.

Lemma flag_ownership_witness :
  user_enable (dpst (after [KernelDisable true] active_panel)) =
    user_enable (dpst active_panel) ∧
  kernel_disable (dpst (after [KernelDisable true] active_panel)) =
    (if has_dpst active_panel then true else kernel_disable (dpst active_panel)).
Proof.
  apply (flag_ownership 64 (KernelDisable true) active_panel 0
           (after [KernelDisable true] active_panel)).
  by vm_compute.
Defined.

Lemma init_registers_caller_witness :
  ∃ regs data' d' g es,
    platform_regs (platform with_panel) = Some regs ∧
    i915_dpst_init 1 (ioctl_cmd DPST_INIT_DATA) with_panel = (0, data', d') ∧
    reg (dpst d') = regs ∧
    task (dpst d') = Some 1 ∧
    signal (dpst d') = sig_num (ioctl_cmd DPST_INIT_DATA) ∧
    user_enable (dpst d') = true ∧
    kernel_disable (dpst d') = kernel_disable (dpst with_panel) ∧
    enabled (dpst d') = enabled (dpst with_panel) || negb (kernel_disable (dpst with_panel)) ∧
    trace d' = trace with_panel ++
      EvRead (blm_hist_guard regs) g ::
      EvWrite (blm_hist_guard regs)
        (Z.lor g (Z.lor (u32 (Z.shiftl (gb_delay (ioctl_cmd DPST_INIT_DATA)) 22))
                        (threshold_gb data'))) ::
      es ∧
    i915_dpst_irq_handler d' =
      (tt, evolve (dpst d') (mmio d')
             [EvSignal (sig_num (ioctl_cmd DPST_INIT_DATA)) 1] d').
Proof.
  apply (init_registers_caller 1 (ioctl_cmd DPST_INIT_DATA) with_panel).
  by vm_compute.
Defined.


Lemma apply_luma_live_effect_witness :
  ∃ c h2,
    i915_dpst_apply_luma (ioctl_cmd DPST_APPLY_LUMA) initialised_panel =
      (0, evolve (upd_blc_adjustment 5000 (dpst initialised_panel))
            (mmio_write (blm_hist_ctl (reg (dpst initialised_panel)))
               (Z.lor c (Z.lor IE_MOD_TABLE_ENABLE ENHANCEMENT_MODE_MULT)) h2)
            (program_table_events (ioctl_cmd DPST_APPLY_LUMA) (dpst initialised_panel)
               (peek (blm_hist_ctl (reg (dpst initialised_panel))) initialised_panel) ++
             [EvBacklight 500;
              EvRead (blm_hist_ctl (reg (dpst initialised_panel))) c;
              EvWrite (blm_hist_ctl (reg (dpst initialised_panel)))
                (Z.lor c (Z.lor IE_MOD_TABLE_ENABLE ENHANCEMENT_MODE_MULT))])
            initialised_panel).
Proof.
  eexists _, _.
  eapply (apply_luma_live_effect (ioctl_cmd DPST_APPLY_LUMA) initialised_panel
            (edp_panel 1000)).
  - by vm_compute.
  - by vm_compute.
  - by vm_compute.
  - by vm_compute.
  - apply mmio_read_regfile.
  - reflexivity.
Defined.

Lemma deferred_apply_takes_effect_on_kernel_enable_witness :
  ∃ d1 d2 es c,
    i915_dpst_apply_luma (ioctl_cmd DPST_APPLY_LUMA) suspended_panel = (0, d1) ∧
    blc_adjustment (dpst d1) = blc_adjustment (dpst suspended_panel) ∧
    i915_dpst_set_kernel_disable false d1 = (0, d2) ∧
    enabled (dpst d2) = true ∧ kernel_disable (dpst d2) = false ∧
    blc_adjustment (dpst d2) = 5000 ∧
    trace d2 = trace d1 ++ es ++
      [EvBacklight 500;
       EvRead (blm_hist_ctl (reg (dpst suspended_panel))) c;
       EvWrite (blm_hist_ctl (reg (dpst suspended_panel)))
         (Z.lor c (Z.lor IE_MOD_TABLE_ENABLE ENHANCEMENT_MODE_MULT))].
Proof.
  apply (deferred_apply_takes_effect_on_kernel_enable (ioctl_cmd DPST_APPLY_LUMA)
           suspended_panel (edp_panel 1000)).
  - by vm_compute.
  - by vm_compute.
  - by vm_compute.
  - by vm_compute.
Defined.

Lemma adjustment_neutral_while_disabled_witness :
  gate_inv active_panel ∧
  (enabled (dpst active_panel) = false →
   blc_adjustment (dpst active_panel) = 0 ∨
   blc_adjustment (dpst active_panel) = DPST_MAX_FACTOR).
Proof.
  apply (adjustment_neutral_while_disabled with_panel active_panel).
  - exists (edp_panel 1000). by vm_compute.
  - reflexivity.
  - exact active_panel_reachable.
Defined.

Lemma disable_clears_histogram_bits_witness :
  ∃ d', i915_dpst_disable_hist_interrupt active_panel = (0, d') ∧
    enabled (dpst d') = false ∧
    blc_adjustment (dpst d') = DPST_MAX_FACTOR ∧
    Z.land (peek (blm_hist_guard (reg (dpst active_panel))) d') HISTOGRAM_INTERRUPT_ENABLE = 0 ∧
    Z.land (peek (blm_hist_ctl (reg (dpst active_panel))) d') IE_HISTOGRAM_ENABLE = 0 ∧
    Z.land (peek (blm_hist_ctl (reg (dpst active_panel))) d') IE_MOD_TABLE_ENABLE = 0 ∧
    (∀ a, a ≠ blm_hist_ctl (reg (dpst active_panel)) →
          a ≠ blm_hist_guard (reg (dpst active_panel)) →
          peek a d' = peek a active_panel) ∧
    last (trace d') = Some (EvBacklight (backlight_level (edp_panel 1000))).
Proof.
  apply (disable_clears_histogram_bits active_panel (edp_panel 1000)).
  by vm_compute.
Defined.

Lemma setting_ioctls_only_set_bits_witness :
  bits_kept (peek VLV_BLC_HIST_GUARD_A with_panel)
            (peek VLV_BLC_HIST_GUARD_A initialised_panel).
Proof.
  eapply (setting_ioctls_only_set_bits 64 1 (ioctl_cmd DPST_INIT_DATA) with_panel 0 _
            initialised_panel).
  - right. by left.
  - vm_compute. reflexivity.
Defined.

Lemma user_cycle_leaves_table_off_witness :
  ∃ d1 d2,
    i915_dpst_set_user_enable false active_panel = (0, d1) ∧
    i915_dpst_set_user_enable true d1 = (0, d2) ∧
    enabled (dpst d2) = true ∧
    Z.land (peek (blm_hist_ctl (reg (dpst active_panel))) d2) IE_MOD_TABLE_ENABLE = 0.
Proof.
  apply (user_cycle_leaves_table_off active_panel).
  - exists (edp_panel 1000). by vm_compute.
  - by vm_compute.
  - by vm_compute.
  - by vm_compute.
  - by vm_compute.
Defined.

Lemma get_bin_data_selects_histogram_witness :
  Z.land (peek (blm_hist_ctl (reg (dpst active_panel))) panel_read.2)
         BIN_REG_FUNCTION_SELECT_IE = 0.
Proof.
  apply (get_bin_data_selects_histogram 64 (ioctl_cmd DPST_GET_BIN_DATA) active_panel
           panel_read.1.2 panel_read.2).
  by vm_compute.
Defined.

End FurtherScenarios.

Section IdleScenarios.

#[local] Existing Instance i915_config.

Lemma get_bin_data_snapshot_witness :
  ∃ vs,
    length vs = Z.to_nat HIST_BIN_COUNT ∧
    @pass_recorded i915_config (blm_hist_bin (reg (dpst idle_device))) vs
      (trace idle_read.2) (status idle_read.1.2) ∧
    drop (Z.to_nat HIST_BIN_COUNT) (status idle_read.1.2) =
      drop (Z.to_nat HIST_BIN_COUNT) (status (ioctl_cmd DPST_GET_BIN_DATA)) ∧
    idle_read.1.2 = upd_status (status idle_read.1.2) (ioctl_cmd DPST_GET_BIN_DATA).
Proof.
  apply (@get_bin_data_snapshot unit idle_hw i915_config 64
           (ioctl_cmd DPST_GET_BIN_DATA) idle_device).
  - by vm_compute.
  - vm_compute. lia.
  - by vm_compute.
Defined.

End IdleScenarios.

(** * Properties of the EFI bootloader control *)

Section EfibcProperties.

Context {K : Type} `{!Kernel K} `{!efibc_config}.

Abbreviation world := (efibc_world K).

Lemma strlen_c_chars (s : list Z) : strlen s = Z.of_nat (length (c_chars s)).
Proof.
  induction s as [|c s IH]; cbn; [done|].
  destruct (c =? 0); cbn; lia.
Qed.

Lemma strlen_nonneg (s : list Z) : 0 ≤ strlen s.
Proof. rewrite strlen_c_chars. lia. Qed.

Lemma store_Some (buf : list Z) (i v : Z) :
  0 ≤ i < Z.of_nat (length buf) → store buf i v = Some (<[Z.to_nat i := v]> buf).
Proof.
  intros Hi. unfold store.
  replace (0 <=? i) with true by (symmetry; apply Z.leb_le; lia).
  replace (i <? Z.of_nat (length buf)) with true by (symmetry; apply Z.ltb_lt; lia).
  done.
Qed.

Lemma store_None (buf : list Z) (i v : Z) :
  Z.of_nat (length buf) ≤ i → store buf i v = None.
Proof.
  intros Hi. unfold store.
  replace (i <? Z.of_nat (length buf)) with false by (symmetry; apply Z.ltb_ge; lia).
  by rewrite andb_false_r.
Qed.

(** The number of characters the loop copies from [rest] when it starts
    at index [i]. *)
Lemma efichar_copy_spec (rest : list Z) :
  ∀ i bound dest,
    0 ≤ i →
    let n := Z.max 0 (Z.min (strlen rest) (bound - i)) in
    i + n ≤ Z.of_nat (length dest) →
    efichar_copy rest i bound dest =
      Some (i + n,
            take (Z.to_nat i) dest ++ map u16 (take (Z.to_nat n) (c_chars rest)) ++
            drop (Z.to_nat (i + n)) dest).
Proof.
  induction rest as [|c rest IH]; intros i bound dest Hi n Hroom; subst n.
  - cbn [strlen c_chars] in *.
    replace (Z.max 0 (Z.min 0 (bound - i))) with 0 in * by lia.
    change (Z.to_nat 0) with O. cbn. rewrite Z.add_0_r. by rewrite take_drop.
  - cbn [strlen c_chars efichar_copy] in *.
    pose proof (strlen_nonneg rest) as Hn.
    destruct (c =? 0) eqn:Hc; cbn [negb andb].
    + replace (Z.max 0 (Z.min 0 (bound - i))) with 0 in * by lia.
      change (Z.to_nat 0) with O. cbn. rewrite Z.add_0_r. by rewrite take_drop.
    + destruct (i <? bound) eqn:Hb.
      * apply Z.ltb_lt in Hb.
        replace (Z.max 0 (Z.min (1 + strlen rest) (bound - i)))
          with (1 + Z.max 0 (Z.min (strlen rest) (bound - (i + 1)))) in * by lia.
        set (m := Z.max 0 (Z.min (strlen rest) (bound - (i + 1)))) in *.
        assert (Hlt : 0 ≤ i < Z.of_nat (length dest)) by lia.
        rewrite (store_Some _ _ _ Hlt).
        rewrite IH; [|lia|rewrite length_insert; fold m; lia].
        fold m. f_equal. f_equal; [lia|].
        replace (Z.to_nat (1 + m)) with (S (Z.to_nat m)) by lia.
        cbn [take map].
        replace (Z.to_nat (i + 1)) with (S (Z.to_nat i)) by lia.
        rewrite (take_S_r _ _ (u16 c)) by (apply list_lookup_insert_eq; lia).
        rewrite take_insert_ge by done.
        rewrite drop_insert_lt by lia.
        rewrite <- app_assoc. cbn.
        by replace (i + 1 + m) with (i + (1 + m)) by lia.
      * apply Z.ltb_ge in Hb.
        replace (Z.max 0 (Z.min (1 + strlen rest) (bound - i))) with 0 in * by lia.
        change (Z.to_nat 0) with O. cbn. rewrite Z.add_0_r. by rewrite take_drop.
Qed.


Lemma size_t_small (z : Z) : 0 ≤ z < 2 ^ BITS_PER_LONG → size_t z = z.
Proof. intros Hz. unfold size_t. by apply Z.mod_small. Qed.

Lemma c_chars_length (s : list Z) : length (c_chars s) = Z.to_nat (strlen s).
Proof. rewrite strlen_c_chars. lia. Qed.

(** X23: with a destination of dest_len / 2 elements, dest_len at least 2:
    the string is cut to dest_len / 2 - 1 characters, each widened to
    16 bits, and the terminator follows them. *)
Theorem efichar_from_char_truncates (dest src : list Z) (dest_len : Z) :
  2 ≤ dest_len < 2 ^ BITS_PER_LONG →
  Z.of_nat (length dest) = dest_len / 2 →
  let n := Z.min (strlen src) (dest_len / 2 - 1) in
  efichar_from_char dest src dest_len =
    Some (n, map u16 (take (Z.to_nat n) (c_chars src)) ++
             0 :: drop (Z.to_nat n + 1) dest).
Proof.
  intros Hlen Hcap n.
  pose proof (strlen_nonneg src) as Hs.
  assert (Hhalf : 1 ≤ dest_len / 2 < 2 ^ BITS_PER_LONG).
  { split; [apply Z.div_le_lower_bound; lia|].
    apply Z.div_lt_upper_bound; lia. }
  unfold efichar_from_char.
  rewrite size_t_small by lia.
  rewrite efichar_copy_spec by lia.
  rewrite Z.sub_0_r, Z.add_0_l.
  replace (Z.max 0 (Z.min (strlen src) (dest_len / 2 - 1))) with n by lia.
  change (Z.to_nat 0) with O. rewrite take_0. cbn [app].
  set (pre := map u16 (take (Z.to_nat n) (c_chars src))).
  assert (Hpre : length pre = Z.to_nat n).
  { unfold pre. rewrite length_map, length_take, c_chars_length. lia. }
  assert (Hn : (Z.to_nat n < length dest)%nat) by lia.
  destruct (lookup_lt_is_Some_2 dest (Z.to_nat n) Hn) as [x Hx].
  rewrite (drop_S _ _ _ Hx).
  rewrite store_Some by (rewrite length_app, Hpre; cbn; lia).
  f_equal. f_equal.
  replace (Z.to_nat n) with (length pre + 0)%nat at 1 by lia.
  rewrite insert_app_r. cbn. by rewrite Nat.add_1_r.
Qed.

Lemma efichar_from_char_exact (src : list Z) :
  (1 + strlen src) * 2 < 2 ^ BITS_PER_LONG →
  efichar_from_char (replicate (Z.to_nat (efi_char16_bufsz src / 2)) 0) src
                    (efi_char16_bufsz src) =
    Some (strlen src, efi_str src).
Proof.
  intros Hfit. pose proof (strlen_nonneg src) as Hs.
  unfold efi_char16_bufsz. rewrite size_t_small by lia.
  rewrite Z.div_mul by done.
  rewrite efichar_from_char_truncates.
  - rewrite Z.div_mul by done.
    replace (Z.min (strlen src) (1 + strlen src - 1)) with (strlen src) by lia.
    rewrite <- c_chars_length, firstn_all.
    rewrite drop_ge by (rewrite length_replicate, c_chars_length; lia).
    done.
  - lia.
  - rewrite length_replicate, Z.div_mul by done. lia.
Qed.




Lemma bufsz_fits (str : list Z) :
  (1 + strlen str) * 2 < 2 ^ BITS_PER_LONG → efi_char16_bufsz str = (1 + strlen str) * 2.
Proof.
  intros Hfit. pose proof (strlen_nonneg str). unfold efi_char16_bufsz.
  apply size_t_small. lia.
Qed.

Lemma set_loader_command_run (var cmd : list Z) (w : world) :
  (1 + strlen var) * 2 < 2 ^ BITS_PER_LONG →
  (1 + strlen cmd) * 2 < 2 ^ BITS_PER_LONG →
  let nb := (1 + strlen var) * 2 in
  let cb := (1 + strlen cmd) * 2 in
  let attributes :=
    Z.lor EFI_VARIABLE_NON_VOLATILE
      (Z.lor EFI_VARIABLE_BOOTSERVICE_ACCESS EFI_VARIABLE_RUNTIME_ACCESS) in
  ∃ k es,
    set_loader_command var cmd w = Some (tt, {| kern := k; events := events w ++ es |}) ∧
    match kzalloc_succeeds nb (kern w) with
    | (false, _) => es = [EvKzalloc nb false; EvPrErr AllocFailed]
    | (true, k1) =>
      match kzalloc_succeeds cb k1 with
      | (false, _) =>
        es = [EvKzalloc nb true; EvKzalloc cb false; EvPrErr AllocFailed; EvKfree]
      | (true, k2) =>
        let status :=
          fst (efi_set_variable (efi_str var) LOADER_GUID attributes cb (efi_str cmd) k2) in
        es = [EvKzalloc nb true; EvKzalloc cb true;
              EvSetVariable (efi_str var) LOADER_GUID attributes cb (efi_str cmd) status] ++
             (if status =? EFI_SUCCESS then [] else [EvPrErr (SetVariableFailed status)]) ++
             [EvKfree; EvKfree]
      end
    end.
Proof.
  intros Hv Hc nb cb attributes.
  unfold set_loader_command.
  pose proof (efichar_from_char_exact var Hv) as Ev.
  pose proof (efichar_from_char_exact cmd Hc) as Ec.
  rewrite (bufsz_fits var Hv), (bufsz_fits cmd Hc) in *.
  fold nb cb attributes in Ev, Ec |- *.
  unfold ebind at 1. unfold kzalloc at 1.
  destruct (kzalloc_succeeds nb (kern w)) as [[] k1].
  - unfold ebind at 1. unfold kzalloc at 1. cbn [kern emit].
    destruct (kzalloc_succeeds cb k1) as [[] k2].
    + unfold ebind at 1, elift at 1. rewrite Ev.
      rewrite Z.eqb_refl. cbn [negb].
      unfold ebind at 1, elift at 1. rewrite Ec.
      rewrite Z.eqb_refl. cbn [negb].
      unfold ebind at 1, set_variable at 1. cbn [kern emit].
      destruct (efi_set_variable _ _ _ _ _ k2) as [status k3]. cbn [fst].
      unfold set_loader_command_out, kfree, pr_err, eret, ebind, emit.
      destruct (status =? EFI_SUCCESS); cbn;
        eexists _, _; (split; [rewrite <- !app_assoc; reflexivity|done]).
    + unfold set_loader_command_out, kfree, pr_err, eret, ebind, emit. cbn.
      eexists _, _. split; [rewrite <- !app_assoc; reflexivity|done].
  - unfold set_loader_command_out, kfree, pr_err, eret, ebind, emit. cbn.
    eexists _, _. split; [rewrite <- !app_assoc; reflexivity|done].
Qed.




Lemma resume_hibernate_name :
  strlen LOADER_RESUME_HIBERNATE = 21 ∧
  efi_str LOADER_RESUME_HIBERNATE = map u16 LOADER_RESUME_HIBERNATE ++ [0] ∧
  strlen (c_string "true") = 4 ∧
  efi_str (c_string "true") = [116; 114; 117; 101; 0].
Proof. repeat split; by vm_compute. Qed.


(** X27: the PM notifier returns NOTIFY_DONE in every case, and acts only
    on PM_HIBERNATION_PREPARE: it then sets LoaderResumeHibernate to
    the string true. *)
Theorem pm_notifier_sets_resume_hibernate (pm_event : Z) (w : world) :
  44 < 2 ^ BITS_PER_LONG →
  ∃ w', efibc_pm_notifier_call pm_event w = Some (NOTIFY_DONE, w') ∧
    (pm_event ≠ PM_HIBERNATION_PREPARE → w' = w) ∧
    (∀ k1 k2, pm_event = PM_HIBERNATION_PREPARE →
       kzalloc_succeeds 44 (kern w) = (true, k1) →
       kzalloc_succeeds 10 k1 = (true, k2) →
       ∃ status es,
         events w' = events w ++
           [EvKzalloc 44 true; EvKzalloc 10 true;
            EvSetVariable (map u16 LOADER_RESUME_HIBERNATE ++ [0]) LOADER_GUID
              (Z.lor EFI_VARIABLE_NON_VOLATILE
                 (Z.lor EFI_VARIABLE_BOOTSERVICE_ACCESS EFI_VARIABLE_RUNTIME_ACCESS))
              10 [116; 114; 117; 101; 0] status] ++ es).
Proof.
  intros Hfit. unfold efibc_pm_notifier_call.
  destruct resume_hibernate_name as (Hlen & Hstr & Hlen' & Hstr').
  destruct (pm_event =? PM_HIBERNATION_PREPARE) eqn:Hw.
  - apply Z.eqb_eq in Hw.
    destruct (set_loader_command_run LOADER_RESUME_HIBERNATE (c_string "true") w)
      as (k & es & Hrun & Hes); [rewrite Hlen; lia|rewrite Hlen'; lia|].
    unfold ebind. rewrite Hrun. eexists. split; [reflexivity|].
    split; [done|].
    intros k1 k2 _ Ha1 Ha2.
    rewrite Hlen, Hlen' in Hes.
    change ((1 + 21) * 2) with 44 in Hes. change ((1 + 4) * 2) with 10 in Hes.
    rewrite Ha1, Ha2, Hstr, Hstr' in Hes. cbn zeta in Hes.
    eexists _, _. cbn [events]. rewrite Hes. reflexivity.
  - apply Z.eqb_neq in Hw. eexists. split; [reflexivity|]. split; [done|].
    intros; done.
Qed.

(** X28: registration and its undoing. Without EFI runtime services
    efibc_init registers nothing and returns 0. Otherwise it registers
    the reboot notifier, then the PM notifier, and returns the first
    error; after a failed PM registration the reboot notifier stays
    registered. efibc_exit unregisters the reboot notifier and nothing
    else. *)
Theorem efibc_init_exit_registrations (w : world) :
  ∃ r w1 w2 es,
    efibc_init w = Some (r, w1) ∧
    efibc_exit w1 = Some (tt, w2) ∧
    events w1 = events w ++ es ∧
    events w2 = events w1 ++ [EvUnregisterReboot] ∧
    (efi_enabled (kern w) = false → r = 0 ∧ w1 = w) ∧
    (efi_enabled (kern w) = true →
     (r = 0 ∧ es = [EvRegisterReboot 0; EvRegisterPm 0]) ∨
     (r ≠ 0 ∧ es = [EvRegisterReboot r; EvPrErr RebootNotifierFailed]) ∨
     (r ≠ 0 ∧ es = [EvRegisterReboot 0; EvRegisterPm r; EvPrErr PmNotifierFailed])).
Proof.
  unfold efibc_init, efibc_exit.
  destruct (efi_enabled (kern w)) eqn:Hen; cbn [negb].
  - destruct (register_reboot_notifier (kern w)) as [r1 k1].
    destruct (r1 =? 0) eqn:Hr1; cbn [negb].
    + apply Z.eqb_eq in Hr1. subst r1. cbn [kern emit].
      destruct (register_pm_notifier k1) as [r2 k2].
      destruct (r2 =? 0) eqn:Hr2; cbn [negb].
      * apply Z.eqb_eq in Hr2. subst r2.
        eexists _, _, _, _. split; [reflexivity|]. split; [reflexivity|]. cbn.
        split; [by rewrite <- app_assoc|]. split; [done|]. split; [done|].
        intros _. by left.
      * apply Z.eqb_neq in Hr2. unfold pr_err, ebind, eret. cbn.
        eexists _, _, _, _. split; [reflexivity|]. split; [reflexivity|]. cbn.
        split; [by rewrite <- !app_assoc|]. split; [done|]. split; [done|].
        intros _. right. by right.
    + apply Z.eqb_neq in Hr1. unfold pr_err, ebind, eret. cbn.
      eexists _, _, _, _. split; [reflexivity|]. split; [reflexivity|]. cbn.
      split; [by rewrite <- !app_assoc|]. split; [done|]. split; [done|].
      intros _. right. by left.
  - eexists _, _, _, []. split; [reflexivity|]. split; [reflexivity|]. cbn.
    split; [by rewrite app_nil_r|]. split; [done|]. split; [done|]. done.
Qed.

End EfibcProperties.

Section EfibcScenarios.

#[local] Existing Instance efibc_x86_64.
#[local] Existing Instance willing_kernel.

Lemma efichar_from_char_truncates_witness :
  let n := Z.min (strlen (c_string "recovery")) (6 / 2 - 1) in
  efichar_from_char [0; 0; 0] (c_string "recovery") 6 =
    Some (n, map u16 (take (Z.to_nat n) (c_chars (c_string "recovery"))) ++
             0 :: drop (Z.to_nat n + 1) [0; 0; 0]).
Proof.
  apply (efichar_from_char_truncates [0; 0; 0] (c_string "recovery") 6).
  - by vm_compute.
  - by vm_compute.
Defined.




Lemma pm_notifier_sets_resume_hibernate_witness :
  ∃ w', efibc_pm_notifier_call PM_HIBERNATION_PREPARE quiet_world =
          Some (NOTIFY_DONE, w') ∧
    ∃ status es,
      events w' =
        [EvKzalloc 44 true; EvKzalloc 10 true;
         EvSetVariable (map u16 LOADER_RESUME_HIBERNATE ++ [0]) LOADER_GUID 7 10
           [116; 114; 117; 101; 0] status] ++ es.
Proof.
  destruct (pm_notifier_sets_resume_hibernate PM_HIBERNATION_PREPARE quiet_world)
    as (w' & Hrun & _ & Hset).
  - by vm_compute.
  - exists w'. split; [exact Hrun|].
    apply (Hset tt tt); reflexivity.
Defined.

End EfibcScenarios.
